(** * coin-auto-bot: the trading decision engine and the backtest simulator

    A shallow embedding of the decision logic of [src/index.tsx]
    ([updateLoop], [handleToggleBot], [runBacktest]) together with the data
    declarations of [types.ts] and the call interface of
    [services/upbitService.ts].  The repository holds a second, shorter copy
    of the application in [components/InputGroup.tsx] (no scale-in, the
    status is reset only after an accepted sell); the engine modelled here is
    the one of [index.tsx], and the [updateLoop] of the second copy is
    modelled apart, in [SecondCopy], to compare the two.

    Modelling conventions.
    - A JavaScript [number] that carries a price, an amount or a percentage
      is an exact rational ([Q]); rounding of IEEE doubles, [NaN] and the
      infinities are outside the model.  Where a divisor is zero the rational
      quotient is [0] while JavaScript yields [NaN] or an infinity: every
      statement that depends on the value of a quotient is made under
      hypotheses that keep its divisor non-zero (positive prices, a positive
      initial amount).
    - Step counters ([currentStep], [maxBuySteps], [step], [trades], ...) only
      ever hold integers in the program ([parseInt], [0], [1], [++]) and are
      integers ([Z]) here.
    - [await]ed collaborators (ticker fetch, order placement, the clock) are
      inputs of an operation; their side effects are recorded in an output
      trace.  Operations are serialised: one [updateLoop] or
      [handleToggleBot] call runs to completion before the next one starts,
      so the [statusRef]/[configRef] mirrors coincide with the React state,
      and the configuration is not edited while operations run.
    - Presentation-only state (price flash, chart history, IP panel) is
      left out. *)

From Stdlib Require Import ZArith QArith Qround Qpower Lqa Lia List Sorted Ascii String Bool.
Import ListNotations.
Open Scope Q_scope.

(** ** JavaScript number operators *)

Module JS.

(** [a || b] on numbers: [0] is the only falsy rational. *)
Definition or (a b : Q) : Q := if Qeq_bool a 0 then b else a.

(** [a || b] where [a] may be [undefined] (an optional field). *)
Definition or_opt (a : option Q) (b : Q) : Q :=
  match a with
  | Some x => or x b
  | None => b
  end.

Definition le (a b : Q) : bool := Qle_bool a b.
Definition ge (a b : Q) : bool := Qle_bool b a.
Definition lt (a b : Q) : bool := negb (Qle_bool b a).
Definition gt (a b : Q) : bool := negb (Qle_bool a b).

(** [Math.pow(b, e)] at an integer exponent. *)
Definition Math_pow (b : Q) (e : Z) : Q := Qpower b e.

(** [Math.round(x)]: the nearest integer, halves towards +infinity. *)
Definition Math_round (x : Q) : Q := inject_Z (Qfloor (x + (1 # 2))).

(** [Number(x.toFixed(2))]: two decimals, halves away from zero. *)
Definition toFixed2 (x : Q) : Q :=
  if lt x 0
  then - (inject_Z (Qfloor ((- x) * 100 + (1 # 2))) / 100)
  else inject_Z (Qfloor (x * 100 + (1 # 2))) / 100.

(** Truthiness of a string: the empty string is falsy. *)
Definition truthy (s : string) : bool :=
  match s with
  | EmptyString => false
  | String _ _ => true
  end.

End JS.

(** ** Data declarations ([types.ts], [upbitService.ts]) *)

Module TradingConfig.
Record t := mk {
  accessKey : string;
  secretKey : string;
  coin : string;
  maxBuySteps : Z;
  buyInterval : Q;
  targetProfit : Q;
  stopLoss : Q;
  initialAmount : Q;
  premiumRate : Q;
  useProxy : bool
}.
End TradingConfig.

(** [TradeStatus & { lastBuyPrice: number }], the type of [status]. *)
Module TradeStatus.
Record t := mk {
  isActive : bool;
  currentStep : Z;
  averagePrice : Q;
  totalQuantity : Q;
  totalInvested : Q;
  currentPrice : Q;
  pnlPercentage : Q;
  currentChangeRate : Q;
  lastBuyPrice : Q
}.
End TradeStatus.

Module CoinInfo.
Record t := mk {
  market : string;
  korean_name : string;
  english_name : string
}.
End CoinInfo.

Inductive ExitType := PROFIT | LOSS.

Module TradeRecord.
Record t := mk {
  id : string;
  timestamp : string;
  coin : string;
  coinName : string;
  exitType : ExitType;
  pnlPercentage : Q;
  pnlAmount : Q;
  totalInvested : Q;
  finalStep : Z
}.
End TradeRecord.

Module TickerData.
Record t := mk {
  price : Q;
  changeRate : Q
}.
End TickerData.

Module CandleData.
Record t := mk {
  time : string;
  price : Q;
  high : option Q;
  low : option Q;
  opening : option Q
}.
End CandleData.

Module BacktestResult.
Record t := mk {
  totalProfit : Q;
  profitRate : Q;
  totalTrades : Z;
  winCount : Z;
  lossCount : Z;
  maxDrawdown : Q
}.
End BacktestResult.

(** ** Collaborators and observable effects *)

Inductive Side := bid | ask.
Inductive OrdType := ord_limit | ord_price | ord_market.

(** The arguments of one [placeUpbitOrder] call. *)
Module Order.
Record t := mk {
  market : string;
  side : Side;
  ord_type : OrdType;
  amount_or_price : Q;
  volume : option Q
}.
End Order.

(** What the exchange client answers to an order: it returns, or it throws
    an [Error] with a message. *)
Inductive reply := Filled | Rejected (message : string).

(** [Date.now().toString()] and [new Date().toLocaleString()]. *)
Module Clock.
Record t := mk {
  now_id : string;
  now_locale : string
}.
End Clock.

Inductive effect :=
| PlaceOrder (o : Order.t)
| ConsoleError (label : string) (message : string)
| Alert (message : string).

(** The React state of [App] that the engine reads and writes. *)
Module App.
Record t := mk {
  config : TradingConfig.t;
  status : TradeStatus.t;
  tradeHistory : list TradeRecord.t;
  markets : list CoinInfo.t;
  isStarting : bool;
  isNetworkError : bool;
  isSettingsOpen : bool
}.
End App.

(** ** A state, output and exception monad for the async handlers *)

Inductive completion (A : Type) :=
| Normal (a : A)
| Throw (message : string).
Arguments Normal {A} a.
Arguments Throw {A} message.

Record World := mkWorld {
  app : App.t;
  out : list effect
}.

Definition M (A : Type) : Type := World -> completion A * World.

Definition ret {A} (a : A) : M A := fun w => (Normal a, w).

Definition bind {A B} (m : M A) (k : A -> M B) : M B :=
  fun w =>
    match m w with
    | (Normal a, w') => k a w'
    | (Throw e, w') => (Throw e, w')
    end.

Definition throw {A} (e : string) : M A := fun w => (Throw e, w).

(** [try { m } catch (e) { h e }] *)
Definition try_catch {A} (m : M A) (h : string -> M A) : M A :=
  fun w =>
    match m w with
    | (Normal a, w') => (Normal a, w')
    | (Throw e, w') => h e w'
    end.

(** [try { m } finally { f }] *)
Definition try_finally {A} (m : M A) (f : M unit) : M A :=
  fun w =>
    match m w with
    | (c, w') =>
        match f w' with
        | (Normal _, w'') => (c, w'')
        | (Throw e, w'') => (Throw e, w'')
        end
    end.

Declare Scope js_scope.
Delimit Scope js_scope with js.
Notation "x <- m ;; k" := (bind m (fun x => k))
  (at level 61, m at next level, right associativity) : js_scope.
Notation "m ;; k" := (bind m (fun _ => k))
  (at level 61, right associativity) : js_scope.

Definition emit (e : effect) : M unit :=
  fun w => (Normal tt, mkWorld (app w) (out w ++ [e])).

Definition modify (f : App.t -> App.t) : M unit :=
  fun w => (Normal tt, mkWorld (f (app w)) (out w)).

Definition getStatus : M TradeStatus.t := fun w => (Normal (App.status (app w)), w).
Definition getConfig : M TradingConfig.t := fun w => (Normal (App.config (app w)), w).
Definition getMarkets : M (list CoinInfo.t) := fun w => (Normal (App.markets (app w)), w).
Definition getIsStarting : M bool := fun w => (Normal (App.isStarting (app w)), w).

Definition setStatus (f : TradeStatus.t -> TradeStatus.t) : M unit :=
  modify (fun a => App.mk (App.config a) (f (App.status a)) (App.tradeHistory a)
                          (App.markets a) (App.isStarting a) (App.isNetworkError a)
                          (App.isSettingsOpen a)).

Definition setTradeHistory (f : list TradeRecord.t -> list TradeRecord.t) : M unit :=
  modify (fun a => App.mk (App.config a) (App.status a) (f (App.tradeHistory a))
                          (App.markets a) (App.isStarting a) (App.isNetworkError a)
                          (App.isSettingsOpen a)).

Definition setIsStarting (b : bool) : M unit :=
  modify (fun a => App.mk (App.config a) (App.status a) (App.tradeHistory a)
                          (App.markets a) b (App.isNetworkError a)
                          (App.isSettingsOpen a)).

Definition setIsNetworkError (b : bool) : M unit :=
  modify (fun a => App.mk (App.config a) (App.status a) (App.tradeHistory a)
                          (App.markets a) (App.isStarting a) b
                          (App.isSettingsOpen a)).

Definition setIsSettingsOpen (b : bool) : M unit :=
  modify (fun a => App.mk (App.config a) (App.status a) (App.tradeHistory a)
                          (App.markets a) (App.isStarting a) (App.isNetworkError a)
                          b).

Definition console_error (label message : string) : M unit :=
  emit (ConsoleError label message).

Definition alert (message : string) : M unit := emit (Alert message).

(** [await placeUpbitOrder(market, side, ord_type, amount_or_price, volume)]:
    the call is observable, then it returns or throws as the exchange
    answers. *)
Definition placeUpbitOrder (answer : reply) (market : string) (side : Side)
    (ord_type : OrdType) (amount_or_price : Q) (volume : option Q) : M unit :=
  (emit (PlaceOrder (Order.mk market side ord_type amount_or_price volume)) ;;
   match answer with
   | Filled => ret tt
   | Rejected e => throw e
   end)%js.

(** [e.message || fallback] *)
Definition message_or (e fallback : string) : string :=
  if JS.truthy e then e else fallback.

(** [markets.find(m => m.market === coin)?.korean_name || coin] *)
Definition coinNameOf (markets : list CoinInfo.t) (coin : string) : string :=
  match find (fun m => String.eqb (CoinInfo.market m) coin) markets with
  | Some m => message_or (CoinInfo.korean_name m) coin
  | None => coin
  end.

(** ** The live engine ([src/index.tsx]) *)

Section Live.
Import TradeStatus TradingConfig.
Local Open Scope js_scope.

(** The initial [status] of [useState]. *)
Definition initialStatus : TradeStatus.t :=
  TradeStatus.mk false 0 0 0 0 0 0 0 0.

(** [const pnl = ((currentPrice - averagePrice) / (averagePrice || currentPrice)) * 100] *)
Definition pnl (currentStatus : TradeStatus.t) (currentPrice : Q) : Q :=
  ((currentPrice - averagePrice currentStatus)
     / JS.or (averagePrice currentStatus) currentPrice) * 100.

(** [pnl >= targetProfit || pnl <= -stopLoss] *)
Definition exitCondition (currentConf : TradingConfig.t) (pnl : Q) : bool :=
  JS.ge pnl (targetProfit currentConf) || JS.le pnl (- stopLoss currentConf).

(** [const exitType = pnl >= targetProfit ? 'PROFIT' : 'LOSS'] *)
Definition exitTypeOf (currentConf : TradingConfig.t) (pnl : Q) : ExitType :=
  if JS.ge pnl (targetProfit currentConf) then PROFIT else LOSS.

(** [currentStep < maxBuySteps && currentPrice <= lastBuyPrice * (1 - buyInterval / 100)] *)
Definition scaleInCondition (currentConf : TradingConfig.t)
    (currentStatus : TradeStatus.t) (currentPrice : Q) : bool :=
  (currentStep currentStatus <? maxBuySteps currentConf)%Z
  && JS.le currentPrice
       (lastBuyPrice currentStatus * (1 - buyInterval currentConf / 100)).

(** [(initialAmount * 10000) * Math.pow(1 + premiumRate / 100, nextStep - 1)] *)
Definition currentBuyAmount (currentConf : TradingConfig.t) (nextStep : Z) : Q :=
  (initialAmount currentConf * 10000)
  * JS.Math_pow (1 + premiumRate currentConf / 100) (nextStep - 1).

Definition exitRecord (clock : Clock.t) (markets : list CoinInfo.t)
    (currentConf : TradingConfig.t) (currentStatus : TradeStatus.t)
    (pnl : Q) : TradeRecord.t :=
  TradeRecord.mk
    (Clock.now_id clock)
    (Clock.now_locale clock)
    (coin currentConf)
    (coinNameOf markets (coin currentConf))
    (exitTypeOf currentConf pnl)
    pnl
    (totalInvested currentStatus * (pnl / 100))
    (totalInvested currentStatus)
    (currentStep currentStatus).

(** One run of [updateLoop], given what [fetchTickerData] resolved to
    ([None] is [null]), the clock, and the exchange's answer to the order
    this tick may place. *)
Definition updateLoop (ticker : option TickerData.t) (clock : Clock.t)
    (answer : reply) : M unit :=
  starting <- getIsStarting ;;
  if starting then ret tt else
  try_catch
    (match ticker with
     | Some ticker =>
         setIsNetworkError false ;;
         let currentPrice := TickerData.price ticker in
         currentStatus <- getStatus ;;
         currentConf <- getConfig ;;
         if isActive currentStatus then
           let pnl := pnl currentStatus currentPrice in
           if exitCondition currentConf pnl then
             markets <- getMarkets ;;
             let record := exitRecord clock markets currentConf currentStatus pnl in
             setTradeHistory (fun h => record :: h) ;;
             try_catch
               (placeUpbitOrder answer (coin currentConf) ask ord_market
                  currentPrice (Some (totalQuantity currentStatus)))
               (fun e => console_error "Exit order failed" e) ;;
             setStatus (fun prev =>
               TradeStatus.mk false 0 0 0 0 currentPrice 0
                 (TickerData.changeRate ticker) 0)
           else if scaleInCondition currentConf currentStatus currentPrice then
             let nextStep := (currentStep currentStatus + 1)%Z in
             let currentBuyAmount := currentBuyAmount currentConf nextStep in
             try_catch
               (placeUpbitOrder answer (coin currentConf) bid ord_price
                  currentBuyAmount None ;;
                let newTotalInvested := totalInvested currentStatus + currentBuyAmount in
                let newTotalQuantity :=
                  totalQuantity currentStatus + (currentBuyAmount / currentPrice) in
                let newAveragePrice := newTotalInvested / newTotalQuantity in
                setStatus (fun prev =>
                  TradeStatus.mk (isActive prev) nextStep newAveragePrice
                    newTotalQuantity newTotalInvested currentPrice
                    (((currentPrice - newAveragePrice) / JS.or newAveragePrice 1) * 100)
                    (TickerData.changeRate ticker) currentPrice))
               (fun e => console_error "Scaling buy order failed" e)
           else
             setStatus (fun prev =>
               TradeStatus.mk (isActive prev) (currentStep prev) (averagePrice prev)
                 (totalQuantity prev) (totalInvested prev) currentPrice pnl
                 (TickerData.changeRate ticker) (lastBuyPrice prev))
         else
           setStatus (fun prev =>
             TradeStatus.mk (isActive prev) (currentStep prev) (averagePrice prev)
               (totalQuantity prev) (totalInvested prev) currentPrice
               (pnlPercentage prev) (TickerData.changeRate ticker) (lastBuyPrice prev))
     | None => setIsNetworkError true
     end)
    (fun _ => setIsNetworkError true).

(** One click on the start/stop button, given what [fetchTickerData]
    resolved to and the exchange's answer to the initial buy. *)
Definition handleToggleBot (ticker : option TickerData.t) (answer : reply) : M unit :=
  status <- getStatus ;;
  config <- getConfig ;;
  if negb (isActive status) then
    if negb (JS.truthy (accessKey config)) || negb (JS.truthy (secretKey config)) then
      setIsSettingsOpen true ;;
      alert "먼저 API 설정을 완료해주세요."
    else
      setIsStarting true ;;
      try_finally
        (try_catch
           (ticker <- match ticker with
                      | Some t => ret t
                      | None => throw "현재가 정보를 불러올 수 없습니다."
                      end ;;
            let initialBuyAmount := initialAmount config * 10000 in
            let buyPrice := TickerData.price ticker in
            placeUpbitOrder answer (coin config) bid ord_price initialBuyAmount None ;;
            setStatus (fun _ =>
              TradeStatus.mk true 1 buyPrice (initialBuyAmount / buyPrice)
                initialBuyAmount buyPrice 0 (TickerData.changeRate ticker) buyPrice))
           (fun e => alert (message_or e "봇 시작 중 오류가 발생했습니다.")))
        (setIsStarting false)
  else
    setStatus (fun prev =>
      TradeStatus.mk false 0 0 0 0 (currentPrice prev) 0
        (currentChangeRate prev) 0).

End Live.

(** ** The backtest ([runBacktest] in [src/index.tsx]) *)

Module Backtest.

(** The [let] variables of [runBacktest]. *)
Record state := mkState {
  balance : Q;
  step : Z;
  totalQty : Q;
  avgPrice : Q;
  lastBuyPrice : Q;
  trades : Z;
  wins : Z;
  losses : Z;
  totalInvested : Q;
  peak : Q;
  mdd : Q
}.

(** [let balance = 0, step = 0, ..., peak = 0, mdd = 0] *)
Definition init : state := mkState 0 0 0 0 0 0 0 0 0 0 0.

Section Run.
Variable config : TradingConfig.t.

(** [const initialInvestedCapital = config.initialAmount * 10000] *)
Definition initialInvestedCapital : Q :=
  TradingConfig.initialAmount config * 10000.

Definition candleLow (candle : CandleData.t) : Q :=
  JS.or_opt (CandleData.low candle) (CandleData.price candle).

Definition candleHigh (candle : CandleData.t) : Q :=
  JS.or_opt (CandleData.high candle) (CandleData.price candle).

Definition slPrice (s : state) : Q :=
  avgPrice s * (1 - TradingConfig.stopLoss config / 100).

Definition tpPrice (s : state) : Q :=
  avgPrice s * (1 + TradingConfig.targetProfit config / 100).

(** [lastBuyPrice * (1 - config.buyInterval / 100)] *)
Definition nextBuyPrice (s : state) : Q :=
  lastBuyPrice s * (1 - TradingConfig.buyInterval config / 100).

(** [initialInvestedCapital * Math.pow(1 + config.premiumRate / 100, step - 1)],
    at the already incremented [step]. *)
Definition buyAmount (step : Z) : Q :=
  initialInvestedCapital
  * JS.Math_pow (1 + TradingConfig.premiumRate config / 100) (step - 1).

(** The [step === 0] branch: open a position at the bar's price. *)
Definition openPosition (s : state) (price : Q) : state :=
  mkState (balance s) 1 (initialInvestedCapital / price) price price
    (trades s) (wins s) (losses s) initialInvestedCapital (peak s) (mdd s).

(** The [low <= slPrice] branch. *)
Definition closeLoss (s : state) : state :=
  mkState (balance s + ((totalQty s * slPrice s) - totalInvested s))
    0 0 (avgPrice s) (lastBuyPrice s)
    (trades s + 1) (wins s) (losses s + 1) 0 (peak s) (mdd s).

(** The [high >= tpPrice] branch. *)
Definition closeWin (s : state) : state :=
  mkState (balance s + ((totalQty s * tpPrice s) - totalInvested s))
    0 0 (avgPrice s) (lastBuyPrice s)
    (trades s + 1) (wins s + 1) (losses s) 0 (peak s) (mdd s).

(** The body of [if (low <= nextBuyPrice)] inside the [while]. *)
Definition fill (s : state) : state :=
  let nextBuyPrice := nextBuyPrice s in
  let step := (step s + 1)%Z in
  let buyAmount := buyAmount step in
  let totalQty := totalQty s + buyAmount / nextBuyPrice in
  let totalInvested := totalInvested s + buyAmount in
  mkState (balance s) step totalQty (totalInvested / totalQty) nextBuyPrice
    (trades s) (wins s) (losses s) totalInvested (peak s) (mdd s).

(** [while (step < config.maxBuySteps) { if (low <= nextBuyPrice) {...} else break; }]
    Each iteration that does not leave the loop increments [step], so
    [maxBuySteps - step] iterations are all the loop can make. *)
Fixpoint scaleInLoop (fuel : nat) (low : Q) (s : state) : state :=
  match fuel with
  | O => s
  | S fuel =>
      if (step s <? TradingConfig.maxBuySteps config)%Z then
        if JS.le low (nextBuyPrice s) then scaleInLoop fuel low (fill s)
        else s
      else s
  end.

Definition scaleIn (low : Q) (s : state) : state :=
  scaleInLoop (Z.to_nat (TradingConfig.maxBuySteps config - step s)) low s.

(** The trading part of the loop body, up to the equity bookkeeping. *)
Definition trade (s : state) (candle : CandleData.t) : state :=
  let low := candleLow candle in
  let high := candleHigh candle in
  let price := CandleData.price candle in
  if (step s =? 0)%Z then openPosition s price
  else if JS.le low (slPrice s) then closeLoss s
  else if JS.ge high (tpPrice s) then closeWin s
  else scaleIn low s.

(** [balance + (step > 0 ? (totalQty * price) - totalInvested : 0)] *)
Definition currentEquity (s : state) (price : Q) : Q :=
  balance s
  + (if (step s >? 0)%Z then (totalQty s * price) - totalInvested s else 0).

(** [peak <= 0 ? 0 : (peak - currentEquity) / peak * 100] *)
Definition drawdown (peak equity : Q) : Q :=
  if JS.le peak 0 then 0 else (peak - equity) / peak * 100.

(** The last four lines of the loop body. *)
Definition track (s : state) (price : Q) : state :=
  let currentEquity := currentEquity s price in
  let peak := if JS.gt currentEquity (peak s) then currentEquity else peak s in
  let dd := drawdown peak currentEquity in
  let mdd := if JS.gt dd (mdd s) then dd else mdd s in
  mkState (balance s) (step s) (totalQty s) (avgPrice s) (lastBuyPrice s)
    (trades s) (wins s) (losses s) (totalInvested s) peak mdd.

(** One iteration of [for (const candle of candles)]. *)
Definition bar (s : state) (candle : CandleData.t) : state :=
  track (trade s candle) (CandleData.price candle).

Definition replay (candles : list CandleData.t) : state :=
  fold_left bar candles init.

(** The object given to [setBtResult]. *)
Definition result (s : state) : BacktestResult.t :=
  BacktestResult.mk
    (JS.Math_round (balance s))
    (JS.toFixed2 ((balance s / initialInvestedCapital) * 100))
    (trades s) (wins s) (losses s)
    (JS.toFixed2 (mdd s)).

(** [runBacktest], given the candles [fetchDailyCandlesLong] resolved
    to: the result, or the message of the [alert]. *)
Definition runBacktest (candles : list CandleData.t) : BacktestResult.t + string :=
  match candles with
  | [] => inr (message_or "조회된 데이터가 없습니다." "백테스트 중 오류 발생")
  | _ :: _ => inl (result (replay candles))
  end.

End Run.

End Backtest.

(** * Properties *)

(** ** JavaScript comparisons and [||] *)

Module JSFacts.

Lemma le_iff a b : JS.le a b = true <-> a <= b.
Proof. apply Qle_bool_iff. Qed.

Lemma ge_iff a b : JS.ge a b = true <-> b <= a.
Proof. apply Qle_bool_iff. Qed.

Lemma lt_iff a b : JS.lt a b = true <-> a < b.
Proof.
  unfold JS.lt. rewrite negb_true_iff.
  split; intro H.
  - apply Qnot_le_lt. intro L. apply Qle_bool_iff in L. congruence.
  - destruct (Qle_bool b a) eqn:E; [|reflexivity].
    apply Qle_bool_iff in E. exfalso. apply (Qlt_not_le _ _ H E).
Qed.

Lemma gt_iff a b : JS.gt a b = true <-> b < a.
Proof. apply (lt_iff b a). Qed.

Lemma or_nonzero a b : ~ a == 0 -> JS.or a b = a.
Proof.
  intro H. unfold JS.or. destruct (Qeq_bool a 0) eqn:E; [|reflexivity].
  apply Qeq_bool_iff in E. contradiction.
Qed.

Lemma or_zero a b : a == 0 -> JS.or a b = b.
Proof.
  intro H. unfold JS.or. apply Qeq_bool_iff in H. now rewrite H.
Qed.

End JSFacts.

(** ** Arithmetic helpers *)

Lemma Qpower_ge_1 (b : Q) (k : nat) : 1 <= b -> 1 <= b ^ Z.of_nat k.
Proof.
  intro Hb. induction k as [|k IH].
  - simpl. lra.
  - rewrite Nat2Z.inj_succ, <- Z.add_1_r.
    rewrite Qpower_plus by lra.
    change (b ^ 1) with (Qpower_positive b 1). simpl.
    nra.
Qed.

Lemma Qpower_pos_base (b : Q) (k : Z) : 0 < b -> 0 < b ^ k.
Proof. intro Hb. apply Qpower_0_lt. exact Hb. Qed.

Lemma Qpower_mono_exp (b : Q) (n m : Z) :
  1 <= b -> (0 <= n <= m)%Z -> b ^ n <= b ^ m.
Proof.
  intros Hb [Hn Hnm].
  replace m with (n + (m - n))%Z by lia.
  rewrite Qpower_plus by lra.
  assert (H1 : 1 <= b ^ (m - n)).
  { rewrite <- (Z2Nat.id (m - n)) by lia. apply Qpower_ge_1. exact Hb. }
  assert (H0 : 0 < b ^ n) by (apply Qpower_pos_base; lra).
  nra.
Qed.

(** The orders among the effects of a trace, in order. *)
Definition ordersIn (l : list effect) : list Order.t :=
  flat_map (fun e => match e with PlaceOrder o => [o] | _ => [] end) l.

Lemma ordersIn_app (l1 l2 : list effect) :
  ordersIn (l1 ++ l2) = ordersIn l1 ++ ordersIn l2.
Proof. unfold ordersIn. apply flat_map_app. Qed.

(** ** What each branch of the live handlers does *)

Arguments pnl : simpl never.
Arguments exitCondition : simpl never.
Arguments exitTypeOf : simpl never.
Arguments scaleInCondition : simpl never.
Arguments currentBuyAmount : simpl never.
Arguments exitRecord : simpl never.
Arguments coinNameOf : simpl never.
Arguments message_or : simpl never.
Arguments JS.or : simpl never.
Arguments JS.truthy : simpl never.

Section LiveBranches.
Import TradeStatus TradingConfig.

Definition configOf (w : World) : TradingConfig.t := App.config (app w).
Definition statusOf (w : World) : TradeStatus.t := App.status (app w).

(** The React state with a new [status] and network-error flag. *)
Definition withStatus (a : App.t) (s : TradeStatus.t) (networkError : bool) : App.t :=
  App.mk (App.config a) s (App.tradeHistory a) (App.markets a)
    (App.isStarting a) networkError (App.isSettingsOpen a).

Definition withHistory (a : App.t) (h : list TradeRecord.t) : App.t :=
  App.mk (App.config a) (App.status a) h (App.markets a)
    (App.isStarting a) (App.isNetworkError a) (App.isSettingsOpen a).

Definition withSettingsOpen (a : App.t) : App.t :=
  App.mk (App.config a) (App.status a) (App.tradeHistory a) (App.markets a)
    (App.isStarting a) (App.isNetworkError a) true.

(** The [status] written on exit. *)
Definition exitedStatus (t : TickerData.t) : TradeStatus.t :=
  TradeStatus.mk false 0 0 0 0 (TickerData.price t) 0 (TickerData.changeRate t) 0.

(** The [status] written by an accepted scale-in. *)
Definition scaledStatus (c : TradingConfig.t) (s : TradeStatus.t)
    (t : TickerData.t) : TradeStatus.t :=
  let p := TickerData.price t in
  let amount := currentBuyAmount c (currentStep s + 1) in
  let invested := totalInvested s + amount in
  let quantity := totalQuantity s + amount / p in
  let average := invested / quantity in
  TradeStatus.mk (isActive s) (currentStep s + 1) average quantity invested p
    (((p - average) / JS.or average 1) * 100) (TickerData.changeRate t) p.

(** The [status] written when an active position is only re-priced. *)
Definition heldStatus (s : TradeStatus.t) (t : TickerData.t) : TradeStatus.t :=
  TradeStatus.mk (isActive s) (currentStep s) (averagePrice s) (totalQuantity s)
    (totalInvested s) (TickerData.price t) (pnl s (TickerData.price t))
    (TickerData.changeRate t) (lastBuyPrice s).

(** The [status] written while no position is open. *)
Definition idleStatus (s : TradeStatus.t) (t : TickerData.t) : TradeStatus.t :=
  TradeStatus.mk (isActive s) (currentStep s) (averagePrice s) (totalQuantity s)
    (totalInvested s) (TickerData.price t) (pnlPercentage s)
    (TickerData.changeRate t) (lastBuyPrice s).

(** The [status] written by a successful start. *)
Definition startedStatus (c : TradingConfig.t) (t : TickerData.t) : TradeStatus.t :=
  let p := TickerData.price t in
  TradeStatus.mk true 1 p (initialAmount c * 10000 / p) (initialAmount c * 10000)
    p 0 (TickerData.changeRate t) p.

(** The [status] written by a stop. *)
Definition stoppedStatus (s : TradeStatus.t) : TradeStatus.t :=
  TradeStatus.mk false 0 0 0 0 (currentPrice s) 0 (currentChangeRate s) 0.

Definition sellOrder (c : TradingConfig.t) (s : TradeStatus.t) (t : TickerData.t) : Order.t :=
  Order.mk (coin c) ask ord_market (TickerData.price t) (Some (totalQuantity s)).

Definition buyOrder (c : TradingConfig.t) (amount : Q) : Order.t :=
  Order.mk (coin c) bid ord_price amount None.

Definition logged (label : string) (answer : reply) : list effect :=
  match answer with
  | Filled => []
  | Rejected e => [ConsoleError label e]
  end.

Ltac run_handler w :=
  destruct w as [[? [] ? ? ? ? ?] ?];
  unfold configOf, statusOf, withStatus, withHistory, withSettingsOpen in *;
  cbn in *; intros; subst;
  unfold updateLoop, handleToggleBot, placeUpbitOrder, bind, try_catch,
    try_finally, ret, throw, emit, console_error, alert, setStatus,
    setTradeHistory, setIsNetworkError, setIsStarting, setIsSettingsOpen,
    modify, getStatus, getConfig, getMarkets, getIsStarting; cbn.

Lemma updateLoop_starting w ticker clock answer :
  App.isStarting (app w) = true ->
  updateLoop ticker clock answer w = (Normal tt, w).
Proof. run_handler w. reflexivity. Qed.

Lemma updateLoop_null w clock answer :
  App.isStarting (app w) = false ->
  updateLoop None clock answer w
  = (Normal tt, mkWorld (withStatus (app w) (statusOf w) true) (out w)).
Proof. run_handler w. reflexivity. Qed.

Lemma updateLoop_idle w t clock answer :
  App.isStarting (app w) = false ->
  isActive (statusOf w) = false ->
  updateLoop (Some t) clock answer w
  = (Normal tt, mkWorld (withStatus (app w) (idleStatus (statusOf w) t) false) (out w)).
Proof. run_handler w. reflexivity. Qed.

Lemma updateLoop_exit w t clock answer :
  App.isStarting (app w) = false ->
  isActive (statusOf w) = true ->
  exitCondition (configOf w) (pnl (statusOf w) (TickerData.price t)) = true ->
  updateLoop (Some t) clock answer w
  = (Normal tt,
     mkWorld
       (withStatus
          (withHistory (app w)
             (exitRecord clock (App.markets (app w)) (configOf w) (statusOf w)
                (pnl (statusOf w) (TickerData.price t))
                :: App.tradeHistory (app w)))
          (exitedStatus t) false)
       ((out w ++ [PlaceOrder (sellOrder (configOf w) (statusOf w) t)])
          ++ logged "Exit order failed" answer)).
Proof.
  run_handler w.
  match goal with H : exitCondition _ _ = true |- _ => rewrite H end.
  destruct answer; cbn; [now rewrite app_nil_r | reflexivity].
Qed.

Lemma updateLoop_scaleIn_filled w t clock :
  App.isStarting (app w) = false ->
  isActive (statusOf w) = true ->
  exitCondition (configOf w) (pnl (statusOf w) (TickerData.price t)) = false ->
  scaleInCondition (configOf w) (statusOf w) (TickerData.price t) = true ->
  updateLoop (Some t) clock Filled w
  = (Normal tt,
     mkWorld (withStatus (app w) (scaledStatus (configOf w) (statusOf w) t) false)
       (out w ++ [PlaceOrder (buyOrder (configOf w)
                    (currentBuyAmount (configOf w) (currentStep (statusOf w) + 1)))])).
Proof.
  run_handler w.
  match goal with H : exitCondition _ _ = false |- _ => rewrite H end.
  match goal with H : scaleInCondition _ _ _ = true |- _ => rewrite H end.
  reflexivity.
Qed.

Lemma updateLoop_scaleIn_rejected w t clock e :
  App.isStarting (app w) = false ->
  isActive (statusOf w) = true ->
  exitCondition (configOf w) (pnl (statusOf w) (TickerData.price t)) = false ->
  scaleInCondition (configOf w) (statusOf w) (TickerData.price t) = true ->
  updateLoop (Some t) clock (Rejected e) w
  = (Normal tt,
     mkWorld (withStatus (app w) (statusOf w) false)
       ((out w ++ [PlaceOrder (buyOrder (configOf w)
                     (currentBuyAmount (configOf w) (currentStep (statusOf w) + 1)))])
          ++ [ConsoleError "Scaling buy order failed" e])).
Proof.
  run_handler w.
  match goal with H : exitCondition _ _ = false |- _ => rewrite H end.
  match goal with H : scaleInCondition _ _ _ = true |- _ => rewrite H end.
  reflexivity.
Qed.

Lemma updateLoop_hold w t clock answer :
  App.isStarting (app w) = false ->
  isActive (statusOf w) = true ->
  exitCondition (configOf w) (pnl (statusOf w) (TickerData.price t)) = false ->
  scaleInCondition (configOf w) (statusOf w) (TickerData.price t) = false ->
  updateLoop (Some t) clock answer w
  = (Normal tt, mkWorld (withStatus (app w) (heldStatus (statusOf w) t) false) (out w)).
Proof.
  run_handler w.
  match goal with H : exitCondition _ _ = false |- _ => rewrite H end.
  match goal with H : scaleInCondition _ _ _ = false |- _ => rewrite H end.
  reflexivity.
Qed.

Lemma handleToggleBot_stop w ticker answer :
  isActive (statusOf w) = true ->
  handleToggleBot ticker answer w
  = (Normal tt,
     mkWorld (withStatus (app w) (stoppedStatus (statusOf w)) (App.isNetworkError (app w)))
       (out w)).
Proof. run_handler w. reflexivity. Qed.

Definition keysMissing (c : TradingConfig.t) : bool :=
  negb (JS.truthy (accessKey c)) || negb (JS.truthy (secretKey c)).

Lemma handleToggleBot_no_keys w ticker answer :
  isActive (statusOf w) = false ->
  keysMissing (configOf w) = true ->
  handleToggleBot ticker answer w
  = (Normal tt,
     mkWorld (withSettingsOpen (app w))
       (out w ++ [Alert "먼저 API 설정을 완료해주세요."])).
Proof.
  unfold keysMissing. run_handler w.
  match goal with H : _ || _ = true |- _ => rewrite H end.
  reflexivity.
Qed.

Lemma handleToggleBot_no_ticker w answer :
  isActive (statusOf w) = false ->
  keysMissing (configOf w) = false ->
  App.isStarting (app w) = false ->
  handleToggleBot None answer w
  = (Normal tt,
     mkWorld (app w)
       (out w ++ [Alert (message_or "현재가 정보를 불러올 수 없습니다."
                                    "봇 시작 중 오류가 발생했습니다.")])).
Proof.
  unfold keysMissing. run_handler w.
  match goal with H : _ || _ = false |- _ => rewrite H end.
  reflexivity.
Qed.

Lemma handleToggleBot_rejected w t e :
  isActive (statusOf w) = false ->
  keysMissing (configOf w) = false ->
  App.isStarting (app w) = false ->
  handleToggleBot (Some t) (Rejected e) w
  = (Normal tt,
     mkWorld (app w)
       ((out w ++ [PlaceOrder (buyOrder (configOf w) (initialAmount (configOf w) * 10000))])
          ++ [Alert (message_or e "봇 시작 중 오류가 발생했습니다.")])).
Proof.
  unfold keysMissing. run_handler w.
  match goal with H : _ || _ = false |- _ => rewrite H end.
  reflexivity.
Qed.

Lemma handleToggleBot_filled w t :
  isActive (statusOf w) = false ->
  keysMissing (configOf w) = false ->
  App.isStarting (app w) = false ->
  handleToggleBot (Some t) Filled w
  = (Normal tt,
     mkWorld (withStatus (app w) (startedStatus (configOf w) t) (App.isNetworkError (app w)))
       (out w ++ [PlaceOrder (buyOrder (configOf w) (initialAmount (configOf w) * 10000))])).
Proof.
  unfold keysMissing. run_handler w.
  match goal with H : _ || _ = false |- _ => rewrite H end.
  reflexivity.
Qed.

End LiveBranches.

(** ** Sizing, profit-and-loss and the exit decision *)

Section Kernel.
Import TradeStatus TradingConfig.

Lemma currentBuyAmount_eq (c : TradingConfig.t) (n : Z) :
  currentBuyAmount c n
  = (initialAmount c * 10000) * (1 + premiumRate c / 100) ^ (n - 1).
Proof. reflexivity. Qed.

Lemma currentBuyAmount_first (c : TradingConfig.t) :
  currentBuyAmount c 1 == initialAmount c * 10000.
Proof. rewrite currentBuyAmount_eq. simpl. ring. Qed.

Lemma currentBuyAmount_mono (c : TradingConfig.t) (n m : Z) :
  0 <= initialAmount c -> 0 <= premiumRate c -> (1 <= n <= m)%Z ->
  currentBuyAmount c n <= currentBuyAmount c m.
Proof.
  intros Ha Hp Hnm. rewrite !currentBuyAmount_eq.
  assert (Hb : 1 <= 1 + premiumRate c / 100).
  { assert (0 <= premiumRate c / 100) by (apply Qle_shift_div_l; lra). lra. }
  pose proof (Qpower_mono_exp (1 + premiumRate c / 100) (n - 1) (m - 1) Hb
                ltac:(lia)) as Hpow.
  nra.
Qed.

Lemma currentBuyAmount_pos (c : TradingConfig.t) (n : Z) :
  0 < initialAmount c -> 0 <= premiumRate c -> 0 < currentBuyAmount c n.
Proof.
  intros Ha Hp. rewrite currentBuyAmount_eq.
  assert (Hb : 0 < 1 + premiumRate c / 100).
  { assert (0 <= premiumRate c / 100) by (apply Qle_shift_div_l; lra). lra. }
  pose proof (Qpower_pos_base _ (n - 1) Hb). nra.
Qed.

Lemma pnl_eq (s : TradeStatus.t) (p : Q) :
  pnl s p = ((p - averagePrice s) / JS.or (averagePrice s) p) * 100.
Proof. reflexivity. Qed.

Lemma pnl_with_position (s : TradeStatus.t) (p : Q) :
  ~ averagePrice s == 0 ->
  pnl s p == (p - averagePrice s) / averagePrice s * 100.
Proof. intro H. rewrite pnl_eq, JSFacts.or_nonzero by exact H. reflexivity. Qed.

Lemma pnl_without_position (s : TradeStatus.t) (p : Q) :
  averagePrice s == 0 -> ~ p == 0 -> pnl s p == 100.
Proof.
  intros H Hp. rewrite pnl_eq, JSFacts.or_zero by exact H. rewrite H. field. exact Hp.
Qed.

Lemma exitTypeOf_profit (c : TradingConfig.t) (x : Q) :
  targetProfit c <= x -> exitTypeOf c x = PROFIT.
Proof.
  intro H. unfold exitTypeOf. apply JSFacts.ge_iff in H. now rewrite H.
Qed.

Lemma exitTypeOf_loss (c : TradingConfig.t) (x : Q) :
  x < targetProfit c -> exitTypeOf c x = LOSS.
Proof.
  intro H. unfold exitTypeOf.
  destruct (JS.ge x (targetProfit c)) eqn:E; [|reflexivity].
  apply JSFacts.ge_iff in E. lra.
Qed.

Lemma exitCondition_iff (c : TradingConfig.t) (x : Q) :
  exitCondition c x = true <-> targetProfit c <= x \/ x <= - stopLoss c.
Proof.
  unfold exitCondition. rewrite orb_true_iff, JSFacts.ge_iff, JSFacts.le_iff. reflexivity.
Qed.

Lemma scaleInCondition_iff (c : TradingConfig.t) (s : TradeStatus.t) (p : Q) :
  scaleInCondition c s p = true
  <-> (currentStep s < maxBuySteps c)%Z
      /\ p <= lastBuyPrice s * (1 - buyInterval c / 100).
Proof.
  unfold scaleInCondition. rewrite andb_true_iff, Z.ltb_lt, JSFacts.le_iff. reflexivity.
Qed.

End Kernel.

Section KernelClaims.
Import TradeStatus TradingConfig.

(** A configuration with [initialAmount = 10000] and [premiumRate = 10]. *)
Definition config_10000_10 : TradingConfig.t :=
  TradingConfig.mk "access" "secret" "KRW-BTC" 10 2 3 10 10000 10 true.

(** A configuration with [initialAmount = 1] and [premiumRate = 10]. *)
Definition config_1_10 : TradingConfig.t :=
  TradingConfig.mk "access" "secret" "KRW-BTC" 10 2 3 10 1 10 true.

(** C2, as stated, fails: with [initialAmount = 10000] and
    [premiumRate = 10] the amount of step 3 is
    [10000 * 10000 * 1.1^2 = 121000000], not
    [initialAmount * 1.1^2 = 12100]; already step 1 buys
    [initialAmount * 10000], not [initialAmount]. *)
Lemma sizing_is_not_in_raw_units :
  currentBuyAmount config_10000_10 3 == 121000000
  /\ initialAmount config_10000_10
     * (1 + premiumRate config_10000_10 / 100) ^ (3 - 1) == 12100
  /\ ~ currentBuyAmount config_10000_10 3 == 12100
  /\ ~ currentBuyAmount config_10000_10 1 == initialAmount config_10000_10.
Proof. repeat split; vm_compute; congruence. Qed.

(** C2, amended: for every step [n >= 1] the buy amount of step [n] is
    [initialAmount * 10000 * (1 + premiumRate/100)^(n-1)], in the live
    engine and in the backtest alike; step 1 is [initialAmount * 10000];
    the amounts are non-decreasing in [n] when [premiumRate >= 0] (and
    [initialAmount >= 0]); and with [initialAmount = 1], [premiumRate = 10]
    step 3 buys [12100]. *)
Theorem sizing_in_units_of_10000 (c : TradingConfig.t) (n m : Z) :
  0 <= initialAmount c -> 0 <= premiumRate c -> (1 <= n <= m)%Z ->
  currentBuyAmount c n
    == initialAmount c * 10000 * (1 + premiumRate c / 100) ^ (n - 1)
  /\ Backtest.buyAmount c n = currentBuyAmount c n
  /\ currentBuyAmount c 1 == initialAmount c * 10000
  /\ currentBuyAmount c n <= currentBuyAmount c m
  /\ currentBuyAmount config_1_10 3 == 12100.
Proof.
  intros Ha Hp Hnm.
  split; [|split; [|split; [|split]]].
  - rewrite currentBuyAmount_eq. reflexivity.
  - reflexivity.
  - apply currentBuyAmount_first.
  - apply currentBuyAmount_mono; assumption.
  - vm_compute. reflexivity.
Qed.

Lemma sizing_in_units_of_10000_witness :
  0 <= initialAmount config_1_10 /\ 0 <= premiumRate config_1_10
  /\ (1 <= 2 <= 3)%Z
  /\ currentBuyAmount config_1_10 2 <= currentBuyAmount config_1_10 3.
Proof.
  assert (Ha : 0 <= initialAmount config_1_10) by (vm_compute; discriminate).
  assert (Hp : 0 <= premiumRate config_1_10) by (vm_compute; discriminate).
  assert (Hnm : (1 <= 2 <= 3)%Z) by lia.
  split; [exact Ha|]. split; [exact Hp|]. split; [exact Hnm|].
  exact (proj1 (proj2 (proj2 (proj2
           (sizing_in_units_of_10000 config_1_10 2 3 Ha Hp Hnm))))).
Defined.

(** An active status whose [averagePrice] is [0]. *)
Definition status_without_average : TradeStatus.t :=
  TradeStatus.mk true 1 0 0 0 0 0 0 0.

(** An active one-step position bought at 100. *)
Definition status_at_100 : TradeStatus.t :=
  TradeStatus.mk true 1 100 100 10000 100 0 0 100.

(** C3, as stated, fails: at [averagePrice = 0] and price 50 the engine's
    profit-and-loss percentage is [(50 - 0) / 50 * 100 = 100], not [0]. *)
Lemma pnl_at_zero_average_is_100 :
  averagePrice status_without_average == 0
  /\ 0 <= 50
  /\ pnl status_without_average 50 == 100
  /\ ~ pnl status_without_average 50 == 0.
Proof. repeat split; vm_compute; congruence. Qed.

(** C3, amended: for every non-negative price the percentage is
    [(price - averagePrice) / averagePrice * 100] whenever
    [averagePrice > 0]; when [averagePrice] is [0] the divisor falls back
    to the price itself, so the percentage is [100] for every positive
    price. *)
Theorem pnl_formula (s : TradeStatus.t) (p : Q) :
  0 <= p ->
  (0 < averagePrice s -> pnl s p == (p - averagePrice s) / averagePrice s * 100)
  /\ (averagePrice s == 0 -> 0 < p -> pnl s p == 100).
Proof.
  intros _. split.
  - intro H. apply pnl_with_position. lra.
  - intros H Hp. apply pnl_without_position; [exact H | lra].
Qed.

Lemma pnl_formula_witness :
  0 <= 50
  /\ pnl status_at_100 50 == (50 - 100) / 100 * 100
  /\ pnl status_without_average 50 == 100.
Proof.
  assert (Hp : 0 <= 50) by (vm_compute; discriminate).
  split; [exact Hp|]. split.
  - apply (proj1 (pnl_formula status_at_100 50 Hp)). vm_compute. reflexivity.
  - apply (proj2 (pnl_formula status_without_average 50 Hp));
      vm_compute; reflexivity.
Defined.

End KernelClaims.

(** ** Exits and failed orders in the live engine *)

Section LiveClaims.
Import TradeStatus TradingConfig.

(** A configuration whose two exit bounds coincide at [0]. *)
Definition config_tie : TradingConfig.t :=
  TradingConfig.mk "access" "secret" "KRW-BTC" 10 2 0 0 1 0 true.

(** The default configuration of the application, with API keys set. *)
Definition config_default : TradingConfig.t :=
  TradingConfig.mk "access" "secret" "KRW-BTC" 10 2 3 10 1 0 true.

Definition world_of (c : TradingConfig.t) (s : TradeStatus.t) : World :=
  mkWorld (App.mk c s [] [] false false false) [].

Definition ticker_at (p : Q) : TickerData.t := TickerData.mk p 0.

Definition clock_0 : Clock.t := Clock.mk "1700000000000" "2023-11-14 22:13:20".

(** C4: on a tick of an active position at which both exit conditions hold
    ([pnl >= targetProfit] and [pnl <= -stopLoss], equality included), the
    exit type is PROFIT: the record the tick puts on the history says so. *)
Theorem profit_wins_ties (w : World) (t : TickerData.t) (clock : Clock.t)
    (answer : reply) :
  App.isStarting (app w) = false ->
  isActive (statusOf w) = true ->
  targetProfit (configOf w) <= pnl (statusOf w) (TickerData.price t) ->
  pnl (statusOf w) (TickerData.price t) <= - stopLoss (configOf w) ->
  exitTypeOf (configOf w) (pnl (statusOf w) (TickerData.price t)) = PROFIT
  /\ exists r,
       App.tradeHistory (app (snd (updateLoop (Some t) clock answer w)))
       = r :: App.tradeHistory (app w)
       /\ TradeRecord.exitType r = PROFIT.
Proof.
  intros Hs Ha Hp Hl.
  assert (E : exitTypeOf (configOf w) (pnl (statusOf w) (TickerData.price t)) = PROFIT)
    by (apply exitTypeOf_profit; exact Hp).
  split; [exact E|].
  rewrite updateLoop_exit; try assumption.
  - eexists. split; [reflexivity|]. exact E.
  - apply exitCondition_iff. left. exact Hp.
Qed.

Lemma profit_wins_ties_witness :
  let w := world_of config_tie status_at_100 in
  let t := ticker_at 100 in
  targetProfit (configOf w) <= pnl (statusOf w) (TickerData.price t)
  /\ pnl (statusOf w) (TickerData.price t) <= - stopLoss (configOf w)
  /\ exists r,
       App.tradeHistory (app (snd (updateLoop (Some t) clock_0 Filled w)))
       = r :: App.tradeHistory (app w)
       /\ TradeRecord.exitType r = PROFIT.
Proof.
  intros w t.
  assert (Hp : targetProfit (configOf w) <= pnl (statusOf w) (TickerData.price t))
    by (vm_compute; discriminate).
  assert (Hl : pnl (statusOf w) (TickerData.price t) <= - stopLoss (configOf w))
    by (vm_compute; discriminate).
  split; [exact Hp|]. split; [exact Hl|].
  exact (proj2 (profit_wins_ties w t clock_0 Filled eq_refl eq_refl Hp Hl)).
Defined.

(** C6: when an exit condition fires on a tick, the handler completes
    normally, asks once for a market sell of the whole [totalQuantity], puts
    one record in front of the history and writes the inactive, zeroed
    status, whatever the exchange answers to the sell order: the state after
    a rejected sell is the state after an accepted one, and the next tick
    finds no position and places no order. *)
Theorem exit_is_best_effort (w : World) (t : TickerData.t) (clock : Clock.t)
    (answer : reply) :
  App.isStarting (app w) = false ->
  isActive (statusOf w) = true ->
  exitCondition (configOf w) (pnl (statusOf w) (TickerData.price t)) = true ->
  let r := updateLoop (Some t) clock answer w in
  fst r = Normal tt
  /\ App.tradeHistory (app (snd r))
     = exitRecord clock (App.markets (app w)) (configOf w) (statusOf w)
         (pnl (statusOf w) (TickerData.price t))
       :: App.tradeHistory (app w)
  /\ (isActive (statusOf (snd r)) = false
      /\ currentStep (statusOf (snd r)) = 0%Z
      /\ averagePrice (statusOf (snd r)) = 0
      /\ totalQuantity (statusOf (snd r)) = 0
      /\ totalInvested (statusOf (snd r)) = 0
      /\ lastBuyPrice (statusOf (snd r)) = 0)
  /\ ordersIn (out (snd r))
     = ordersIn (out w) ++ [sellOrder (configOf w) (statusOf w) t]
  /\ app (snd r) = app (snd (updateLoop (Some t) clock Filled w))
  /\ (forall t' clock' answer',
        ordersIn (out (snd (updateLoop (Some t') clock' answer' (snd r))))
        = ordersIn (out (snd r))).
Proof.
  intros Hs Ha Hx r. subst r.
  rewrite !updateLoop_exit by assumption. cbn [fst snd app out].
  split; [reflexivity|]. split; [reflexivity|]. split; [repeat split|].
  split; [|split; [reflexivity|]].
  - rewrite !ordersIn_app. destruct answer; cbn; rewrite ?app_nil_r; reflexivity.
  - intros t' clock' answer'.
    rewrite updateLoop_idle; [reflexivity | exact Hs | reflexivity].
Qed.

Lemma exit_is_best_effort_witness :
  let w := world_of config_default status_at_100 in
  let r := updateLoop (Some (ticker_at 80)) clock_0 (Rejected "insufficient_funds_ask") w in
  exitCondition (configOf w) (pnl (statusOf w) 80) = true
  /\ fst r = Normal tt
  /\ List.length (App.tradeHistory (app (snd r))) = 1%nat
  /\ statusOf (snd r) = exitedStatus (ticker_at 80).
Proof.
  intros w r.
  assert (Hx : exitCondition (configOf w) (pnl (statusOf w) 80) = true)
    by (vm_compute; reflexivity).
  destruct (exit_is_best_effort w (ticker_at 80) clock_0
              (Rejected "insufficient_funds_ask") eq_refl eq_refl Hx)
    as (Hn & Hh & _).
  split; [exact Hx|]. split; [exact Hn|]. split.
  - subst r. rewrite Hh. reflexivity.
  - vm_compute. reflexivity.
Defined.

(** An error of a handler reaches its caller when the handler's promise
    rejects; it reaches the user when the handler shows an [alert] or raises
    the network-error flag. *)
Definition surfaced (before : World) (r : completion unit * World) : Prop :=
  (exists e, fst r = Throw e)
  \/ App.isNetworkError (app (snd r)) = true
  \/ (exists m, In (Alert m) (skipn (List.length (out before)) (out (snd r)))).

(** An active one-step position bought at 100; the next threshold is 98. *)
Definition world_at_100 : World := world_of config_default status_at_100.

(** C7, as stated, fails: a tick at 95 attempts the scale-in, the exchange
    rejects the order, and the handler completes normally with the error
    only written to the console: no rejection, no alert, no error flag. *)
Lemma failed_scale_in_is_only_logged :
  let r := updateLoop (Some (ticker_at 95)) clock_0 (Rejected "under_min_total_bid")
             world_at_100 in
  scaleInCondition config_default status_at_100 95 = true
  /\ fst r = Normal tt
  /\ out (snd r)
     = [PlaceOrder (buyOrder config_default (currentBuyAmount config_default 2));
        ConsoleError "Scaling buy order failed" "under_min_total_bid"]
  /\ currentBuyAmount config_default 2 == 10000
  /\ App.isNetworkError (app (snd r)) = false
  /\ ~ surfaced world_at_100 r.
Proof.
  cbv zeta.
  split; [vm_compute; reflexivity|].
  split; [vm_compute; reflexivity|].
  split; [vm_compute; reflexivity|].
  split; [vm_compute; reflexivity|].
  split; [vm_compute; reflexivity|].
  intros [[e He] | [Hn | [m Hm]]].
  - vm_compute in He. discriminate.
  - vm_compute in Hn. discriminate.
  - vm_compute in Hm. destruct Hm as [Hm | [Hm | []]]; discriminate.
Qed.

(** C7, amended: when a scale-in is attempted and the buy order is
    rejected, the whole [status] is left as it was (so the position stays
    active), the history is untouched, and the error is caught and written to
    the console, the handler completing normally; the next tick at the same
    price meets the same threshold check and places the same order again. *)
Theorem failed_scale_in_keeps_state (w : World) (t : TickerData.t)
    (clock : Clock.t) (e : string) :
  App.isStarting (app w) = false ->
  isActive (statusOf w) = true ->
  exitCondition (configOf w) (pnl (statusOf w) (TickerData.price t)) = false ->
  scaleInCondition (configOf w) (statusOf w) (TickerData.price t) = true ->
  let order :=
    PlaceOrder (buyOrder (configOf w)
                  (currentBuyAmount (configOf w) (currentStep (statusOf w) + 1))) in
  let r := updateLoop (Some t) clock (Rejected e) w in
  fst r = Normal tt
  /\ statusOf (snd r) = statusOf w
  /\ isActive (statusOf (snd r)) = true
  /\ App.tradeHistory (app (snd r)) = App.tradeHistory (app w)
  /\ out (snd r) = out w ++ [order; ConsoleError "Scaling buy order failed" e]
  /\ forall clock' answer',
       exists rest,
         out (snd (updateLoop (Some t) clock' answer' (snd r)))
         = out (snd r) ++ order :: rest.
Proof.
  intros Hs Ha Hx Hi order r. subst order r.
  rewrite updateLoop_scaleIn_rejected by assumption.
  set (w' := mkWorld _ _).
  assert (Hcfg : configOf w' = configOf w) by reflexivity.
  assert (Hst : statusOf w' = statusOf w) by reflexivity.
  cbn [fst snd].
  split; [reflexivity|]. split; [exact Hst|]. split; [rewrite Hst; exact Ha|].
  split; [reflexivity|]. split.
  - subst w'. cbn. rewrite <- app_assoc. reflexivity.
  - intros clock' answer'. destruct answer' as [|e'].
    + rewrite updateLoop_scaleIn_filled; rewrite ?Hcfg, ?Hst; try assumption.
      exists []. reflexivity.
    + rewrite updateLoop_scaleIn_rejected; rewrite ?Hcfg, ?Hst; try assumption.
      exists [ConsoleError "Scaling buy order failed" e'].
      cbn [snd out]. rewrite <- app_assoc. reflexivity.
Qed.

Lemma failed_scale_in_keeps_state_witness :
  let r := updateLoop (Some (ticker_at 95)) clock_0 (Rejected "under_min_total_bid")
             world_at_100 in
  exitCondition (configOf world_at_100) (pnl (statusOf world_at_100) 95) = false
  /\ scaleInCondition (configOf world_at_100) (statusOf world_at_100) 95 = true
  /\ fst r = Normal tt
  /\ statusOf (snd r) = status_at_100.
Proof.
  intro r.
  assert (Hx : exitCondition (configOf world_at_100)
                 (pnl (statusOf world_at_100) 95) = false)
    by (vm_compute; reflexivity).
  assert (Hi : scaleInCondition (configOf world_at_100) (statusOf world_at_100) 95 = true)
    by (vm_compute; reflexivity).
  destruct (failed_scale_in_keeps_state world_at_100 (ticker_at 95) clock_0
              "under_min_total_bid" eq_refl eq_refl Hx Hi)
    as (Hn & Hst & _).
  split; [exact Hx|]. split; [exact Hi|]. split; [exact Hn|]. exact Hst.
Defined.

End LiveClaims.

(** ** The live engine as a state machine over operations *)

Inductive op :=
| Tick (ticker : option TickerData.t) (clock : Clock.t) (answer : reply)
| Toggle (ticker : option TickerData.t) (answer : reply).

Definition perform (o : op) : M unit :=
  match o with
  | Tick ticker clock answer => updateLoop ticker clock answer
  | Toggle ticker answer => handleToggleBot ticker answer
  end.

Definition after (w : World) (o : op) : World := snd (perform o w).

Definition run (w : World) (ops : list op) : World := fold_left after ops w.

(** The application right after mounting: the [useState] defaults around a
    configuration and a market list. *)
Definition boot (c : TradingConfig.t) (markets : list CoinInfo.t) : World :=
  mkWorld (App.mk c initialStatus [] markets false false false) [].

Section Transitions.
Import TradeStatus TradingConfig.

(** The [status] an operation leaves behind, read off the branches of the
    two handlers. *)
Definition nextStatus (c : TradingConfig.t) (s : TradeStatus.t) (o : op) : TradeStatus.t :=
  match o with
  | Tick None _ _ => s
  | Tick (Some t) _ answer =>
      if isActive s then
        if exitCondition c (pnl s (TickerData.price t)) then exitedStatus t
        else if scaleInCondition c s (TickerData.price t) then
          match answer with
          | Filled => scaledStatus c s t
          | Rejected _ => s
          end
        else heldStatus s t
      else idleStatus s t
  | Toggle ticker answer =>
      if isActive s then stoppedStatus s
      else if keysMissing c then s
      else
        match ticker, answer with
        | Some t, Filled => startedStatus c t
        | _, _ => s
        end
  end.

(** The orders an operation places. *)
Definition nextOrders (c : TradingConfig.t) (s : TradeStatus.t) (o : op) : list Order.t :=
  match o with
  | Tick None _ _ => []
  | Tick (Some t) _ _ =>
      if isActive s then
        if exitCondition c (pnl s (TickerData.price t)) then [sellOrder c s t]
        else if scaleInCondition c s (TickerData.price t) then
          [buyOrder c (currentBuyAmount c (currentStep s + 1))]
        else []
      else []
  | Toggle ticker _ =>
      if isActive s then []
      else if keysMissing c then []
      else
        match ticker with
        | Some _ => [buyOrder c (initialAmount c * 10000)]
        | None => []
        end
  end.

(** The handlers refine the transition function: they keep the
    configuration, finish with [isStarting] cleared, leave [nextStatus] in
    [status] and add [nextOrders] to the orders placed so far. *)
Lemma after_refines (w : World) (o : op) :
  App.isStarting (app w) = false ->
  fst (perform o w) = Normal tt
  /\ configOf (after w o) = configOf w
  /\ App.markets (app (after w o)) = App.markets (app w)
  /\ App.isStarting (app (after w o)) = false
  /\ statusOf (after w o) = nextStatus (configOf w) (statusOf w) o
  /\ ordersIn (out (after w o))
     = ordersIn (out w) ++ nextOrders (configOf w) (statusOf w) o.
Proof.
  intro Hs. unfold after.
  destruct o as [[t|] clock answer | ticker answer]; cbn [perform nextStatus nextOrders].
  - destruct (isActive (statusOf w)) eqn:Ha.
    + destruct (exitCondition (configOf w) (pnl (statusOf w) (TickerData.price t))) eqn:Hx.
      * rewrite updateLoop_exit by assumption. cbn.
        rewrite !ordersIn_app. destruct answer; cbn; rewrite ?app_nil_r; auto 10.
      * destruct (scaleInCondition (configOf w) (statusOf w) (TickerData.price t)) eqn:Hi.
        -- destruct answer as [|e].
           ++ rewrite updateLoop_scaleIn_filled by assumption. cbn.
              rewrite !ordersIn_app. auto 10.
           ++ rewrite updateLoop_scaleIn_rejected by assumption. cbn.
              rewrite !ordersIn_app. cbn. rewrite app_nil_r. auto 10.
        -- rewrite updateLoop_hold by assumption. cbn. rewrite app_nil_r. auto 10.
    + rewrite updateLoop_idle by assumption. cbn. rewrite app_nil_r. auto 10.
  - rewrite updateLoop_null by assumption. cbn. rewrite app_nil_r. auto 10.
  - destruct (isActive (statusOf w)) eqn:Ha.
    + rewrite handleToggleBot_stop by assumption. cbn. rewrite app_nil_r. auto 10.
    + destruct (keysMissing (configOf w)) eqn:Hk.
      * rewrite handleToggleBot_no_keys by assumption. cbn.
        rewrite ordersIn_app. auto 10.
      * destruct ticker as [t|].
        -- destruct answer as [|e].
           ++ rewrite handleToggleBot_filled by assumption. cbn.
              rewrite ordersIn_app. auto 10.
           ++ rewrite handleToggleBot_rejected by assumption. cbn.
              rewrite !ordersIn_app. cbn. rewrite app_nil_r.
              destruct w as [[] ?]; auto 10.
        -- rewrite handleToggleBot_no_ticker by assumption. cbn.
           rewrite ordersIn_app. cbn. rewrite app_nil_r.
           destruct w as [[] ?]; auto 10.
Qed.

End Transitions.

(** ** The step ladder *)

Section Ladder.
Import TradeStatus TradingConfig.

(** Active positions stand on a rung between 1 and [maxBuySteps]; without a
    position the step is 0. *)
Definition ladder (c : TradingConfig.t) (s : TradeStatus.t) : Prop :=
  if isActive s then (1 <= currentStep s <= maxBuySteps c)%Z
  else currentStep s = 0%Z.

(** The operation is a tick on which an exit condition fires. *)
Definition exits (c : TradingConfig.t) (s : TradeStatus.t) (o : op) : bool :=
  match o with
  | Tick (Some t) _ _ => isActive s && exitCondition c (pnl s (TickerData.price t))
  | _ => false
  end.

(** The operation is a click on the button while a position is open. *)
Definition stops (s : TradeStatus.t) (o : op) : bool :=
  match o with
  | Toggle _ _ => isActive s
  | _ => false
  end.

Lemma ladder_initial (c : TradingConfig.t) : ladder c initialStatus.
Proof. reflexivity. Qed.

Lemma nextStatus_ladder (c : TradingConfig.t) (s : TradeStatus.t) (o : op) :
  (1 <= maxBuySteps c)%Z -> ladder c s -> ladder c (nextStatus c s o).
Proof.
  unfold ladder. intros Hmax Hl.
  destruct o as [[t|] clock answer | ticker answer]; cbn [nextStatus].
  - destruct (isActive s) eqn:Ha.
    + destruct (exitCondition c _); [reflexivity|].
      destruct (scaleInCondition c s _) eqn:Hi.
      * destruct answer; [|rewrite Ha; exact Hl].
        apply scaleInCondition_iff in Hi. cbn. rewrite Ha. lia.
      * cbn. rewrite Ha. exact Hl.
    + cbn. rewrite Ha. exact Hl.
  - exact Hl.
  - destruct (isActive s) eqn:Ha; [reflexivity|].
    destruct (keysMissing c); [rewrite Ha; exact Hl|].
    destruct ticker; [|rewrite Ha; exact Hl].
    destruct answer; [|rewrite Ha; exact Hl].
    cbn. lia.
Qed.

Lemma nextStatus_monotone (c : TradingConfig.t) (s : TradeStatus.t) (o : op) :
  isActive s = true -> isActive (nextStatus c s o) = true ->
  (currentStep s <= currentStep (nextStatus c s o))%Z.
Proof.
  intros Ha. destruct o as [[t|] clock answer | ticker answer]; cbn [nextStatus];
    rewrite ?Ha.
  - destruct (exitCondition c _); [discriminate|].
    destruct (scaleInCondition c s _); [destruct answer|]; cbn; lia.
  - lia.
  - discriminate.
Qed.

Lemma nextStatus_climbs (c : TradingConfig.t) (s : TradeStatus.t) (o : op) :
  ladder c s -> isActive s = true ->
  (currentStep s < currentStep (nextStatus c s o))%Z ->
  (currentStep s < maxBuySteps c)%Z
  /\ currentStep (nextStatus c s o) = (currentStep s + 1)%Z.
Proof.
  unfold ladder. intros Hl Ha. rewrite Ha in Hl.
  destruct o as [[t|] clock answer | ticker answer]; cbn [nextStatus];
    rewrite ?Ha; try lia.
  - destruct (exitCondition c _); [cbn; lia|].
    destruct (scaleInCondition c s _) eqn:Hi.
    + apply scaleInCondition_iff in Hi. destruct answer; cbn; lia.
    + cbn. lia.
  - cbn. lia.
Qed.

Lemma nextStatus_reset (c : TradingConfig.t) (s : TradeStatus.t) (o : op) :
  ladder c s -> isActive s = true ->
  (currentStep (nextStatus c s o) = 0%Z
   <-> exits c s o = true \/ stops s o = true).
Proof.
  unfold ladder. intros Hl Ha. rewrite Ha in Hl.
  destruct o as [[t|] clock answer | ticker answer];
    cbn [nextStatus exits stops]; rewrite ?Ha; cbn [andb].
  - destruct (exitCondition c _); [cbn; tauto|].
    destruct (scaleInCondition c s _); [destruct answer|]; cbn;
      (split; [lia | intros [H|H]; discriminate]).
  - split; [lia | intros [H|H]; discriminate].
  - cbn. tauto.
Qed.

Lemma run_snoc (w : World) (ops : list op) (o : op) :
  run w (ops ++ [o]) = after (run w ops) o.
Proof. unfold run. rewrite fold_left_app. reflexivity. Qed.

(** Every state the application reaches from its initial state keeps the
    configuration, has no start in flight, and stands on the ladder. *)
Lemma run_ladder (c : TradingConfig.t) (markets : list CoinInfo.t) (ops : list op) :
  (1 <= maxBuySteps c)%Z ->
  configOf (run (boot c markets) ops) = c
  /\ App.isStarting (app (run (boot c markets) ops)) = false
  /\ ladder c (statusOf (run (boot c markets) ops)).
Proof.
  intro Hmax. induction ops as [|o ops IH] using rev_ind.
  - repeat split.
  - destruct IH as (Hc & Hs & Hl). rewrite run_snoc.
    destruct (after_refines (run (boot c markets) ops) o Hs)
      as (_ & Hc' & _ & Hs' & Hst & _).
    rewrite Hc', Hst, Hc. repeat split; try assumption.
    apply nextStatus_ladder; assumption.
Qed.

(** C8: along every sequence of operations from the initial state, under a
    configuration with [maxBuySteps >= 1], [currentStep] stays between 0 and
    [maxBuySteps] and is 0 exactly without a position; between two active
    states it never decreases; it rises only by a scale-in, by one, from a
    step below [maxBuySteps]; and from an active state it becomes 0 exactly
    when the operation is an exit tick or a stop. *)
Theorem step_ladder (c : TradingConfig.t) (markets : list CoinInfo.t)
    (ops : list op) (o : op) :
  (1 <= maxBuySteps c)%Z ->
  let s := statusOf (run (boot c markets) ops) in
  let s' := statusOf (after (run (boot c markets) ops) o) in
  (0 <= currentStep s' <= maxBuySteps c)%Z
  /\ (isActive s' = false <-> currentStep s' = 0%Z)
  /\ (isActive s = true -> isActive s' = true ->
      (currentStep s <= currentStep s')%Z)
  /\ (isActive s = true -> (currentStep s < currentStep s')%Z ->
      (currentStep s < maxBuySteps c)%Z
      /\ currentStep s' = (currentStep s + 1)%Z)
  /\ (isActive s = true ->
      (currentStep s' = 0%Z <-> exits c s o = true \/ stops s o = true)).
Proof.
  intros Hmax s s'.
  destruct (run_ladder c markets ops Hmax) as (Hc & Hs & Hl).
  destruct (run_ladder c markets (ops ++ [o]) Hmax) as (_ & _ & Hl').
  rewrite run_snoc in Hl'. fold s' in Hl'. fold s in Hl.
  assert (Hst : s' = nextStatus c s o).
  { subst s s'.
    destruct (after_refines (run (boot c markets) ops) o Hs)
      as (_ & _ & _ & _ & Hst & _).
    rewrite Hst, Hc. reflexivity. }
  split; [|split; [|split; [|split]]].
  - unfold ladder in Hl'. destruct (isActive s'); lia.
  - unfold ladder in Hl'. destruct (isActive s'); split; intro; try lia;
      try discriminate; reflexivity.
  - rewrite Hst. apply nextStatus_monotone.
  - rewrite Hst. apply nextStatus_climbs. exact Hl.
  - rewrite Hst. apply nextStatus_reset. exact Hl.
Qed.

Lemma step_ladder_witness :
  let c := config_default in
  let ops := [Toggle (Some (ticker_at 100)) Filled] in
  let o := Tick (Some (ticker_at 95)) clock_0 Filled in
  (1 <= maxBuySteps c)%Z
  /\ currentStep (statusOf (run (boot c []) ops)) = 1%Z
  /\ (0 <= currentStep (statusOf (after (run (boot c []) ops) o)) <= maxBuySteps c)%Z.
Proof.
  intros c ops o.
  assert (Hmax : (1 <= maxBuySteps c)%Z) by (vm_compute; discriminate).
  split; [exact Hmax|]. split; [vm_compute; reflexivity|].
  exact (proj1 (step_ladder c [] ops o Hmax)).
Defined.

End Ladder.

(** ** The backtest loop *)

Section BacktestLoop.
Import Backtest.
Variable c : TradingConfig.t.

Lemma step_fill (s : state) : step (fill c s) = (step s + 1)%Z.
Proof. reflexivity. Qed.

(** The loop equation of the [while]: the fuel given by [scaleIn] is enough
    for the loop to run until its own condition or [break] stops it. *)
Lemma scaleIn_unfold (low : Q) (s : state) :
  scaleIn c low s
  = if (step s <? TradingConfig.maxBuySteps c)%Z then
      if JS.le low (nextBuyPrice c s) then scaleIn c low (fill c s) else s
    else s.
Proof.
  unfold scaleIn.
  destruct (step s <? TradingConfig.maxBuySteps c)%Z eqn:E.
  - apply Z.ltb_lt in E.
    replace (Z.to_nat (TradingConfig.maxBuySteps c - step s))
      with (S (Z.to_nat (TradingConfig.maxBuySteps c - step (fill c s))))
      by (rewrite step_fill; lia).
    cbn [scaleInLoop]. apply Z.ltb_lt in E. rewrite E. reflexivity.
  - destruct (Z.to_nat _); cbn [scaleInLoop]; [reflexivity|]. now rewrite E.
Qed.

(** The loop only moves [step], the three position fields and
    [lastBuyPrice]. *)
Lemma scaleInLoop_frame (fuel : nat) (low : Q) (s : state) :
  let s' := scaleInLoop c fuel low s in
  balance s' = balance s /\ trades s' = trades s /\ wins s' = wins s
  /\ losses s' = losses s /\ peak s' = peak s /\ mdd s' = mdd s
  /\ (step s <= step s')%Z.
Proof.
  revert s. induction fuel as [|fuel IH]; intro s; cbn.
  - repeat split; lia.
  - destruct (step s <? _)%Z; [|repeat split; lia].
    destruct (JS.le low _); [|repeat split; lia].
    destruct (IH (fill c s)) as (H1 & H2 & H3 & H4 & H5 & H6 & H7).
    cbn in *. repeat split; try assumption. lia.
Qed.

Lemma trade_loss (s : state) (candle : CandleData.t) :
  step s <> 0%Z ->
  candleLow candle <= slPrice c s ->
  trade c s candle = closeLoss c s.
Proof.
  intros Hs Hl. unfold trade.
  apply Z.eqb_neq in Hs. rewrite Hs.
  apply JSFacts.le_iff in Hl. now rewrite Hl.
Qed.

Lemma trade_win (s : state) (candle : CandleData.t) :
  step s <> 0%Z ->
  slPrice c s < candleLow candle ->
  tpPrice c s <= candleHigh candle ->
  trade c s candle = closeWin c s.
Proof.
  intros Hs Hl Hh. unfold trade.
  apply Z.eqb_neq in Hs. rewrite Hs.
  destruct (JS.le (candleLow candle) (slPrice c s)) eqn:E.
  - apply JSFacts.le_iff in E. lra.
  - apply JSFacts.ge_iff in Hh. now rewrite Hh.
Qed.

(** [track] only moves [peak] and [mdd]. *)
Lemma track_frame (s : state) (p : Q) :
  let s' := track s p in
  balance s' = balance s /\ step s' = step s /\ totalQty s' = totalQty s
  /\ avgPrice s' = avgPrice s /\ lastBuyPrice s' = lastBuyPrice s
  /\ trades s' = trades s /\ wins s' = wins s /\ losses s' = losses s
  /\ totalInvested s' = totalInvested s.
Proof. repeat split. Qed.

End BacktestLoop.

Section BacktestExit.
Import Backtest.

(** An open two-step position averaging 100 after a last fill at 98. *)
Definition state_open_100 : state :=
  mkState 0 2 200 100 98 0 0 0 20000 0 0.

(** A bar whose range [80, 120] spans the stop-loss price 90 and the
    take-profit price 103 of [state_open_100] under [config_default]. *)
Definition candle_wide : CandleData.t :=
  CandleData.mk "2024-01-01T09:00:00" 100 (Some 120) (Some 80) (Some 100).

(** C5: on every bar processed while a position is open, the stop-loss test
    [low <= slPrice] comes first: when it holds the trade is closed as a loss
    at the stop-loss price whatever the bar's high is, in particular when the
    high also reaches the take-profit price; a win is booked only on a bar
    whose low stays above the stop-loss price. *)
Theorem stop_loss_before_take_profit (c : TradingConfig.t) (s : state)
    (candle : CandleData.t) :
  step s <> 0%Z ->
  candleLow candle <= slPrice c s ->
  tpPrice c s <= candleHigh candle ->
  let s' := bar c s candle in
  trade c s candle = closeLoss c s
  /\ losses s' = (losses s + 1)%Z
  /\ wins s' = wins s
  /\ trades s' = (trades s + 1)%Z
  /\ balance s' = balance s + ((totalQty s * slPrice c s) - totalInvested s)
  /\ step s' = 0%Z
  /\ (forall candle', wins (bar c s candle') = (wins s + 1)%Z ->
        slPrice c s < candleLow candle').
Proof.
  intros Hs Hl Hh s'. subst s'. unfold bar.
  rewrite (trade_loss c s candle Hs Hl).
  repeat split.
  intros candle' Hw. unfold bar in Hw.
  destruct (Qlt_le_dec (slPrice c s) (candleLow candle')) as [H|H]; [exact H|].
  rewrite (trade_loss c s candle' Hs H) in Hw. cbn in Hw. lia.
Qed.

Lemma stop_loss_before_take_profit_witness :
  let c := config_default in
  let s' := bar c state_open_100 candle_wide in
  step state_open_100 <> 0%Z
  /\ candleLow candle_wide <= slPrice c state_open_100
  /\ tpPrice c state_open_100 <= candleHigh candle_wide
  /\ losses s' = 1%Z /\ wins s' = 0%Z
  /\ balance s' == -2000.
Proof.
  intros c s'.
  assert (Hs : step state_open_100 <> 0%Z) by (vm_compute; discriminate).
  assert (Hl : candleLow candle_wide <= slPrice c state_open_100)
    by (vm_compute; discriminate).
  assert (Hh : tpPrice c state_open_100 <= candleHigh candle_wide)
    by (vm_compute; discriminate).
  destruct (stop_loss_before_take_profit c state_open_100 candle_wide Hs Hl Hh)
    as (_ & Hlo & Hw & _ & Hb & _).
  split; [exact Hs|]. split; [exact Hl|]. split; [exact Hh|].
  split; [exact Hlo|]. split; [exact Hw|].
  subst s'. rewrite Hb. vm_compute. reflexivity.
Defined.

End BacktestExit.

(** ** Drawdown *)

Section Drawdown.
Import Backtest.
Variable c : TradingConfig.t.

(** The equity seen at the end of each bar of a replay that starts in [s]. *)
Fixpoint equityCurve (s : state) (candles : list CandleData.t) : list Q :=
  match candles with
  | [] => []
  | candle :: rest =>
      currentEquity (trade c s candle) (CandleData.price candle)
      :: equityCurve (bar c s candle) rest
  end.

Lemma toFixed2_nonneg (x : Q) : 0 <= x -> 0 <= JS.toFixed2 x.
Proof.
  intro Hx. unfold JS.toFixed2.
  destruct (JS.lt x 0) eqn:E.
  - apply JSFacts.lt_iff in E. lra.
  - assert (H : (0 <= Qfloor (x * 100 + (1 # 2)))%Z).
    { change 0%Z with (Qfloor 0). apply Qfloor_resp_le. lra. }
    apply Qle_shift_div_l; [reflexivity|].
    rewrite Qmult_0_l. change 0 with (inject_Z 0). rewrite <- Zle_Qle. exact H.
Qed.

Lemma trade_keeps_peak (s : state) (candle : CandleData.t) :
  peak (trade c s candle) = peak s /\ mdd (trade c s candle) = mdd s.
Proof.
  unfold trade.
  destruct (step s =? 0)%Z; [split; reflexivity|].
  destruct (JS.le _ _); [split; reflexivity|].
  destruct (JS.ge _ _); [split; reflexivity|].
  unfold scaleIn.
  destruct (scaleInLoop_frame c (Z.to_nat (TradingConfig.maxBuySteps c - step s))
              (candleLow candle) s) as (_ & _ & _ & _ & Hp & Hm & _).
  split; assumption.
Qed.

Lemma drawdown_at_peak (pk e : Q) : pk == e -> drawdown pk e == 0.
Proof.
  intro H. unfold drawdown. destruct (JS.le pk 0) eqn:E; [reflexivity|].
  assert (Hn : ~ pk == 0).
  { intro Hz. assert (JS.le pk 0 = true) by (apply JSFacts.le_iff; lra). congruence. }
  assert (Hd : pk - e == 0) by lra.
  rewrite Hd. field. exact Hn.
Qed.

Lemma drawdown_nonpositive_peak (pk e : Q) : pk <= 0 -> drawdown pk e = 0.
Proof. intro H. unfold drawdown. apply JSFacts.le_iff in H. now rewrite H. Qed.

Lemma drawdown_positive_peak (pk e : Q) :
  0 < pk -> drawdown pk e = (pk - e) / pk * 100.
Proof.
  intro H. unfold drawdown. destruct (JS.le pk 0) eqn:E; [|reflexivity].
  apply JSFacts.le_iff in E. lra.
Qed.

Lemma mdd_bar_ge (s : state) (candle : CandleData.t) :
  mdd s <= mdd (bar c s candle).
Proof.
  unfold bar, track. cbn [mdd].
  destruct (trade_keeps_peak s candle) as (Hp & Hm). rewrite Hm.
  destruct (JS.gt _ (mdd s)) eqn:E; [|lra].
  apply JSFacts.gt_iff in E. lra.
Qed.

Lemma mdd_fold_ge (candles : list CandleData.t) (s : state) :
  mdd s <= mdd (fold_left (bar c) candles s).
Proof.
  revert s. induction candles as [|candle rest IH]; intro s; cbn.
  - lra.
  - pose proof (mdd_bar_ge s candle). pose proof (IH (bar c s candle)). lra.
Qed.

(** With no drawdown so far and a peak that is either non-positive or not
    above a lower bound [lb] of the bar's equity, the bar records no
    drawdown either, and its equity bounds the new peak. *)
Lemma bar_flat (s : state) (candle : CandleData.t) (lb : Q) :
  mdd s = 0 ->
  peak s <= 0 \/ peak s <= lb ->
  lb <= currentEquity (trade c s candle) (CandleData.price candle) ->
  mdd (bar c s candle) = 0
  /\ (peak (bar c s candle) <= 0
      \/ peak (bar c s candle)
         <= currentEquity (trade c s candle) (CandleData.price candle)).
Proof.
  intros Hm Hp Hlb. unfold bar, track. cbn [mdd peak].
  destruct (trade_keeps_peak s candle) as (Hp' & Hm'). rewrite Hp', Hm', Hm.
  set (e := currentEquity (trade c s candle) (CandleData.price candle)) in *.
  assert (Hdd : forall pk, pk <= 0 \/ pk == e ->
                  (if JS.gt (drawdown pk e) 0 then drawdown pk e else 0) = 0).
  { intros pk [H|H].
    - rewrite (drawdown_nonpositive_peak pk e H). reflexivity.
    - destruct (JS.gt (drawdown pk e) 0) eqn:G; [|reflexivity].
      apply JSFacts.gt_iff in G. pose proof (drawdown_at_peak pk e H). lra. }
  destruct (JS.gt e (peak s)) eqn:G.
  - split; [apply Hdd; right; reflexivity | right; lra].
  - assert (Hle : e <= peak s).
    { destruct (Qlt_le_dec (peak s) e) as [H|H]; [|exact H].
      apply JSFacts.gt_iff in H. congruence. }
    destruct Hp as [Hp|Hp].
    + split; [apply Hdd; left; exact Hp | left; exact Hp].
    + split; [apply Hdd; right; lra | right; lra].
Qed.

Lemma flat_replay (candles : list CandleData.t) (s : state) (lb : Q) :
  mdd s = 0 ->
  peak s <= 0 \/ peak s <= lb ->
  Sorted Qle (lb :: equityCurve s candles) ->
  mdd (fold_left (bar c) candles s) = 0.
Proof.
  revert s lb. induction candles as [|candle rest IH]; intros s lb Hm Hp Hs.
  - exact Hm.
  - cbn [fold_left]. cbn [equityCurve] in Hs.
    apply Sorted_inv in Hs. destruct Hs as (Hs & Hhd).
    apply HdRel_inv in Hhd.
    destruct (bar_flat s candle lb Hm Hp Hhd) as (Hm' & Hp').
    apply (IH _ _ Hm' Hp' Hs).
Qed.

End Drawdown.

Section DrawdownClaim.
Import Backtest.

Definition candle_at (p : Q) : CandleData.t :=
  CandleData.mk "2024-01-01T09:00:00" p (Some p) (Some p) (Some p).

(** Three daily bars of a steadily rising market. *)
Definition candles_rising : list CandleData.t :=
  [candle_at 100; candle_at 101; candle_at 102].

(** C9: for every configuration and bar sequence the maximum drawdown, both
    as accumulated and as reported (the result [runBacktest] hands over is
    [result] of the replay), is [>= 0]; on every bar the peak is the
    running maximum of the equity, the bar's drawdown is
    [(peak - equity) / peak * 100] for a positive peak and [0] for a peak
    [<= 0], and the maximum keeps the larger of the two; and when the equity
    curve of the replay is non-decreasing the maximum drawdown is [0]. *)
Theorem drawdown_bound (c : TradingConfig.t) (candles : list CandleData.t)
    (s : state) (candle : CandleData.t) :
  0 <= mdd (replay c candles)
  /\ 0 <= BacktestResult.maxDrawdown (result c (replay c candles))
  /\ (let e := currentEquity (trade c s candle) (CandleData.price candle) in
      let pk := peak (bar c s candle) in
      pk = (if JS.gt e (peak s) then e else peak s)
      /\ mdd (bar c s candle)
         = (if JS.gt (drawdown pk e) (mdd s) then drawdown pk e else mdd s)
      /\ (pk <= 0 -> drawdown pk e = 0)
      /\ (0 < pk -> drawdown pk e = (pk - e) / pk * 100))
  /\ (Sorted Qle (equityCurve c init candles) ->
      mdd (replay c candles) = 0
      /\ BacktestResult.maxDrawdown (result c (replay c candles)) == 0)
  /\ (forall r, runBacktest c candles = inl r -> r = result c (replay c candles)).
Proof.
  assert (Hge : 0 <= mdd (replay c candles)).
  { unfold replay. pose proof (mdd_fold_ge c candles init) as H. exact H. }
  split; [exact Hge|]. split; [apply toFixed2_nonneg; exact Hge|].
  split; [|split; [|destruct candles; intros r Hr;
                         [discriminate Hr | injection Hr as <-; reflexivity]]].
  - destruct (trade_keeps_peak c s candle) as (Hp & Hm).
    cbv zeta. unfold bar, track. cbn [peak mdd]. rewrite Hp, Hm.
    split; [reflexivity|]. split; [reflexivity|]. split.
    + apply drawdown_nonpositive_peak.
    + apply drawdown_positive_peak.
  - intro Hs.
    assert (H0 : mdd (replay c candles) = 0).
    { unfold replay. destruct candles as [|first rest]; [reflexivity|].
      apply (flat_replay c (first :: rest) init
               (currentEquity (trade c init first) (CandleData.price first))).
      - reflexivity.
      - left. cbn. lra.
      - constructor; [exact Hs|]. cbn [equityCurve]. constructor. lra. }
    split; [exact H0|]. cbn. rewrite H0. vm_compute. reflexivity.
Qed.

Lemma drawdown_bound_witness :
  Sorted Qle (equityCurve config_default init candles_rising)
  /\ mdd (replay config_default candles_rising) = 0
  /\ BacktestResult.maxDrawdown (result config_default (replay config_default candles_rising)) == 0.
Proof.
  assert (Hs : Sorted Qle (equityCurve config_default init candles_rising)).
  { repeat constructor; vm_compute; discriminate. }
  split; [exact Hs|].
  exact (proj1 (proj2 (proj2 (proj2
           (drawdown_bound config_default candles_rising init (candle_at 100))))) Hs).
Defined.

End DrawdownClaim.

(** ** Capital committed along the ladder *)

Section Cost.
Import TradeStatus TradingConfig.

(** The money committed by the first [n] steps of the ladder: the sum of
    the step amounts of steps [1 .. n]. *)
Fixpoint ladderCost (c : TradingConfig.t) (n : nat) : Q :=
  match n with
  | O => 0
  | S k => ladderCost c k + currentBuyAmount c (Z.of_nat (S k))
  end.

Lemma ladderCost_next (c : TradingConfig.t) (k : Z) :
  (0 <= k)%Z ->
  ladderCost c (Z.to_nat (k + 1))
  = ladderCost c (Z.to_nat k) + currentBuyAmount c (k + 1).
Proof.
  intro Hk. replace (Z.to_nat (k + 1)) with (S (Z.to_nat k)) by lia.
  cbn [ladderCost]. f_equal. f_equal. lia.
Qed.

Lemma ladderCost_one (c : TradingConfig.t) :
  ladderCost c 1 == initialAmount c * 10000.
Proof.
  unfold ladderCost. change (Z.of_nat 1) with 1%Z.
  rewrite currentBuyAmount_first. ring.
Qed.

Lemma run_settled (c : TradingConfig.t) (markets : list CoinInfo.t) (ops : list op) :
  configOf (run (boot c markets) ops) = c
  /\ App.isStarting (app (run (boot c markets) ops)) = false.
Proof.
  induction ops as [|o ops IH] using rev_ind.
  - split; reflexivity.
  - destruct IH as (Hc & Hs). rewrite run_snoc.
    destruct (after_refines (run (boot c markets) ops) o Hs)
      as (_ & Hc' & _ & Hs' & _).
    rewrite Hc', Hc. split; [reflexivity | exact Hs'].
Qed.

Lemma run_status (c : TradingConfig.t) (markets : list CoinInfo.t) (ops : list op) :
  statusOf (run (boot c markets) ops) = fold_left (nextStatus c) ops initialStatus.
Proof.
  induction ops as [|o ops IH] using rev_ind.
  - reflexivity.
  - rewrite run_snoc, fold_left_app. cbn [fold_left].
    destruct (run_settled c markets ops) as (Hc & Hs).
    destruct (after_refines (run (boot c markets) ops) o Hs)
      as (_ & _ & _ & _ & Hst & _).
    rewrite Hst, Hc, IH. reflexivity.
Qed.

(** The live status accounts for exactly the steps taken. *)
Definition costed (c : TradingConfig.t) (s : TradeStatus.t) : Prop :=
  (0 <= currentStep s)%Z
  /\ (isActive s = false -> currentStep s = 0%Z)
  /\ totalInvested s == ladderCost c (Z.to_nat (currentStep s)).

Lemma nextStatus_costed (c : TradingConfig.t) (s : TradeStatus.t) (o : op) :
  costed c s -> costed c (nextStatus c s o).
Proof.
  unfold costed. intros (H0 & Hi & Hc).
  assert (Hzero : forall p r, costed c (TradeStatus.mk false 0 0 0 0 p 0 r 0)).
  { intros p r. split; [cbn; lia|]. split; [reflexivity|]. cbn. reflexivity. }
  destruct o as [[t|] clock answer | ticker answer]; cbn [nextStatus].
  - destruct (isActive s) eqn:Ha.
    + destruct (exitCondition c _); [apply Hzero|].
      destruct (scaleInCondition c s _).
      * destruct answer; [|rewrite Ha; auto].
        cbn. rewrite Ha. split; [lia|]. split; [discriminate|].
        rewrite ladderCost_next by exact H0. rewrite Hc. reflexivity.
      * cbn. rewrite Ha. auto.
    + cbn. rewrite Ha. auto.
  - auto.
  - destruct (isActive s) eqn:Ha; [apply Hzero|].
    destruct (keysMissing c); [rewrite Ha; auto|].
    destruct ticker; [|rewrite Ha; auto].
    destruct answer; [|rewrite Ha; auto].
    split; [cbn; lia|]. split; [discriminate|].
    cbn [currentStep totalInvested startedStatus].
    change (Z.to_nat 1) with 1%nat. rewrite ladderCost_one. reflexivity.
Qed.

Lemma run_costed (c : TradingConfig.t) (markets : list CoinInfo.t) (ops : list op) :
  costed c (statusOf (run (boot c markets) ops)).
Proof.
  rewrite run_status.
  induction ops as [|o ops IH] using rev_ind.
  - split; [cbn; lia|]. split; [reflexivity|]. cbn. reflexivity.
  - rewrite fold_left_app. cbn [fold_left]. apply nextStatus_costed. exact IH.
Qed.

End Cost.

Section BacktestCost.
Import Backtest.
Variable c : TradingConfig.t.

Definition costedB (s : state) : Prop :=
  (0 <= step s)%Z
  /\ totalInvested s == ladderCost c (Z.to_nat (step s)).

Lemma fill_costedB (s : state) : costedB s -> costedB (fill c s).
Proof.
  unfold costedB. intros (H0 & Hc). cbn. split; [lia|].
  rewrite ladderCost_next by exact H0. rewrite Hc. reflexivity.
Qed.

Lemma scaleInLoop_costedB (fuel : nat) (low : Q) (s : state) :
  costedB s -> costedB (scaleInLoop c fuel low s).
Proof.
  revert s. induction fuel as [|fuel IH]; intros s H; cbn; [exact H|].
  destruct (step s <? _)%Z; [|exact H].
  destruct (JS.le low _); [|exact H].
  apply IH. apply fill_costedB. exact H.
Qed.

Lemma bar_costedB (s : state) (candle : CandleData.t) :
  costedB s -> costedB (bar c s candle).
Proof.
  intro H. unfold bar, costedB. cbn [step totalInvested track].
  fold (costedB (trade c s candle)). unfold trade.
  destruct (step s =? 0)%Z.
  - unfold costedB. split; [cbn; lia|].
    cbn [step totalInvested openPosition].
    change (Z.to_nat 1) with 1%nat. rewrite ladderCost_one. reflexivity.
  - destruct (JS.le _ _); [split; cbn; [lia | reflexivity]|].
    destruct (JS.ge _ _); [split; cbn; [lia | reflexivity]|].
    apply scaleInLoop_costedB. exact H.
Qed.

Lemma replay_costedB (candles : list CandleData.t) : costedB (replay c candles).
Proof.
  unfold replay.
  induction candles as [|candle candles IH] using rev_ind.
  - split; cbn; [lia | reflexivity].
  - rewrite fold_left_app. cbn [fold_left]. apply bar_costedB. exact IH.
Qed.

End BacktestCost.

Section CostClaim.
Import TradeStatus TradingConfig.

(** C10: every buy is sized from [initialAmount * 10000].  An operation of
    the live engine places exactly the orders of [nextOrders]; each buy
    among them is for [initialAmount * 10000] when it opens the position and
    for [initialAmount * 10000 * (1 + premiumRate/100)^(n-1)] when it is the
    scale-in to step [n = currentStep + 1]; the invested total of the live
    status and of the backtest is the sum of these step amounts over the
    steps taken; and the backtest reports its profit rate as the balance over
    [initialAmount * 10000], in percent with two decimals. *)
Theorem amounts_in_units_of_10000 (c : TradingConfig.t) (markets : list CoinInfo.t)
    (ops : list op) (o : op) (candles : list CandleData.t) :
  let w := run (boot c markets) ops in
  let s := statusOf w in
  let b := Backtest.replay c candles in
  ordersIn (out (after w o)) = ordersIn (out w) ++ nextOrders c s o
  /\ Forall (fun order =>
       Order.side order = bid ->
       Order.amount_or_price order
       = if isActive s
         then initialAmount c * 10000
              * JS.Math_pow (1 + premiumRate c / 100) ((currentStep s + 1) - 1)
         else initialAmount c * 10000)
       (nextOrders c s o)
  /\ totalInvested s == ladderCost c (Z.to_nat (currentStep s))
  /\ Backtest.totalInvested b == ladderCost c (Z.to_nat (Backtest.step b))
  /\ (forall n,
        ladderCost c (S n)
        = ladderCost c n
          + initialAmount c * 10000
            * JS.Math_pow (1 + premiumRate c / 100) (Z.of_nat (S n) - 1))
  /\ ladderCost c 1 == initialAmount c * 10000
  /\ BacktestResult.profitRate (Backtest.result c b)
     = JS.toFixed2 ((Backtest.balance b / (initialAmount c * 10000)) * 100).
Proof.
  intros w s b.
  destruct (run_settled c markets ops) as (Hc & Hs).
  destruct (after_refines w o Hs) as (_ & _ & _ & _ & _ & Ho).
  fold w in Hc. rewrite Hc in Ho. fold s in Ho.
  split; [exact Ho|]. split; [|split; [|split; [|split; [|split]]]].
  - destruct o as [[t|] clock answer | ticker answer]; cbn [nextOrders].
    + destruct (isActive s); [|constructor].
      destruct (exitCondition c _); [repeat constructor; discriminate|].
      destruct (scaleInCondition c s _); repeat constructor.
    + constructor.
    + destruct (isActive s); [constructor|].
      destruct (keysMissing c); [constructor|].
      destruct ticker; repeat constructor.
  - apply (run_costed c markets ops).
  - apply (replay_costedB c candles).
  - reflexivity.
  - apply ladderCost_one.
  - reflexivity.
Qed.

End CostClaim.

(** ** Averaging *)

(** One accepted buy as the engine books it: the price it is booked at and
    the amount of quote currency spent. *)
Record BuyFill := mkFill {
  fillPrice : Q;
  fillAmount : Q
}.

(** [Σ amount_i] *)
Definition sumAmount (l : list BuyFill) : Q :=
  fold_right (fun f acc => fillAmount f + acc) 0 l.

(** [Σ amount_i / price_i] *)
Definition sumQuantity (l : list BuyFill) : Q :=
  fold_right (fun f acc => fillAmount f / fillPrice f + acc) 0 l.

Definition positiveFill (f : BuyFill) : Prop :=
  0 < fillPrice f /\ 0 < fillAmount f.

(** The three position fields agree with a ledger of buys. *)
Definition averaged (invested quantity average : Q) (l : list BuyFill) : Prop :=
  l <> []
  /\ Forall positiveFill l
  /\ invested == sumAmount l
  /\ quantity == sumQuantity l
  /\ average == invested / quantity.

Section Averaging.

Lemma sumAmount_snoc (l : list BuyFill) (f : BuyFill) :
  sumAmount (l ++ [f]) == sumAmount l + fillAmount f.
Proof.
  induction l as [|g l IH]; cbn.
  - ring.
  - fold (sumAmount (l ++ [f])). fold (sumAmount l). rewrite IH. ring.
Qed.

Lemma sumQuantity_snoc (l : list BuyFill) (f : BuyFill) :
  sumQuantity (l ++ [f]) == sumQuantity l + fillAmount f / fillPrice f.
Proof.
  induction l as [|g l IH]; cbn.
  - ring.
  - fold (sumQuantity (l ++ [f])). fold (sumQuantity l). rewrite IH. ring.
Qed.

Lemma quotient_pos (a p : Q) : 0 < p -> 0 < a -> 0 < a / p.
Proof. intros Hp Ha. apply Qlt_shift_div_l; lra. Qed.

Lemma sumQuantity_nonneg (l : list BuyFill) :
  Forall positiveFill l -> 0 <= sumQuantity l.
Proof.
  induction 1 as [|f l [Hp Ha] _ IH]; cbn.
  - lra.
  - fold (sumQuantity l). pose proof (quotient_pos _ _ Hp Ha). lra.
Qed.

Lemma sumQuantity_pos (l : list BuyFill) :
  l <> [] -> Forall positiveFill l -> 0 < sumQuantity l.
Proof.
  intros Hn Hf. destruct Hf as [|f l [Hp Ha] Hf]; [congruence|].
  cbn. fold (sumQuantity l).
  pose proof (quotient_pos _ _ Hp Ha). pose proof (sumQuantity_nonneg l Hf). lra.
Qed.

Lemma averaged_first (p a : Q) :
  0 < p -> 0 < a -> averaged a (a / p) p [mkFill p a].
Proof.
  intros Hp Ha. unfold averaged. cbn.
  split; [discriminate|]. split; [repeat constructor; assumption|].
  split; [ring|]. split; [ring|]. field. split; lra.
Qed.

Lemma averaged_snoc (invested quantity average : Q) (l : list BuyFill) (p a : Q) :
  averaged invested quantity average l ->
  0 < p -> 0 < a ->
  averaged (invested + a) (quantity + a / p)
    ((invested + a) / (quantity + a / p)) (l ++ [mkFill p a]).
Proof.
  intros (Hn & Hf & Hi & Hq & _) Hp Ha. unfold averaged.
  split; [destruct l; discriminate|].
  split; [apply Forall_app; split; [exact Hf | repeat constructor; assumption]|].
  split; [rewrite sumAmount_snoc, Hi; reflexivity|].
  split; [rewrite sumQuantity_snoc, Hq; reflexivity|].
  reflexivity.
Qed.

Lemma averaged_sums (invested quantity average : Q) (l : list BuyFill) :
  averaged invested quantity average l ->
  l <> []
  /\ 0 < quantity
  /\ average == invested / quantity
  /\ invested == sumAmount l
  /\ quantity == sumQuantity l
  /\ average == sumAmount l / sumQuantity l.
Proof.
  intros (Hn & Hf & Hi & Hq & Ha).
  split; [exact Hn|].
  split; [rewrite Hq; apply sumQuantity_pos; assumption|].
  split; [exact Ha|]. split; [exact Hi|]. split; [exact Hq|].
  rewrite Ha, Hi, Hq. reflexivity.
Qed.

End Averaging.

Section LiveLedger.
Import TradeStatus TradingConfig.

(** The buys an operation gets accepted: the buy orders it places, when the
    exchange fills them, booked at the ticker price. *)
Definition acceptedBuys (c : TradingConfig.t) (s : TradeStatus.t) (o : op) : list BuyFill :=
  match o with
  | Tick (Some t) _ Filled | Toggle (Some t) Filled =>
      flat_map
        (fun order =>
           match Order.side order with
           | bid => [mkFill (TickerData.price t) (Order.amount_or_price order)]
           | ask => []
           end)
        (nextOrders c s o)
  | _ => []
  end.

(** The ledger of the open position: the accepted buys since it was
    opened, and nothing while no position is open. *)
Definition nextLedger (c : TradingConfig.t) (s : TradeStatus.t) (o : op)
    (l : list BuyFill) : list BuyFill :=
  if isActive (nextStatus c s o) then l ++ acceptedBuys c s o else [].

Definition book (c : TradingConfig.t) (sl : TradeStatus.t * list BuyFill) (o : op)
    : TradeStatus.t * list BuyFill :=
  (nextStatus c (fst sl) o, nextLedger c (fst sl) o (snd sl)).

Definition books (c : TradingConfig.t) (ops : list op) : TradeStatus.t * list BuyFill :=
  fold_left (book c) ops (initialStatus, []).

Definition pricedOp (o : op) : Prop :=
  match o with
  | Tick (Some t) _ _ | Toggle (Some t) _ => 0 < TickerData.price t
  | _ => True
  end.

Definition liveAveraged (s : TradeStatus.t) (l : list BuyFill) : Prop :=
  if isActive s
  then averaged (totalInvested s) (totalQuantity s) (averagePrice s) l
  else l = [].

Lemma books_status (c : TradingConfig.t) (ops : list op) :
  fst (books c ops) = fold_left (nextStatus c) ops initialStatus.
Proof.
  unfold books. induction ops as [|o ops IH] using rev_ind.
  - reflexivity.
  - rewrite !fold_left_app. cbn [fold_left book fst]. rewrite IH. reflexivity.
Qed.

Lemma book_averaged (c : TradingConfig.t) (s : TradeStatus.t) (l : list BuyFill) (o : op) :
  0 < initialAmount c -> 0 <= premiumRate c -> pricedOp o ->
  liveAveraged s l ->
  liveAveraged (nextStatus c s o) (nextLedger c s o l).
Proof.
  intros Hamt Hprem Hp Hl. unfold nextLedger, liveAveraged in *.
  destruct o as [[t|] clock answer | ticker answer]; cbn [nextStatus acceptedBuys nextOrders].
  - cbn in Hp. destruct (isActive s) eqn:Ha.
    + destruct (exitCondition c _); [reflexivity|].
      destruct (scaleInCondition c s _).
      * destruct answer.
        -- cbn. rewrite Ha. eapply averaged_snoc; [exact Hl | exact Hp |].
           apply currentBuyAmount_pos; assumption.
        -- rewrite Ha, app_nil_r. exact Hl.
      * cbn [isActive heldStatus totalInvested totalQuantity averagePrice].
        rewrite Ha. destruct answer; cbn; rewrite app_nil_r; exact Hl.
    + cbn. rewrite Ha. reflexivity.
  - destruct (isActive s); [rewrite app_nil_r; exact Hl | reflexivity].
  - destruct (isActive s) eqn:Ha; [reflexivity|].
    destruct (keysMissing c); [rewrite Ha; reflexivity|].
    destruct ticker as [t|]; [|rewrite Ha; reflexivity].
    destruct answer; [|rewrite Ha; reflexivity].
    cbn in Hp. subst l. cbn.
    apply averaged_first; [exact Hp | lra].
Qed.

Lemma books_averaged (c : TradingConfig.t) (ops : list op) :
  0 < initialAmount c -> 0 <= premiumRate c -> Forall pricedOp ops ->
  liveAveraged (fst (books c ops)) (snd (books c ops)).
Proof.
  intros Hamt Hprem. unfold books.
  induction ops as [|o ops IH] using rev_ind; intro Hp.
  - reflexivity.
  - apply Forall_app in Hp. destruct Hp as (Hp & Ho).
    apply Forall_inv in Ho.
    rewrite fold_left_app. cbn [fold_left book fst snd].
    apply book_averaged; auto.
Qed.

End LiveLedger.

Section BacktestLedger.
Import Backtest.
Variable c : TradingConfig.t.

(** The buys made by the [while] loop, in order. *)
Fixpoint scaleInFills (fuel : nat) (low : Q) (s : state) : list BuyFill :=
  match fuel with
  | O => []
  | S fuel =>
      if (step s <? TradingConfig.maxBuySteps c)%Z then
        if JS.le low (nextBuyPrice c s)
        then mkFill (nextBuyPrice c s) (buyAmount c (step s + 1))
             :: scaleInFills fuel low (fill c s)
        else []
      else []
  end.

(** The buys made on one bar. *)
Definition barFills (s : state) (candle : CandleData.t) : list BuyFill :=
  if (step s =? 0)%Z
  then [mkFill (CandleData.price candle) (initialInvestedCapital c)]
  else if JS.le (candleLow candle) (slPrice c s) then []
  else if JS.ge (candleHigh candle) (tpPrice c s) then []
  else scaleInFills (Z.to_nat (TradingConfig.maxBuySteps c - step s))
         (candleLow candle) s.

Definition nextLedgerB (s : state) (candle : CandleData.t) (l : list BuyFill)
    : list BuyFill :=
  if (step (bar c s candle) =? 0)%Z then [] else l ++ barFills s candle.

Definition bookB (sl : state * list BuyFill) (candle : CandleData.t)
    : state * list BuyFill :=
  (bar c (fst sl) candle, nextLedgerB (fst sl) candle (snd sl)).

Definition booksB (candles : list CandleData.t) : state * list BuyFill :=
  fold_left bookB candles (init, []).

Definition pricedBar (candle : CandleData.t) : Prop :=
  0 < CandleData.price candle /\ 0 < candleLow candle.

Definition backAveraged (s : state) (l : list BuyFill) : Prop :=
  (0 <= step s)%Z
  /\ if (step s =? 0)%Z then l = []
     else averaged (totalInvested s) (totalQty s) (avgPrice s) l.

Hypothesis amount_positive : 0 < TradingConfig.initialAmount c.
Hypothesis premium_nonnegative : 0 <= TradingConfig.premiumRate c.

Lemma booksB_state (candles : list CandleData.t) :
  fst (booksB candles) = replay c candles.
Proof.
  unfold booksB, replay. induction candles as [|candle candles IH] using rev_ind.
  - reflexivity.
  - rewrite !fold_left_app. cbn [fold_left bookB fst]. rewrite IH. reflexivity.
Qed.

Lemma scaleInLoop_averaged (fuel : nat) (low : Q) (s : state) (l : list BuyFill) :
  0 < low ->
  (0 < step s)%Z ->
  averaged (totalInvested s) (totalQty s) (avgPrice s) l ->
  let s' := scaleInLoop c fuel low s in
  (0 < step s')%Z
  /\ averaged (totalInvested s') (totalQty s') (avgPrice s')
       (l ++ scaleInFills fuel low s).
Proof.
  intro Hlow. revert s l.
  induction fuel as [|fuel IH]; intros s l Hs Ha; cbn.
  - rewrite app_nil_r. split; assumption.
  - destruct (step s <? _)%Z; [|rewrite app_nil_r; split; assumption].
    destruct (JS.le low (nextBuyPrice c s)) eqn:E;
      [|rewrite app_nil_r; split; assumption].
    apply JSFacts.le_iff in E.
    replace (l ++ mkFill (nextBuyPrice c s) (buyAmount c (step s + 1))
               :: scaleInFills fuel low (fill c s))
      with ((l ++ [mkFill (nextBuyPrice c s) (buyAmount c (step s + 1))])
              ++ scaleInFills fuel low (fill c s))
      by (rewrite <- app_assoc; reflexivity).
    apply IH.
    + cbn. lia.
    + cbn [fill totalInvested totalQty avgPrice].
      eapply averaged_snoc; [exact Ha | lra |].
      apply (currentBuyAmount_pos c (step s + 1)); assumption.
Qed.

Lemma bookB_averaged (s : state) (l : list BuyFill) (candle : CandleData.t) :
  pricedBar candle ->
  backAveraged s l ->
  backAveraged (bar c s candle) (nextLedgerB s candle l).
Proof.
  intros (Hp & Hlow) (H0 & Ha). unfold backAveraged, nextLedgerB, barFills.
  unfold bar. cbn [track step totalInvested totalQty avgPrice].
  unfold trade.
  destruct (step s =? 0)%Z eqn:E.
  - subst l. cbn. split; [lia|].
    apply averaged_first; [exact Hp|]. unfold initialInvestedCapital. lra.
  - destruct (JS.le _ _); [cbn; split; [lia | reflexivity]|].
    destruct (JS.ge _ _); [cbn; split; [lia | reflexivity]|].
    apply Z.eqb_neq in E.
    destruct (scaleInLoop_averaged
                (Z.to_nat (TradingConfig.maxBuySteps c - step s))
                (candleLow candle) s l Hlow ltac:(lia) Ha) as (Hs' & Ha').
    unfold scaleIn. split; [lia|].
    destruct (step _ =? 0)%Z eqn:E'; [apply Z.eqb_eq in E'; lia | exact Ha'].
Qed.

Lemma booksB_averaged (candles : list CandleData.t) :
  Forall pricedBar candles ->
  backAveraged (fst (booksB candles)) (snd (booksB candles)).
Proof.
  unfold booksB.
  induction candles as [|candle candles IH] using rev_ind; intro Hp.
  - split; [cbn; lia | reflexivity].
  - apply Forall_app in Hp. destruct Hp as (Hp & Hc).
    apply Forall_inv in Hc.
    rewrite fold_left_app. cbn [fold_left bookB fst snd].
    apply bookB_averaged; auto.
Qed.

End BacktestLedger.

Section AveragingClaim.
Import TradeStatus TradingConfig.

(** A start at 100 followed by an accepted scale-in at 95. *)
Definition ops_two_buys : list op :=
  [Toggle (Some (ticker_at 100)) Filled;
   Tick (Some (ticker_at 95)) clock_0 Filled].

(** A bar at 100 followed by a bar at 95, which crosses the thresholds 98
    and 96.04 of the default 2 % interval. *)
Definition candles_two_buys : list CandleData.t :=
  [candle_at 100; candle_at 95].

(** C1: under a configuration with [initialAmount > 0] and
    [premiumRate >= 0], in every state the live engine reaches through
    operations at positive ticker prices, and in every state the backtest
    reaches over bars with positive prices and lows, a position that is open
    has a non-empty ledger of accepted buys [(price_i, amount_i)], a positive
    [totalQuantity], and
    [averagePrice == totalInvested / totalQuantity
                  == Σ amount_i / Σ (amount_i / price_i)],
    with [totalInvested == Σ amount_i] and
    [totalQuantity == Σ (amount_i / price_i)]. *)
Theorem average_price_is_invested_over_quantity (c : TradingConfig.t)
    (markets : list CoinInfo.t) (ops : list op) (candles : list CandleData.t) :
  0 < initialAmount c ->
  0 <= premiumRate c ->
  Forall pricedOp ops ->
  Forall (pricedBar) candles ->
  let s := statusOf (run (boot c markets) ops) in
  let l := snd (books c ops) in
  let b := Backtest.replay c candles in
  let lb := snd (booksB c candles) in
  (isActive s = true ->
   l <> []
   /\ 0 < totalQuantity s
   /\ averagePrice s == totalInvested s / totalQuantity s
   /\ totalInvested s == sumAmount l
   /\ totalQuantity s == sumQuantity l
   /\ averagePrice s == sumAmount l / sumQuantity l)
  /\ (Backtest.step b <> 0%Z ->
      lb <> []
      /\ 0 < Backtest.totalQty b
      /\ Backtest.avgPrice b == Backtest.totalInvested b / Backtest.totalQty b
      /\ Backtest.totalInvested b == sumAmount lb
      /\ Backtest.totalQty b == sumQuantity lb
      /\ Backtest.avgPrice b == sumAmount lb / sumQuantity lb).
Proof.
  intros Hamt Hprem Hops Hbars s l b lb. split.
  - intro Ha.
    pose proof (books_averaged c ops Hamt Hprem Hops) as H.
    rewrite books_status, <- (run_status c markets ops) in H.
    fold s l in H. unfold liveAveraged in H. rewrite Ha in H.
    apply averaged_sums. exact H.
  - intro Hs.
    pose proof (booksB_averaged c Hamt Hprem candles Hbars) as (_ & H).
    rewrite booksB_state in H. fold b lb in H.
    apply Z.eqb_neq in Hs. rewrite Hs in H.
    apply averaged_sums. exact H.
Qed.

Lemma average_price_is_invested_over_quantity_witness :
  let s := statusOf (run (boot config_default []) ops_two_buys) in
  let b := Backtest.replay config_default candles_two_buys in
  0 < initialAmount config_default
  /\ 0 <= premiumRate config_default
  /\ Forall pricedOp ops_two_buys
  /\ Forall pricedBar candles_two_buys
  /\ isActive s = true
  /\ currentStep s = 2%Z
  /\ averagePrice s == totalInvested s / totalQuantity s
  /\ Backtest.step b = 3%Z
  /\ Backtest.avgPrice b == Backtest.totalInvested b / Backtest.totalQty b.
Proof.
  intros s b.
  assert (Hamt : 0 < initialAmount config_default) by (vm_compute; reflexivity).
  assert (Hprem : 0 <= premiumRate config_default) by (vm_compute; discriminate).
  assert (Hops : Forall pricedOp ops_two_buys)
    by (repeat constructor; vm_compute; reflexivity).
  assert (Hbars : Forall pricedBar candles_two_buys)
    by (repeat constructor; vm_compute; reflexivity).
  assert (Ha : isActive s = true) by (vm_compute; reflexivity).
  assert (Hb : Backtest.step b <> 0%Z) by (vm_compute; discriminate).
  destruct (average_price_is_invested_over_quantity config_default []
              ops_two_buys candles_two_buys Hamt Hprem Hops Hbars)
    as (Hlive & Hback).
  destruct (Hlive Ha) as (_ & _ & Havg & _).
  destruct (Hback Hb) as (_ & _ & Havgb & _).
  split; [exact Hamt|]. split; [exact Hprem|]. split; [exact Hops|].
  split; [exact Hbars|]. split; [exact Ha|]. split; [vm_compute; reflexivity|].
  split; [exact Havg|]. split; [vm_compute; reflexivity|]. exact Havgb.
Defined.

End AveragingClaim.

(** ** Worked scenarios *)

Section Scenarios.
Import Backtest.

(** Three steps, 5 % interval, 5 % target, 10 % stop, 10,000 KRW per buy. *)
Definition config_scenario : TradingConfig.t :=
  TradingConfig.mk "access" "secret" "KRW-BTC" 3 5 5 10 1 0 true.

Definition candles_scenario : list CandleData.t :=
  [candle_at 100; candle_at 95; candle_at (9025 # 100); candle_at 100].

(** Bars at 100, 95, 90.25 and 100: a buy at 100, scale-ins at 95 and 90.25,
    and a take-profit on the last bar that banks 5 % of the 30,000 invested. *)
Example replay_scenario :
  step (replay config_scenario (firstn 3 candles_scenario)) = 3%Z
  /\ totalInvested (replay config_scenario (firstn 3 candles_scenario)) == 30000
  /\ runBacktest config_scenario candles_scenario
     = inl (result config_scenario (replay config_scenario candles_scenario))
  /\ balance (replay config_scenario candles_scenario) == 1500
  /\ wins (replay config_scenario candles_scenario) = 1%Z
  /\ losses (replay config_scenario candles_scenario) = 0%Z
  /\ BacktestResult.profitRate
       (result config_scenario (replay config_scenario candles_scenario)) == 15.
Proof. repeat split; vm_compute; reflexivity. Qed.

(** With a 2 % interval the thresholds below a fill at 100 compound:
    98, 96.04, 94.1192. *)
Example thresholds_compound :
  let s1 := openPosition config_default init 100 in
  let s2 := fill config_default s1 in
  let s3 := fill config_default s2 in
  nextBuyPrice config_default s1 == 98
  /\ nextBuyPrice config_default s2 == 9604 # 100
  /\ nextBuyPrice config_default s3 == 941192 # 10000.
Proof. repeat split; vm_compute; reflexivity. Qed.

(** A tick at 200 on a position averaging 100 is a PROFIT exit. *)
Example tick_at_200_is_profit :
  exitTypeOf config_default (pnl status_at_100 200) = PROFIT
  /\ exitCondition config_default (pnl status_at_100 200) = true.
Proof. split; vm_compute; reflexivity. Qed.

End Scenarios.

(** * Further properties of the live engine *)

Section Observations.
Import TradeStatus TradingConfig.

(** The alerts among the effects of a trace, in order. *)
Definition alertsIn (l : list effect) : list string :=
  flat_map (fun e => match e with Alert m => [m] | _ => [] end) l.

Lemma alertsIn_app (l1 l2 : list effect) :
  alertsIn (l1 ++ l2) = alertsIn l1 ++ alertsIn l2.
Proof. unfold alertsIn. apply flat_map_app. Qed.

(** The history an operation leaves behind. *)
Definition nextHistory (c : TradingConfig.t) (markets : list CoinInfo.t)
    (s : TradeStatus.t) (o : op) (h : list TradeRecord.t) : list TradeRecord.t :=
  match o with
  | Tick (Some t) clock _ =>
      if isActive s then
        if exitCondition c (pnl s (TickerData.price t))
        then exitRecord clock markets c s (pnl s (TickerData.price t)) :: h
        else h
      else h
  | _ => h
  end.

(** The alerts an operation shows. *)
Definition nextAlerts (c : TradingConfig.t) (s : TradeStatus.t) (o : op) : list string :=
  match o with
  | Tick _ _ _ => []
  | Toggle ticker answer =>
      if isActive s then []
      else if keysMissing c then ["먼저 API 설정을 완료해주세요."%string]
      else
        match ticker, answer with
        | None, _ =>
            [message_or "현재가 정보를 불러올 수 없습니다."
                        "봇 시작 중 오류가 발생했습니다."]
        | Some _, Rejected e => [message_or e "봇 시작 중 오류가 발생했습니다."]
        | Some _, Filled => []
        end
  end.

(** The network-error flag an operation leaves behind. *)
Definition nextNetworkError (old : bool) (o : op) : bool :=
  match o with
  | Tick None _ _ => true
  | Tick (Some _) _ _ => false
  | Toggle _ _ => old
  end.

Ltac observe :=
  cbn; rewrite ?alertsIn_app; cbn; rewrite ?app_nil_r; auto.

Lemma after_observes (w : World) (o : op) :
  App.isStarting (app w) = false ->
  App.tradeHistory (app (after w o))
  = nextHistory (configOf w) (App.markets (app w)) (statusOf w) o
      (App.tradeHistory (app w))
  /\ alertsIn (out (after w o))
     = alertsIn (out w) ++ nextAlerts (configOf w) (statusOf w) o
  /\ App.isNetworkError (app (after w o))
     = nextNetworkError (App.isNetworkError (app w)) o.
Proof.
  intro Hs. unfold after.
  destruct o as [[t|] clock answer | ticker answer];
    cbn [perform nextHistory nextAlerts nextNetworkError].
  - destruct (isActive (statusOf w)) eqn:Ha.
    + destruct (exitCondition (configOf w) (pnl (statusOf w) (TickerData.price t))) eqn:Hx.
      * rewrite updateLoop_exit by assumption.
        destruct answer; observe.
      * destruct (scaleInCondition (configOf w) (statusOf w) (TickerData.price t)) eqn:Hi.
        -- destruct answer as [|e].
           ++ rewrite updateLoop_scaleIn_filled by assumption. observe.
           ++ rewrite updateLoop_scaleIn_rejected by assumption. observe.
        -- rewrite updateLoop_hold by assumption. observe.
    + rewrite updateLoop_idle by assumption. observe.
  - rewrite updateLoop_null by assumption. observe.
  - destruct (isActive (statusOf w)) eqn:Ha.
    + rewrite handleToggleBot_stop by assumption. observe.
    + destruct (keysMissing (configOf w)) eqn:Hk.
      * rewrite handleToggleBot_no_keys by assumption. observe.
      * destruct ticker as [t|].
        -- destruct answer as [|e].
           ++ rewrite handleToggleBot_filled by assumption. observe.
           ++ rewrite handleToggleBot_rejected by assumption. observe.
        -- rewrite handleToggleBot_no_ticker by assumption. observe.
Qed.

Ltac split_ifs :=
  repeat match goal with
         | |- context [if ?b then _ else _] => destruct b
         | |- context [match ?x with Filled => _ | Rejected _ => _ end] => destruct x
         end.

(** X1: whatever the state, the ticker and the exchange's answer, neither
    handler lets an exception escape: a failed ticker fetch, a rejected
    order and a missing API key all end in a normal completion. *)
Theorem handlers_never_reject (w : World) (o : op) :
  fst (perform o w) = Normal tt.
Proof.
  destruct w as [[cfg [] h m st ne so] tr].
  destruct o as [[t|] clock answer | [t|] answer]; cbn [perform];
    unfold updateLoop, handleToggleBot, placeUpbitOrder, bind, try_catch,
      try_finally, ret, throw, emit, console_error, alert, setStatus,
      setTradeHistory, setIsNetworkError, setIsStarting, setIsSettingsOpen,
      modify, getStatus, getConfig, getMarkets, getIsStarting; cbn;
    split_ifs; cbn; split_ifs; reflexivity.
Qed.

End Observations.

Section LiveRuns.
Import TradeStatus TradingConfig.

Lemma run_markets (c : TradingConfig.t) (markets : list CoinInfo.t) (ops : list op) :
  App.markets (app (run (boot c markets) ops)) = markets.
Proof.
  induction ops as [|o ops IH] using rev_ind.
  - reflexivity.
  - rewrite run_snoc.
    destruct (run_settled c markets ops) as (_ & Hs).
    destruct (after_refines (run (boot c markets) ops) o Hs) as (_ & _ & Hm & _).
    rewrite Hm. exact IH.
Qed.

Definition isSell (o : Order.t) : bool :=
  match Order.side o with
  | ask => true
  | bid => false
  end.

(** X2: every operation places at most one order; a tick without ticker data,
    a tick while no position is open, and a click that stops the engine
    place none: stopping abandons the position without selling it. *)
Theorem at_most_one_order (c : TradingConfig.t) (markets : list CoinInfo.t)
    (ops : list op) (o : op) :
  let w := run (boot c markets) ops in
  exists placed,
    ordersIn (out (after w o)) = ordersIn (out w) ++ placed
    /\ (List.length placed <= 1)%nat
    /\ (forall clock answer, o = Tick None clock answer -> placed = [])
    /\ (forall ticker clock answer,
          o = Tick ticker clock answer -> isActive (statusOf w) = false ->
          placed = [])
    /\ (forall ticker answer,
          o = Toggle ticker answer -> isActive (statusOf w) = true ->
          placed = []
          /\ isActive (statusOf (after w o)) = false
          /\ App.tradeHistory (app (after w o)) = App.tradeHistory (app w)).
Proof.
  intro w.
  destruct (run_settled c markets ops) as (Hc & Hs). fold w in Hc, Hs.
  destruct (after_refines w o Hs) as (_ & _ & _ & _ & Hst & Ho).
  destruct (after_observes w o Hs) as (Hh & _).
  rewrite Hc in *.
  exists (nextOrders c (statusOf w) o).
  split; [exact Ho|]. split; [|split; [|split]].
  - destruct o as [[t|] clock answer | [t|] answer]; cbn [nextOrders];
      repeat match goal with
             | |- context [if ?b then _ else _] => destruct b
             end; cbn; lia.
  - intros clock answer ->. reflexivity.
  - intros ticker clock answer -> Ha. cbn [nextOrders].
    destruct ticker; [rewrite Ha|]; reflexivity.
  - intros ticker answer -> Ha. rewrite Hst, Hh. cbn [nextOrders nextStatus nextHistory].
    rewrite Ha. repeat split.
Qed.

(** X3: a tick whose ticker fetch fails raises the network-error flag and
    touches nothing else: status and history stay as they are and no order is
    placed; the next tick that gets a ticker clears the flag again. *)
Theorem missing_ticker_only_flags (c : TradingConfig.t) (markets : list CoinInfo.t)
    (ops : list op) (clock : Clock.t) (answer : reply) :
  let w := run (boot c markets) ops in
  let w' := after w (Tick None clock answer) in
  statusOf w' = statusOf w
  /\ App.tradeHistory (app w') = App.tradeHistory (app w)
  /\ out w' = out w
  /\ App.isNetworkError (app w') = true
  /\ (forall t clock' answer',
        App.isNetworkError (app (after w' (Tick (Some t) clock' answer'))) = false).
Proof.
  intros w w'.
  destruct (run_settled c markets ops) as (Hc & Hs). fold w in Hc, Hs.
  destruct (after_refines w (Tick None clock answer) Hs) as (_ & _ & _ & Hs' & Hst & _).
  destruct (after_observes w (Tick None clock answer) Hs) as (Hh & _ & Hn).
  fold w' in Hs', Hst, Hh, Hn.
  split; [exact Hst|]. split; [exact Hh|]. split; [|split; [exact Hn|]].
  - subst w'. unfold after. cbn [perform]. rewrite updateLoop_null by exact Hs.
    reflexivity.
  - intros t clock' answer'.
    destruct (after_observes w' (Tick (Some t) clock' answer') Hs') as (_ & _ & Hn').
    exact Hn'.
Qed.

(** X4: a start that cannot go through (an API key is missing, the ticker
    cannot be fetched, or the exchange rejects the initial buy) leaves the
    engine idle with its status and history untouched and [isStarting]
    cleared, and tells the user with exactly one alert; without keys or
    without a ticker no order is sent at all. *)
Theorem failed_start_stays_idle (w : World) (ticker : option TickerData.t)
    (answer : reply) :
  App.isStarting (app w) = false ->
  isActive (statusOf w) = false ->
  keysMissing (configOf w) = true \/ ticker = None \/ (exists e, answer = Rejected e) ->
  let w' := after w (Toggle ticker answer) in
  statusOf w' = statusOf w
  /\ App.tradeHistory (app w') = App.tradeHistory (app w)
  /\ App.isStarting (app w') = false
  /\ (exists m, alertsIn (out w') = alertsIn (out w) ++ [m])
  /\ (keysMissing (configOf w) = true \/ ticker = None ->
      ordersIn (out w') = ordersIn (out w))
  /\ (keysMissing (configOf w) = true -> App.isSettingsOpen (app w') = true).
Proof.
  intros Hs Ha Hwhy w'.
  destruct (after_refines w (Toggle ticker answer) Hs) as (_ & _ & _ & Hs' & Hst & Ho).
  destruct (after_observes w (Toggle ticker answer) Hs) as (Hh & Hal & _).
  fold w' in Hs', Hst, Ho, Hh, Hal.
  cbn [nextStatus nextOrders nextHistory nextAlerts] in *. rewrite Ha in *.
  split; [|split; [exact Hh|split; [exact Hs'|split; [|split]]]].
  - rewrite Hst. destruct (keysMissing (configOf w)); [reflexivity|].
    destruct Hwhy as [H|[->|[e ->]]]; [discriminate|reflexivity|].
    destruct ticker; reflexivity.
  - rewrite Hal. destruct (keysMissing (configOf w)); [eexists; reflexivity|].
    destruct Hwhy as [H|[->|[e ->]]]; [discriminate|eexists; reflexivity|].
    destruct ticker; eexists; reflexivity.
  - intros [Hk| ->]; rewrite Ho.
    + rewrite Hk. apply app_nil_r.
    + destruct (keysMissing (configOf w)); apply app_nil_r.
  - intro Hk. subst w'. unfold after. cbn [perform].
    rewrite handleToggleBot_no_keys by assumption. reflexivity.
Qed.

Lemma failed_start_stays_idle_witness :
  let w := boot config_default [] in
  let w' := after w (Toggle (Some (ticker_at 100)) (Rejected "insufficient_funds_bid")) in
  App.isStarting (app w) = false
  /\ isActive (statusOf w) = false
  /\ statusOf w' = statusOf w
  /\ alertsIn (out w') = ["insufficient_funds_bid"%string].
Proof.
  intros w w'.
  destruct (failed_start_stays_idle w (Some (ticker_at 100))
              (Rejected "insufficient_funds_bid") eq_refl eq_refl
              (or_intror (or_intror (ex_intro _ _ eq_refl))))
    as (Hst & _).
  split; [reflexivity|]. split; [reflexivity|]. split; [exact Hst|].
  vm_compute. reflexivity.
Defined.

End LiveRuns.

Section History.
Import TradeStatus TradingConfig.

(** What a record of the history says about the exit it logs. *)
Definition faithfulRecord (c : TradingConfig.t) (markets : list CoinInfo.t)
    (r : TradeRecord.t) : Prop :=
  (TradeRecord.exitType r = PROFIT -> targetProfit c <= TradeRecord.pnlPercentage r)
  /\ (TradeRecord.exitType r = LOSS ->
      TradeRecord.pnlPercentage r <= - stopLoss c
      /\ TradeRecord.pnlPercentage r < targetProfit c)
  /\ TradeRecord.pnlAmount r
     = TradeRecord.totalInvested r * (TradeRecord.pnlPercentage r / 100)
  /\ TradeRecord.totalInvested r
     == ladderCost c (Z.to_nat (TradeRecord.finalStep r))
  /\ (1 <= TradeRecord.finalStep r <= maxBuySteps c)%Z
  /\ TradeRecord.coin r = coin c
  /\ TradeRecord.coinName r = coinNameOf markets (coin c).

Lemma exitRecord_faithful (c : TradingConfig.t) (markets : list CoinInfo.t)
    (s : TradeStatus.t) (clock : Clock.t) (p : Q) :
  exitCondition c (pnl s p) = true ->
  ladder c s -> costed c s -> isActive s = true ->
  faithfulRecord c markets (exitRecord clock markets c s (pnl s p)).
Proof.
  intros Hx Hl (_ & _ & Hc) Ha. unfold ladder in Hl. rewrite Ha in Hl.
  unfold faithfulRecord, exitRecord. cbn.
  apply exitCondition_iff in Hx.
  split; [|split; [|split; [reflexivity|split;
    [exact Hc|split; [exact Hl|split; reflexivity]]]]].
  - intro E. destruct (Qlt_le_dec (pnl s p) (targetProfit c)) as [H|H]; [|exact H].
    rewrite (exitTypeOf_loss c _ H) in E. discriminate.
  - intro E. destruct (Qlt_le_dec (pnl s p) (targetProfit c)) as [H|H].
    + split; [|exact H]. destruct Hx as [Hx|Hx]; [lra|exact Hx].
    + rewrite (exitTypeOf_profit c _ H) in E. discriminate.
Qed.

(** X5: along every run under a configuration with [maxBuySteps >= 1], each
    record of the history is faithful to its exit: PROFIT records carry a
    percentage at or above the target, LOSS records one at or below the
    stop-loss bound and below the target; the amount is the invested total
    times the percentage; the invested total is the cost of the ladder up to
    the final step, which lies between 1 and [maxBuySteps]. *)
Theorem history_is_faithful (c : TradingConfig.t) (markets : list CoinInfo.t)
    (ops : list op) :
  (1 <= maxBuySteps c)%Z ->
  Forall (faithfulRecord c markets)
    (App.tradeHistory (app (run (boot c markets) ops))).
Proof.
  intro Hmax. induction ops as [|o ops IH] using rev_ind.
  - constructor.
  - rewrite run_snoc.
    destruct (run_ladder c markets ops Hmax) as (Hc & Hs & Hl).
    pose proof (run_costed c markets ops) as Hcost.
    pose proof (run_markets c markets ops) as Hm.
    destruct (after_observes (run (boot c markets) ops) o Hs) as (Hh & _).
    rewrite Hh, Hc, Hm.
    destruct o as [[t|] clock answer | ticker answer]; cbn [nextHistory]; try exact IH.
    destruct (isActive _) eqn:Ha; [|exact IH].
    destruct (exitCondition c _) eqn:Hx; [|exact IH].
    constructor; [|exact IH].
    apply exitRecord_faithful; assumption.
Qed.

(** A start at 100, an accepted scale-in at 95 and a tick at 120, which
    takes profit. *)
Definition ops_round_trip : list op :=
  [Toggle (Some (ticker_at 100)) Filled;
   Tick (Some (ticker_at 95)) clock_0 Filled;
   Tick (Some (ticker_at 120)) clock_0 Filled].

Lemma history_is_faithful_witness :
  (1 <= maxBuySteps config_default)%Z
  /\ Forall (faithfulRecord config_default [])
       (App.tradeHistory (app (run (boot config_default []) ops_round_trip)))
  /\ List.length
       (App.tradeHistory (app (run (boot config_default []) ops_round_trip)))
     = 1%nat.
Proof.
  assert (Hmax : (1 <= maxBuySteps config_default)%Z) by (vm_compute; discriminate).
  split; [exact Hmax|]. split.
  - exact (history_is_faithful config_default [] ops_round_trip Hmax).
  - vm_compute. reflexivity.
Defined.

Lemma nextHistory_length (c : TradingConfig.t) (markets : list CoinInfo.t)
    (s : TradeStatus.t) (o : op) (h : list TradeRecord.t) :
  List.length (nextHistory c markets s o h)
  = (List.length h + List.length (filter isSell (nextOrders c s o)))%nat.
Proof.
  destruct o as [[t|] clock answer | [t|] answer]; cbn [nextHistory nextOrders];
    repeat match goal with
           | |- context [if ?b then _ else _] => destruct b
           end; cbn; lia.
Qed.

(** X6: the history and the sell orders stay in step: in every state reached
    from the initial one, the number of records equals the number of sell
    orders placed so far; buys, stops and failed operations add neither. *)
Theorem one_record_per_sell (c : TradingConfig.t) (markets : list CoinInfo.t)
    (ops : list op) :
  let w := run (boot c markets) ops in
  List.length (App.tradeHistory (app w))
  = List.length (filter isSell (ordersIn (out w))).
Proof.
  cbv zeta. induction ops as [|o ops IH] using rev_ind.
  - reflexivity.
  - rewrite run_snoc.
    destruct (run_settled c markets ops) as (Hc & Hs).
    destruct (after_refines (run (boot c markets) ops) o Hs) as (_ & _ & _ & _ & _ & Ho).
    destruct (after_observes (run (boot c markets) ops) o Hs) as (Hh & _).
    rewrite Hh, Ho, filter_app, length_app, nextHistory_length, IH.
    reflexivity.
Qed.

End History.

Section AverageDown.
Import TradeStatus TradingConfig.

(** An open position is grounded when its quantity is positive, its average
    is the invested total over the quantity, and its last buy price is
    positive and not above the average. *)
Definition grounded (s : TradeStatus.t) : Prop :=
  isActive s = true ->
  0 < totalQuantity s
  /\ averagePrice s == totalInvested s / totalQuantity s
  /\ 0 < lastBuyPrice s
  /\ lastBuyPrice s <= averagePrice s.

Lemma average_times_quantity (a i q : Q) :
  0 < q -> a == i / q -> a * q == i.
Proof. intros Hq Ha. rewrite Ha. field. lra. Qed.

(** Buying [amount] at a price [p] not above the average [a = i / q] moves
    the average to a value between [p] and [a]. *)
Lemma buy_below_average (a i q p amount : Q) :
  0 < q -> a == i / q -> 0 < p -> p <= a -> 0 < amount ->
  0 < q + amount / p
  /\ p <= (i + amount) / (q + amount / p)
  /\ (i + amount) / (q + amount / p) <= a.
Proof.
  intros Hq Ha Hp Hpa Hamt.
  pose proof (average_times_quantity a i q Hq Ha) as Haq.
  pose proof (quotient_pos amount p Hp Hamt) as Hx.
  assert (Hxp : amount / p * p == amount) by (field; lra).
  split; [lra|]. split.
  - apply Qle_shift_div_l; [lra|]. nra.
  - apply Qle_shift_div_r; [lra|]. nra.
Qed.

Lemma below_threshold (last interval p : Q) :
  0 < last -> 0 <= interval -> p <= last * (1 - interval / 100) -> p <= last.
Proof.
  intros Hl Hi Hp.
  assert (0 <= interval / 100) by (apply Qle_shift_div_l; lra). nra.
Qed.

Lemma nextStatus_grounded (c : TradingConfig.t) (s : TradeStatus.t) (o : op) :
  0 < initialAmount c -> 0 <= premiumRate c -> 0 <= buyInterval c ->
  pricedOp o -> grounded s -> grounded (nextStatus c s o).
Proof.
  intros Hamt Hprem Hint Hp Hg. unfold grounded in *.
  destruct o as [[t|] clock answer | ticker answer]; cbn [nextStatus].
  - cbn in Hp. destruct (isActive s) eqn:Ha.
    + destruct (exitCondition c _); [discriminate|].
      destruct (scaleInCondition c s _) eqn:Hi.
      * destruct answer; [|rewrite Ha; exact Hg].
        intros _. destruct (Hg eq_refl) as (Hq & Hav & Hl & Hla).
        apply scaleInCondition_iff in Hi. destruct Hi as (_ & Hi).
        pose proof (below_threshold _ _ _ Hl Hint Hi) as Hpl.
        pose proof (currentBuyAmount_pos c (currentStep s + 1) Hamt Hprem) as Hb.
        destruct (buy_below_average (averagePrice s) (totalInvested s)
                    (totalQuantity s) (TickerData.price t)
                    (currentBuyAmount c (currentStep s + 1)) Hq Hav Hp
                    ltac:(lra) Hb) as (H1 & H2 & H3).
        cbn. repeat split; try assumption; try reflexivity.
      * cbn. rewrite Ha. exact Hg.
    + cbn. rewrite Ha. discriminate.
  - exact Hg.
  - destruct (isActive s) eqn:Ha; [discriminate|].
    destruct (keysMissing c); [rewrite Ha; discriminate|].
    destruct ticker as [t|]; [|rewrite Ha; discriminate].
    destruct answer; [|rewrite Ha; discriminate].
    cbn in Hp. intros _. cbn.
    split; [apply quotient_pos; lra|]. split; [field; lra|].
    split; [exact Hp | lra].
Qed.

Lemma run_grounded (c : TradingConfig.t) (markets : list CoinInfo.t) (ops : list op) :
  0 < initialAmount c -> 0 <= premiumRate c -> 0 <= buyInterval c ->
  Forall pricedOp ops ->
  grounded (statusOf (run (boot c markets) ops)).
Proof.
  intros Hamt Hprem Hint. rewrite run_status.
  induction ops as [|o ops IH] using rev_ind; intro Hp.
  - discriminate.
  - apply Forall_app in Hp. destruct Hp as (Hp & Ho). apply Forall_inv in Ho.
    rewrite fold_left_app. cbn [fold_left].
    apply nextStatus_grounded; auto.
Qed.

(** From an active position on step [>= 0], the step rises only through an
    accepted scale-in. *)
Lemma climb_is_scale_in (c : TradingConfig.t) (s : TradeStatus.t) (o : op) :
  isActive s = true -> (0 <= currentStep s)%Z ->
  (currentStep s < currentStep (nextStatus c s o))%Z ->
  exists t clock,
    o = Tick (Some t) clock Filled
    /\ scaleInCondition c s (TickerData.price t) = true
    /\ nextStatus c s o = scaledStatus c s t.
Proof.
  intros Ha H0.
  destruct o as [[t|] clock answer | ticker answer]; cbn [nextStatus]; rewrite ?Ha.
  - destruct (exitCondition c _); [cbn; lia|].
    destruct (scaleInCondition c s _) eqn:Hi; [|cbn; lia].
    destruct answer; [|lia].
    intros _. exists t, clock. repeat split. exact Hi.
  - lia.
  - cbn. lia.
Qed.

(** X7: averaging down: under a configuration with [initialAmount > 0],
    [premiumRate >= 0] and [buyInterval >= 0], along operations at positive
    ticker prices, an open position's last buy price is positive and never
    above its average price; and every accepted scale-in fills at least
    [buyInterval] percent below the previous fill and moves the average to a
    value between the fill price and the old average: it never raises it. *)
Theorem scale_in_averages_down (c : TradingConfig.t) (markets : list CoinInfo.t)
    (ops : list op) (o : op) :
  0 < initialAmount c -> 0 <= premiumRate c -> 0 <= buyInterval c ->
  Forall pricedOp ops -> pricedOp o ->
  let s := statusOf (run (boot c markets) ops) in
  let s' := statusOf (after (run (boot c markets) ops) o) in
  (isActive s' = true -> 0 < lastBuyPrice s' /\ lastBuyPrice s' <= averagePrice s')
  /\ (isActive s = true -> (currentStep s < currentStep s')%Z ->
      lastBuyPrice s' <= lastBuyPrice s * (1 - buyInterval c / 100)
      /\ lastBuyPrice s' <= averagePrice s'
      /\ averagePrice s' <= averagePrice s).
Proof.
  intros Hamt Hprem Hint Hops Ho s s'.
  pose proof (run_grounded c markets ops Hamt Hprem Hint Hops) as Hg. fold s in Hg.
  assert (Hg' : grounded s').
  { subst s'. rewrite <- run_snoc. apply run_grounded; try assumption.
    apply Forall_app. split; [exact Hops | constructor; [exact Ho | constructor]]. }
  destruct (run_settled c markets ops) as (Hc & Hs).
  destruct (after_refines (run (boot c markets) ops) o Hs) as (_ & _ & _ & _ & Hst & _).
  rewrite Hc in Hst. fold s s' in Hst.
  destruct (run_costed c markets ops) as (H0 & _). fold s in H0.
  split.
  - intro Ha'. destruct (Hg' Ha') as (_ & _ & Hl & Hla). split; assumption.
  - intros Ha Hclimb. rewrite Hst in Hclimb.
    destruct (climb_is_scale_in c s o Ha H0 Hclimb) as (t & clock & -> & Hi & Hscaled).
    destruct (Hg Ha) as (Hq & Hav & Hl & Hla).
    apply scaleInCondition_iff in Hi. destruct Hi as (_ & Hi).
    pose proof (below_threshold _ _ _ Hl Hint Hi) as Hpl.
    pose proof (currentBuyAmount_pos c (currentStep s + 1) Hamt Hprem) as Hb.
    cbn in Ho.
    destruct (buy_below_average (averagePrice s) (totalInvested s)
                (totalQuantity s) (TickerData.price t)
                (currentBuyAmount c (currentStep s + 1)) Hq Hav Ho
                ltac:(lra) Hb) as (H1 & H2 & H3).
    rewrite Hst, Hscaled. cbn. repeat split; assumption.
Qed.

Lemma scale_in_averages_down_witness :
  let c := config_default in
  let ops := [Toggle (Some (ticker_at 100)) Filled] in
  let o := Tick (Some (ticker_at 95)) clock_0 Filled in
  let s := statusOf (run (boot c []) ops) in
  let s' := statusOf (after (run (boot c []) ops) o) in
  0 < initialAmount c /\ 0 <= premiumRate c /\ 0 <= buyInterval c
  /\ Forall pricedOp ops /\ pricedOp o
  /\ isActive s = true /\ (currentStep s < currentStep s')%Z
  /\ lastBuyPrice s' <= averagePrice s'
  /\ averagePrice s' <= averagePrice s.
Proof.
  intros c ops o s s'.
  assert (Hamt : 0 < initialAmount c) by (vm_compute; reflexivity).
  assert (Hprem : 0 <= premiumRate c) by (vm_compute; discriminate).
  assert (Hint : 0 <= buyInterval c) by (vm_compute; discriminate).
  assert (Hops : Forall pricedOp ops) by (repeat constructor; vm_compute; reflexivity).
  assert (Ho : pricedOp o) by (vm_compute; reflexivity).
  assert (Ha : isActive s = true) by (vm_compute; reflexivity).
  assert (Hclimb : (currentStep s < currentStep s')%Z) by (vm_compute; reflexivity).
  destruct (scale_in_averages_down c [] ops o Hamt Hprem Hint Hops Ho) as (_ & H).
  destruct (H Ha Hclimb) as (_ & H2 & H3).
  repeat (split; [assumption|]). exact H3.
Defined.

End AverageDown.

(** * Further properties of the backtest *)

Section SharedThresholds.
Import TradeStatus TradingConfig.




End SharedThresholds.

Section BacktestInvariants.
Import Backtest.
Variable c : TradingConfig.t.

(** The counters add up, the step is not negative, and a closed position
    holds nothing. *)
Definition tallied (s : state) : Prop :=
  trades s = (wins s + losses s)%Z
  /\ (0 <= wins s)%Z /\ (0 <= losses s)%Z
  /\ (0 <= step s)%Z
  /\ (step s = 0%Z -> totalQty s = 0 /\ totalInvested s = 0).

Lemma bar_tallied (s : state) (candle : CandleData.t) :
  tallied s -> tallied (bar c s candle).
Proof.
  intros (Ht & Hw & Hl & H0 & Hz). unfold tallied, bar.
  cbn [track trades wins losses step totalQty totalInvested].
  unfold trade.
  destruct (step s =? 0)%Z eqn:E.
  - cbn. repeat split; try assumption; try lia. all: discriminate.
  - destruct (JS.le _ _); [cbn; repeat split; lia|].
    destruct (JS.ge _ _); [cbn; repeat split; lia|].
    unfold scaleIn.
    destruct (scaleInLoop_frame c (Z.to_nat (TradingConfig.maxBuySteps c - step s))
                (candleLow candle) s) as (_ & H2 & H3 & H4 & _ & _ & H7).
    rewrite H2, H3, H4. apply Z.eqb_neq in E.
    split; [exact Ht|]. split; [exact Hw|]. split; [exact Hl|].
    split; [lia|]. intro Hs'. exfalso. lia.
Qed.

Lemma replay_tallied (candles : list CandleData.t) : tallied (replay c candles).
Proof.
  unfold replay. induction candles as [|candle candles IH] using rev_ind.
  - repeat split; cbn; lia.
  - rewrite fold_left_app. cbn [fold_left]. apply bar_tallied. exact IH.
Qed.

Lemma scaleInLoop_bounded (fuel : nat) (low : Q) (s : state) :
  (step s <= TradingConfig.maxBuySteps c)%Z ->
  (step (scaleInLoop c fuel low s) <= TradingConfig.maxBuySteps c)%Z.
Proof.
  revert s. induction fuel as [|fuel IH]; intros s H; cbn; [exact H|].
  destruct (step s <? _)%Z eqn:E; [|exact H].
  destruct (JS.le low _); [|exact H].
  apply IH. cbn. apply Z.ltb_lt in E. lia.
Qed.

Lemma bar_bounded (s : state) (candle : CandleData.t) :
  (1 <= TradingConfig.maxBuySteps c)%Z ->
  (step s <= TradingConfig.maxBuySteps c)%Z ->
  (step (bar c s candle) <= TradingConfig.maxBuySteps c)%Z.
Proof.
  intros Hmax H. unfold bar. cbn [track step]. unfold trade.
  destruct (step s =? 0)%Z; [cbn; lia|].
  destruct (JS.le _ _); [cbn; lia|].
  destruct (JS.ge _ _); [cbn; lia|].
  apply scaleInLoop_bounded. exact H.
Qed.

Lemma replay_bounded (candles : list CandleData.t) :
  (1 <= TradingConfig.maxBuySteps c)%Z ->
  (step (replay c candles) <= TradingConfig.maxBuySteps c)%Z.
Proof.
  intro Hmax. unfold replay.
  induction candles as [|candle candles IH] using rev_ind.
  - cbn. lia.
  - rewrite fold_left_app. cbn [fold_left]. apply bar_bounded; assumption.
Qed.

(** The loop stops only when its own condition or its [break] says so. *)
Lemma scaleInLoop_done (fuel : nat) (low : Q) (s : state) :
  (Z.to_nat (TradingConfig.maxBuySteps c - step s) <= fuel)%nat ->
  (step (scaleInLoop c fuel low s) <? TradingConfig.maxBuySteps c)%Z
  && JS.le low (nextBuyPrice c (scaleInLoop c fuel low s)) = false.
Proof.
  revert s. induction fuel as [|fuel IH]; intros s Hf; cbn [scaleInLoop].
  - assert (E : (step s <? TradingConfig.maxBuySteps c)%Z = false)
      by (apply Z.ltb_ge; lia).
    now rewrite E.
  - destruct (step s <? _)%Z eqn:E; [|now rewrite E].
    destruct (JS.le low (nextBuyPrice c s)) eqn:L.
    + apply IH. rewrite step_fill. apply Z.ltb_lt in E. lia.
    + rewrite E, L. reflexivity.
Qed.

(** X9: within one bar the cascade takes every rung the bar's low reaches: when
    it ends, either the ladder is used up or the low is above the next
    threshold, so running it again on the same bar changes nothing; it never
    lowers the step, never passes [maxBuySteps], and leaves balance and trade
    counters alone. *)
Theorem cascade_is_exhaustive (low : Q) (s : state) :
  let s' := scaleIn c low s in
  ((TradingConfig.maxBuySteps c <= step s')%Z \/ nextBuyPrice c s' < low)
  /\ scaleIn c low s' = s'
  /\ (step s <= step s')%Z
  /\ ((step s <= TradingConfig.maxBuySteps c)%Z ->
      (step s' <= TradingConfig.maxBuySteps c)%Z)
  /\ balance s' = balance s
  /\ trades s' = trades s.
Proof.
  intro s'.
  pose proof (scaleInLoop_done (Z.to_nat (TradingConfig.maxBuySteps c - step s))
                low s (Nat.le_refl _)) as Hd.
  fold (scaleIn c low s) in Hd. fold s' in Hd.
  destruct (scaleInLoop_frame c (Z.to_nat (TradingConfig.maxBuySteps c - step s))
              low s) as (Hb & Ht & _ & _ & _ & _ & Hs).
  fold (scaleIn c low s) in Hb, Ht, Hs. fold s' in Hb, Ht, Hs.
  split; [|split; [|split; [exact Hs|split; [|split; assumption]]]].
  - apply andb_false_iff in Hd. destruct Hd as [Hd|Hd].
    + left. apply Z.ltb_ge. exact Hd.
    + right. destruct (Qlt_le_dec (nextBuyPrice c s') low) as [H|H]; [exact H|].
      apply JSFacts.le_iff in H. congruence.
  - rewrite scaleIn_unfold.
    destruct (step s' <? _)%Z; [|reflexivity].
    cbn in Hd. now rewrite Hd.
  - intro H. apply scaleInLoop_bounded. exact H.
Qed.

(** X10: in every replay the trade counters add up ([trades = wins + losses],
    none negative) and so do the reported ones; the step stays at or above 0
    and a closed position holds neither quantity nor invested capital; an
    empty candle list yields no result but an alert, any other list a
    result. *)
Theorem backtest_counters_add_up (candles : list CandleData.t) :
  let b := replay c candles in
  trades b = (wins b + losses b)%Z
  /\ (0 <= wins b)%Z /\ (0 <= losses b)%Z /\ (0 <= step b)%Z
  /\ (step b = 0%Z -> totalQty b = 0 /\ totalInvested b = 0)
  /\ (forall r, runBacktest c candles = inl r ->
        BacktestResult.totalTrades r
        = (BacktestResult.winCount r + BacktestResult.lossCount r)%Z)
  /\ (candles = [] <-> exists m, runBacktest c candles = inr m).
Proof.
  intro b. destruct (replay_tallied candles) as (Ht & Hw & Hl & H0 & Hz).
  fold b in Ht, Hw, Hl, H0, Hz.
  repeat (split; [assumption|]). split.
  - intros r Hr. destruct candles; [discriminate Hr|].
    injection Hr as <-. exact Ht.
  - split.
    + intros ->. eexists. reflexivity.
    + intros [m Hm]. destruct candles; [reflexivity | discriminate Hm].
Qed.

End BacktestInvariants.

Section BacktestMoney.
Import Backtest.

(** A replay that ends with an open position: bars at 100 and 95. *)
Definition candles_open : list CandleData.t :=
  [candle_at 100; candle_at 95].

(** A bar whose low of 80 is under the stop-loss price. *)
Definition candle_crash : CandleData.t :=
  CandleData.mk "2024-01-03T09:00:00" 85 (Some 96) (Some 80) (Some 95).

(** A bar that stays above the stop-loss price and reaches the take-profit
    price. *)
Definition candle_rally : CandleData.t :=
  CandleData.mk "2024-01-03T09:00:00" 104 (Some 105) (Some 97) (Some 98).

(** X11: exits bank a fixed fraction of the capital at work: under a
    configuration with [initialAmount > 0] and [premiumRate >= 0], after any
    bars with positive prices and lows that leave a position open, a bar that
    hits the stop-loss moves the balance by exactly
    [- totalInvested * stopLoss / 100], and a bar that stays above it and
    reaches the take-profit price by exactly
    [+ totalInvested * targetProfit / 100]. *)
Theorem exits_bank_a_percentage (c : TradingConfig.t)
    (candles : list CandleData.t) (candle : CandleData.t) :
  0 < TradingConfig.initialAmount c ->
  0 <= TradingConfig.premiumRate c ->
  Forall pricedBar candles ->
  step (replay c candles) <> 0%Z ->
  let b := replay c candles in
  (candleLow candle <= slPrice c b ->
   balance (bar c b candle)
   == balance b - totalInvested b * (TradingConfig.stopLoss c / 100))
  /\ (slPrice c b < candleLow candle -> tpPrice c b <= candleHigh candle ->
      balance (bar c b candle)
      == balance b + totalInvested b * (TradingConfig.targetProfit c / 100)).
Proof.
  intros Hamt Hprem Hbars Hs b.
  pose proof (booksB_averaged c Hamt Hprem candles Hbars) as (_ & H).
  rewrite booksB_state in H. fold b in H.
  pose proof Hs as Hs'. apply Z.eqb_neq in Hs'. fold b in Hs'. rewrite Hs' in H.
  destruct (averaged_sums _ _ _ _ H) as (_ & Hq & Hav & _).
  pose proof (average_times_quantity _ _ _ Hq Hav) as Haq.
  split.
  - intro Hl. unfold bar. rewrite (trade_loss c b candle Hs Hl).
    cbn [track balance closeLoss]. unfold slPrice.
    assert (E : totalQty b * (avgPrice b * (1 - TradingConfig.stopLoss c / 100))
                == (avgPrice b * totalQty b) * (1 - TradingConfig.stopLoss c / 100))
      by ring.
    rewrite E, Haq. ring.
  - intros Hl Hh. unfold bar. rewrite (trade_win c b candle Hs Hl Hh).
    cbn [track balance closeWin]. unfold tpPrice.
    assert (E : totalQty b * (avgPrice b * (1 + TradingConfig.targetProfit c / 100))
                == (avgPrice b * totalQty b) * (1 + TradingConfig.targetProfit c / 100))
      by ring.
    rewrite E, Haq. ring.
Qed.

Lemma exits_bank_a_percentage_witness :
  let c := config_default in
  let b := replay c candles_open in
  0 < TradingConfig.initialAmount c
  /\ 0 <= TradingConfig.premiumRate c
  /\ Forall pricedBar candles_open
  /\ step b <> 0%Z
  /\ candleLow candle_crash <= slPrice c b
  /\ balance (bar c b candle_crash) == -3000
  /\ balance (bar c b candle_rally) == 900.
Proof.
  intros c b.
  assert (Hamt : 0 < TradingConfig.initialAmount c) by (vm_compute; reflexivity).
  assert (Hprem : 0 <= TradingConfig.premiumRate c) by (vm_compute; discriminate).
  assert (Hbars : Forall pricedBar candles_open)
    by (repeat constructor; vm_compute; reflexivity).
  assert (Hs : step (replay c candles_open) <> 0%Z) by (vm_compute; discriminate).
  assert (Hl : candleLow candle_crash <= slPrice c b) by (vm_compute; discriminate).
  assert (Hl' : slPrice c b < candleLow candle_rally) by (vm_compute; reflexivity).
  assert (Hh : tpPrice c b <= candleHigh candle_rally) by (vm_compute; discriminate).
  destruct (exits_bank_a_percentage c candles_open candle_crash Hamt Hprem Hbars Hs)
    as (Hloss & _).
  destruct (exits_bank_a_percentage c candles_open candle_rally Hamt Hprem Hbars Hs)
    as (_ & Hwin).
  repeat (split; [assumption|]). split.
  - eapply Qeq_trans; [exact (Hloss Hl) | vm_compute; reflexivity].
  - eapply Qeq_trans; [exact (Hwin Hl' Hh) | vm_compute; reflexivity].
Defined.

End BacktestMoney.

Section Cascade.
Import Backtest.
Variable c : TradingConfig.t.

(** The factor between two successive thresholds. *)
Definition rung : Q := 1 - TradingConfig.buyInterval c / 100.

Lemma Qpower_succ (r : Q) (k : Z) : (0 <= k)%Z -> r ^ (k + 1) == r ^ k * r.
Proof.
  intro Hk. rewrite Qpower_plus' by lia. reflexivity.
Qed.

Lemma scaleInLoop_compounds (fuel : nat) (low : Q) (s : state) :
  let s' := scaleInLoop c fuel low s in
  lastBuyPrice s' == lastBuyPrice s * rung ^ (step s' - step s)
  /\ ((step s < step s')%Z -> low <= lastBuyPrice s').
Proof.
  revert s. induction fuel as [|fuel IH]; intro s; cbn [scaleInLoop].
  - rewrite Z.sub_diag. split; [cbn; ring | lia].
  - destruct (step s <? _)%Z; [|rewrite Z.sub_diag; split; [cbn; ring | lia]].
    destruct (JS.le low (nextBuyPrice c s)) eqn:L;
      [|rewrite Z.sub_diag; split; [cbn; ring | lia]].
    destruct (IH (fill c s)) as (Hc & Hl).
    destruct (scaleInLoop_frame c fuel low (fill c s)) as (_ & _ & _ & _ & _ & _ & Hs).
    rewrite step_fill in *. cbn [fill lastBuyPrice] in Hc.
    set (s' := scaleInLoop c fuel low (fill c s)) in *.
    split.
    + rewrite Hc. unfold nextBuyPrice. fold rung.
      replace (step s' - step s)%Z with ((step s' - (step s + 1)) + 1)%Z by lia.
      rewrite Qpower_succ by lia. ring.
    + intros _. destruct (Z.eq_dec (step s') (step s + 1)) as [E|E].
      * assert (Hz : (step s' - (step s + 1) = 0)%Z) by lia.
        rewrite Hz in Hc. cbn in Hc. apply JSFacts.le_iff in L.
        rewrite Hc. lra.
      * apply Hl. lia.
Qed.

(** X12: thresholds compound: the cascade of one bar leaves the last buy price at
    the previous one times [(1 - buyInterval/100)^k], where [k] is the number
    of rungs taken, and no rung is bought below the bar's low. *)
Theorem cascade_compounds (low : Q) (s : state) :
  let s' := scaleIn c low s in
  lastBuyPrice s' == lastBuyPrice s * rung ^ (step s' - step s)
  /\ ((step s < step s')%Z -> low <= lastBuyPrice s').
Proof. apply scaleInLoop_compounds. Qed.

End Cascade.

Section Peak.
Import Backtest.
Variable c : TradingConfig.t.

Lemma bar_peak (s : state) (candle : CandleData.t) :
  peak s <= peak (bar c s candle)
  /\ currentEquity (trade c s candle) (CandleData.price candle)
     <= peak (bar c s candle).
Proof.
  unfold bar, track. cbn [peak].
  destruct (trade_keeps_peak c s candle) as (Hp & _). rewrite Hp.
  destruct (JS.gt _ (peak s)) eqn:G.
  - apply JSFacts.gt_iff in G. split; lra.
  - split; [lra|].
    destruct (Qlt_le_dec (peak s)
                (currentEquity (trade c s candle) (CandleData.price candle)))
      as [H|H]; [|exact H].
    apply JSFacts.gt_iff in H. congruence.
Qed.

Lemma fold_peak (candles : list CandleData.t) (s : state) :
  peak s <= peak (fold_left (bar c) candles s)
  /\ Forall (fun e => e <= peak (fold_left (bar c) candles s))
       (equityCurve c s candles).
Proof.
  revert s. induction candles as [|candle rest IH]; intro s; cbn.
  - split; [lra | constructor].
  - destruct (IH (bar c s candle)) as (Hp & Hf).
    destruct (bar_peak s candle) as (H1 & H2).
    split; [lra|]. constructor; [lra | exact Hf].
Qed.

(** X13: the peak is a running maximum: after a replay it is at least 0 and at
    least the equity seen at the end of every bar, and the maximum drawdown
    never shrinks when more bars are replayed. *)
Theorem peak_dominates_equity (candles more : list CandleData.t) :
  0 <= peak (replay c candles)
  /\ Forall (fun e => e <= peak (replay c candles)) (equityCurve c init candles)
  /\ peak (replay c candles) <= peak (replay c (candles ++ more))
  /\ mdd (replay c candles) <= mdd (replay c (candles ++ more)).
Proof.
  unfold replay. destruct (fold_peak candles init) as (H0 & Hf).
  split; [exact H0|]. split; [exact Hf|].
  rewrite fold_left_app. split.
  - apply fold_peak.
  - apply mdd_fold_ge.
Qed.

End Peak.

Section CapitalCap.
Import TradeStatus TradingConfig.

Lemma currentBuyAmount_nonneg (c : TradingConfig.t) (n : Z) :
  0 <= initialAmount c -> 0 <= premiumRate c -> 0 <= currentBuyAmount c n.
Proof.
  intros Ha Hp. rewrite currentBuyAmount_eq.
  assert (Hb : 0 < 1 + premiumRate c / 100).
  { assert (0 <= premiumRate c / 100) by (apply Qle_shift_div_l; lra). lra. }
  pose proof (Qpower_pos_base _ (n - 1) Hb). nra.
Qed.

Lemma ladderCost_mono (c : TradingConfig.t) (n m : nat) :
  0 <= initialAmount c -> 0 <= premiumRate c -> (n <= m)%nat ->
  ladderCost c n <= ladderCost c m.
Proof.
  intros Ha Hp Hnm. induction Hnm as [|m Hnm IH].
  - lra.
  - cbn [ladderCost].
    pose proof (currentBuyAmount_nonneg c (Z.of_nat (S m)) Ha Hp). lra.
Qed.

Lemma ladderCost_flat (c : TradingConfig.t) (n : nat) :
  premiumRate c == 0 ->
  ladderCost c n == inject_Z (Z.of_nat n) * (initialAmount c * 10000).
Proof.
  intro Hp. induction n as [|n IH].
  - cbn. ring.
  - cbn [ladderCost]. rewrite IH, currentBuyAmount_eq, Hp.
    assert (E : 1 + 0 / 100 == 1) by reflexivity.
    rewrite E, Qpower_1.
    rewrite Nat2Z.inj_succ. unfold Z.succ. rewrite inject_Z_plus. ring.
Qed.

(** X14: the ladder caps the capital at work: under a configuration with
    [maxBuySteps >= 1], [initialAmount >= 0] and [premiumRate >= 0], the
    invested total of the live engine and of the backtest never exceeds the
    cost of the full ladder, which without premium is
    [maxBuySteps * initialAmount * 10000]. *)
Theorem invested_is_capped (c : TradingConfig.t) (markets : list CoinInfo.t)
    (ops : list op) (candles : list CandleData.t) :
  (1 <= maxBuySteps c)%Z ->
  0 <= initialAmount c ->
  0 <= premiumRate c ->
  totalInvested (statusOf (run (boot c markets) ops))
    <= ladderCost c (Z.to_nat (maxBuySteps c))
  /\ Backtest.totalInvested (Backtest.replay c candles)
       <= ladderCost c (Z.to_nat (maxBuySteps c))
  /\ (premiumRate c == 0 ->
      ladderCost c (Z.to_nat (maxBuySteps c))
      == inject_Z (maxBuySteps c) * (initialAmount c * 10000)).
Proof.
  intros Hmax Ha Hp. split; [|split].
  - destruct (run_costed c markets ops) as (H0 & _ & Hc).
    destruct (run_ladder c markets ops Hmax) as (_ & _ & Hl).
    unfold ladder in Hl. rewrite Hc. apply ladderCost_mono; try assumption.
    destruct (isActive _); lia.
  - destruct (replay_costedB c candles) as (H0 & Hc).
    pose proof (replay_bounded c candles Hmax) as Hb.
    rewrite Hc. apply ladderCost_mono; try assumption. lia.
  - intro Hz. rewrite (ladderCost_flat c _ Hz), Z2Nat.id by lia. reflexivity.
Qed.

Lemma invested_is_capped_witness :
  (1 <= maxBuySteps config_default)%Z
  /\ 0 <= initialAmount config_default
  /\ 0 <= premiumRate config_default
  /\ totalInvested (statusOf (run (boot config_default []) ops_round_trip))
       <= ladderCost config_default (Z.to_nat (maxBuySteps config_default))
  /\ ladderCost config_default (Z.to_nat (maxBuySteps config_default)) == 100000.
Proof.
  assert (Hmax : (1 <= maxBuySteps config_default)%Z) by (vm_compute; discriminate).
  assert (Ha : 0 <= initialAmount config_default) by (vm_compute; discriminate).
  assert (Hp : 0 <= premiumRate config_default) by (vm_compute; discriminate).
  destruct (invested_is_capped config_default [] ops_round_trip [] Hmax Ha Hp)
    as (Hlive & _ & Hflat).
  repeat (split; [assumption|]).
  eapply Qeq_trans; [apply Hflat; vm_compute; reflexivity | vm_compute; reflexivity].
Defined.

End CapitalCap.

(** * The results panel ([renderResultsSection] and the backtest card) *)

Section Results.

(** [tradeHistory.reduce((acc, cur) => acc + cur.pnlAmount, 0)] *)
Definition totalPnl (tradeHistory : list TradeRecord.t) : Q :=
  fold_left (fun acc cur => acc + TradeRecord.pnlAmount cur) tradeHistory 0.

Definition isProfit (h : TradeRecord.t) : bool :=
  match TradeRecord.exitType h with
  | PROFIT => true
  | LOSS => false
  end.

(** [tradeHistory.filter(h => h.exitType === 'PROFIT').length] *)
Definition winCount (tradeHistory : list TradeRecord.t) : nat :=
  List.length (filter isProfit tradeHistory).

(** [tradeHistory.length > 0 ? Math.round((winCount / tradeHistory.length) * 100) : 0] *)
Definition winRate (tradeHistory : list TradeRecord.t) : Q :=
  if (0 <? List.length tradeHistory)%nat
  then JS.Math_round
         ((inject_Z (Z.of_nat (winCount tradeHistory))
           / inject_Z (Z.of_nat (List.length tradeHistory))) * 100)
  else 0.

(** [btResult.totalTrades > 0 ? Math.round((btResult.winCount / btResult.totalTrades) * 100) : 0] *)
Definition backtestWinRate (btResult : BacktestResult.t) : Q :=
  if (BacktestResult.totalTrades btResult >? 0)%Z
  then JS.Math_round
         ((inject_Z (BacktestResult.winCount btResult)
           / inject_Z (BacktestResult.totalTrades btResult)) * 100)
  else 0.

Lemma Math_round_percent (x : Q) :
  0 <= x -> x <= 100 -> 0 <= JS.Math_round x /\ JS.Math_round x <= 100.
Proof.
  intros H0 H1. unfold JS.Math_round.
  assert (L : (Qfloor 0 <= Qfloor (x + (1 # 2)))%Z) by (apply Qfloor_resp_le; lra).
  assert (U : (Qfloor (x + (1 # 2)) <= Qfloor (201 # 2))%Z)
    by (apply Qfloor_resp_le; lra).
  change (Qfloor 0) with 0%Z in L. change (Qfloor (201 # 2)) with 100%Z in U.
  split.
  - change 0 with (inject_Z 0). rewrite <- Zle_Qle. exact L.
  - change 100 with (inject_Z 100). rewrite <- Zle_Qle. exact U.
Qed.

Lemma ratio_percent (w n : Z) :
  (0 <= w <= n)%Z -> (0 < n)%Z ->
  0 <= inject_Z w / inject_Z n * 100 /\ inject_Z w / inject_Z n * 100 <= 100.
Proof.
  intros (Hw & Hwn) Hn.
  assert (Qn : 0 < inject_Z n) by (change 0 with (inject_Z 0); rewrite <- Zlt_Qlt; lia).
  assert (Qw : 0 <= inject_Z w) by (change 0 with (inject_Z 0); rewrite <- Zle_Qle; lia).
  assert (Qwn : inject_Z w <= inject_Z n) by (rewrite <- Zle_Qle; lia).
  assert (R0 : 0 <= inject_Z w / inject_Z n) by (apply Qle_shift_div_l; lra).
  assert (R1 : inject_Z w / inject_Z n <= 1) by (apply Qle_shift_div_r; lra).
  split; lra.
Qed.

(** X15: the win rates shown to the user are percentages: for every history the
    live win rate lies between 0 and 100, is 0 for the empty history and 100
    when every exit was a profit; and the win rate of every backtest result
    lies between 0 and 100 as well. *)
Theorem win_rates_are_percentages (tradeHistory : list TradeRecord.t)
    (c : TradingConfig.t) (candles : list CandleData.t) :
  0 <= winRate tradeHistory /\ winRate tradeHistory <= 100
  /\ winRate [] = 0
  /\ (tradeHistory <> [] -> forallb isProfit tradeHistory = true ->
      winRate tradeHistory == 100)
  /\ 0 <= backtestWinRate (Backtest.result c (Backtest.replay c candles))
  /\ backtestWinRate (Backtest.result c (Backtest.replay c candles)) <= 100.
Proof.
  assert (Hw : (winCount tradeHistory <= List.length tradeHistory)%nat)
    by apply filter_length_le.
  assert (Hlive : 0 <= winRate tradeHistory /\ winRate tradeHistory <= 100).
  { unfold winRate. destruct (0 <? List.length tradeHistory)%nat eqn:E; [|lra].
    apply Nat.ltb_lt in E.
    destruct (ratio_percent (Z.of_nat (winCount tradeHistory))
                (Z.of_nat (List.length tradeHistory)) ltac:(lia) ltac:(lia)).
    apply Math_round_percent; assumption. }
  assert (Hback : 0 <= backtestWinRate (Backtest.result c (Backtest.replay c candles))
                  /\ backtestWinRate (Backtest.result c (Backtest.replay c candles)) <= 100).
  { unfold backtestWinRate. cbn [Backtest.result BacktestResult.totalTrades
                                  BacktestResult.winCount].
    destruct (replay_tallied c candles) as (Ht & Hwi & Hlo & _).
    destruct (Backtest.trades _ >? 0)%Z eqn:E; [|lra].
    apply Z.gtb_lt in E.
    destruct (ratio_percent (Backtest.wins (Backtest.replay c candles))
                (Backtest.trades (Backtest.replay c candles)) ltac:(lia) ltac:(lia)).
    apply Math_round_percent; assumption. }
  split; [apply Hlive|]. split; [apply Hlive|]. split; [reflexivity|].
  split; [|exact Hback].
  intros Hne Hall. unfold winRate, winCount.
  assert (Hf : filter isProfit tradeHistory = tradeHistory).
  { apply forallb_filter_id. exact Hall. }
  rewrite Hf.
  destruct tradeHistory as [|r rest]; [contradiction|].
  cbn [List.length Nat.ltb Nat.leb].
  set (n := Z.of_nat (S (List.length rest))).
  assert (Hn : 0 < inject_Z n)
    by (change 0 with (inject_Z 0); rewrite <- Zlt_Qlt; subst n; lia).
  unfold JS.Math_round.
  assert (E : inject_Z n / inject_Z n * 100 + (1 # 2) == 201 # 2) by (field; lra).
  rewrite E. reflexivity.
Qed.

End Results.

(** * The exchange client ([services/upbitService.ts]) *)

(** What a request to the exchange comes back with: the fetch or the JSON
    parsing throws, the JSON is not an array, or it is an array of rows. *)
Inductive response (A : Type) :=
| Unreachable
| NotAnArray
| Rows (rows : list A).
Arguments Unreachable {A}.
Arguments NotAnArray {A}.
Arguments Rows {A} rows.

(** A row of [/v1/candles/days], with the fields the client reads. *)
Module RawCandle.
Record t := mk {
  candle_date_time_kst : string;
  candle_date_time_utc : string;
  trade_price : Q;
  high_price : option Q;
  low_price : option Q;
  opening_price : option Q
}.
End RawCandle.

Module DailyCandles.

Definition batchSize : nat := 200.

(** The object built by the [map] callback. *)
Definition toCandle (c : RawCandle.t) : CandleData.t :=
  CandleData.mk (RawCandle.candle_date_time_kst c) (RawCandle.trade_price c)
    (RawCandle.high_price c) (RawCandle.low_price c) (RawCandle.opening_price c).

Section Paging.
(** The exchange: its answer to the request number [n] (counting from 0)
    carrying the cursor [to]; the empty cursor is the request without one. *)
Variable server : nat -> string -> response RawCandle.t.
Variable days : nat.

(** [while (allCandles.length < days) { ... }], with the number of requests
    made: [None] when a request throws.  A turn that goes round again has
    added at least [batchSize] rows. *)
Fixpoint fetchPages (fuel requests : nat) (allCandles : list RawCandle.t)
    (to : string) : option (list RawCandle.t) * nat :=
  match fuel with
  | O => (Some allCandles, requests)
  | S fuel =>
      if (List.length allCandles <? days)%nat then
        match server requests to with
        | Unreachable => (None, S requests)
        | NotAnArray => (Some allCandles, S requests)
        | Rows [] => (Some allCandles, S requests)
        | Rows ((first :: _) as actualData) =>
            let allCandles := allCandles ++ actualData in
            let to := RawCandle.candle_date_time_utc (last actualData first) in
            if (List.length actualData <? batchSize)%nat
            then (Some allCandles, S requests)
            else fetchPages fuel (S requests) allCandles to
        end
      else (Some allCandles, requests)
  end.

Definition enoughFuel : nat := S (days / batchSize).

(** [fetchDailyCandlesLong(market, days)] against [server]. *)
Definition fetchDailyCandlesLong : list CandleData.t :=
  match fst (fetchPages enoughFuel 0 [] "") with
  | Some allCandles => rev (firstn days (map toCandle allCandles))
  | None => []
  end.

Definition requestsMade : nat := snd (fetchPages enoughFuel 0 [] "").

End Paging.

End DailyCandles.

Section DailyCandlesFacts.
Import DailyCandles.
Variable server : nat -> string -> response RawCandle.t.
Variable days : nat.

Lemma fetchPages_fuel (f1 f2 requests : nat) (allCandles : list RawCandle.t)
    (to : string) :
  (days <= List.length allCandles + batchSize * f1)%nat ->
  (days <= List.length allCandles + batchSize * f2)%nat ->
  fetchPages server days f1 requests allCandles to
  = fetchPages server days f2 requests allCandles to.
Proof.
  revert f2 requests allCandles to.
  induction f1 as [|f1 IH]; intros f2 requests allCandles to H1 H2.
  - destruct f2 as [|f2]; [reflexivity|]. cbn [fetchPages].
    assert (E : (List.length allCandles <? days)%nat = false)
      by (apply Nat.ltb_ge; lia).
    now rewrite E.
  - destruct f2 as [|f2]; cbn [fetchPages].
    + assert (E : (List.length allCandles <? days)%nat = false)
        by (apply Nat.ltb_ge; lia).
      now rewrite E.
    + destruct (List.length allCandles <? days)%nat; [|reflexivity].
      destruct (server requests to) as [| |[|first rest]]; try reflexivity.
      destruct (List.length (first :: rest) <? batchSize)%nat eqn:E; [reflexivity|].
      apply Nat.ltb_ge in E.
      apply IH; rewrite length_app; lia.
Qed.

Lemma fetchPages_requests (fuel requests : nat) (allCandles : list RawCandle.t)
    (to : string) :
  (snd (fetchPages server days fuel requests allCandles to) <= requests + fuel)%nat.
Proof.
  revert requests allCandles to.
  induction fuel as [|fuel IH]; intros requests allCandles to; cbn [fetchPages].
  - cbn. lia.
  - destruct (List.length allCandles <? days)%nat; [|cbn; lia].
    destruct (server requests to) as [| |[|first rest]]; try (cbn; lia).
    destruct (List.length (first :: rest) <? batchSize)%nat; [cbn; lia|].
    etransitivity; [apply IH | lia].
Qed.

Lemma daily_candles_are_bounded_page (rows : list RawCandle.t) :
  (0 < days)%nat -> server 0%nat ""%string = Rows rows ->
  (List.length rows < 200)%nat ->
  fetchDailyCandlesLong server days = rev (firstn days (map toCandle rows))
  /\ requestsMade server days = 1%nat.
Proof.
  intros Hd H Hlen.
  unfold fetchDailyCandlesLong, requestsMade, enoughFuel. cbn [fetchPages].
  assert (E : (@List.length RawCandle.t [] <? days)%nat = true)
    by (apply Nat.ltb_lt; exact Hd).
  rewrite E, H.
  destruct rows as [|first rest]; [split; reflexivity|].
  assert (E' : (List.length (first :: rest) <? batchSize)%nat = true)
    by (apply Nat.ltb_lt; exact Hlen).
  rewrite E'. split; reflexivity.
Qed.

(** X16: paging through the daily candles ends, and within bounds: the list
    handed back never has more than [days] candles and costs at most
    [days / 200 + 1] requests, whatever the exchange answers (more fuel than
    that changes nothing); a first request that throws yields the empty list;
    and a first page shorter than a batch is the whole result, newest
    last, after a single request. *)
Theorem daily_candles_are_bounded :
  (List.length (fetchDailyCandlesLong server days) <= days)%nat
  /\ (requestsMade server days <= days / 200 + 1)%nat
  /\ (forall fuel, (enoughFuel days <= fuel)%nat ->
        fetchPages server days fuel 0 [] ""
        = fetchPages server days (enoughFuel days) 0 [] "")
  /\ (server 0%nat ""%string = Unreachable ->
      fetchDailyCandlesLong server days = [])
  /\ (forall rows,
        (0 < days)%nat -> server 0%nat ""%string = Rows rows ->
        (List.length rows < 200)%nat ->
        fetchDailyCandlesLong server days = rev (firstn days (map toCandle rows))
        /\ requestsMade server days = 1%nat).
Proof.
  assert (Hdiv : (days < batchSize * enoughFuel days)%nat).
  { unfold enoughFuel, batchSize.
    pose proof (Nat.div_mod days 200 ltac:(lia)).
    pose proof (Nat.mod_upper_bound days 200 ltac:(lia)). lia. }
  split; [|split; [|split; [|split]]].
  - unfold fetchDailyCandlesLong.
    destruct (fst _); [|cbn; lia].
    rewrite length_rev. apply firstn_le_length.
  - unfold requestsMade.
    pose proof (fetchPages_requests (enoughFuel days) 0 [] "") as H.
    unfold enoughFuel, batchSize in *. lia.
  - intros fuel Hf. apply fetchPages_fuel; cbn [List.length]; nia.
  - intro H. unfold fetchDailyCandlesLong, enoughFuel. cbn [fetchPages].
    destruct (List.length [] <? days)%nat; [rewrite H; reflexivity|].
    cbn. now rewrite firstn_nil.
  - intros rows Hd H Hlen. apply daily_candles_are_bounded_page; assumption.
Qed.

End DailyCandlesFacts.

Section BacktestData.
Import DailyCandles.

(** [runBacktest] on the candles it fetches itself:
    [fetchDailyCandlesLong(config.coin, 730)]. *)
Definition runBacktestOn (c : TradingConfig.t)
    (server : nat -> string -> response RawCandle.t) : BacktestResult.t + string :=
  Backtest.runBacktest c (fetchDailyCandlesLong server 730).

(** X17: without data the backtest reports nothing: when the first request
    throws, or answers with something that is not an array, or with an empty
    array, the user gets the "no data" alert instead of a result; when it
    answers with a single short page, the result is the replay of that
    page's candles, oldest first. *)
Theorem backtest_needs_data (c : TradingConfig.t)
    (server : nat -> string -> response RawCandle.t) :
  (server 0%nat ""%string = Unreachable
   \/ server 0%nat ""%string = NotAnArray
   \/ server 0%nat ""%string = Rows [] ->
   runBacktestOn c server = inr "조회된 데이터가 없습니다."%string)
  /\ (forall first rest,
        server 0%nat ""%string = Rows (first :: rest) ->
        (List.length (first :: rest) < 200)%nat ->
        runBacktestOn c server
        = inl (Backtest.result c
                 (Backtest.replay c (rev (map toCandle (first :: rest)))))).
Proof.
  split.
  - intros [H|[H|H]]; unfold runBacktestOn, fetchDailyCandlesLong, enoughFuel;
      cbn [fetchPages Nat.div]; cbn; rewrite H; reflexivity.
  - intros first rest H Hlen.
    destruct (daily_candles_are_bounded_page server 730 (first :: rest)
                ltac:(lia) H Hlen) as (E & _).
    unfold runBacktestOn. rewrite E.
    rewrite firstn_all2 by (rewrite length_map; lia).
    destruct (rev (map toCandle (first :: rest))) as [|x l] eqn:R.
    + apply (f_equal (@List.length _)) in R.
      rewrite length_rev, length_map in R. discriminate R.
    + reflexivity.
Qed.

End BacktestData.

Module Markets.

(** [item.market.startsWith('KRW-')] *)
Definition isKrw (item : CoinInfo.t) : bool :=
  String.prefix "KRW-" (CoinInfo.market item).

(** The list of the [catch] branch. *)
Definition fallback : list CoinInfo.t :=
  [CoinInfo.mk "KRW-BTC" "비트코인" "Bitcoin";
   CoinInfo.mk "KRW-ETH" "이더리움" "Ethereum"].

(** [fetchMarketList()], given what the request came back with. *)
Definition fetchMarketList (r : response CoinInfo.t) : list CoinInfo.t :=
  match r with
  | Rows data => filter isKrw data
  | NotAnArray => []
  | Unreachable => fallback
  end.

End Markets.

Section MarketsFacts.
Import Markets.

(** X18: only won markets reach the application: whatever the request came back
    with, every market handed to the caller has a code starting with [KRW-];
    from an array the caller gets exactly its won markets, in the order
    received, and from an unreachable exchange the two built-in ones, under
    which the default coin [KRW-BTC] keeps its display name. *)
Theorem markets_are_won_markets (r : response CoinInfo.t) :
  Forall (fun m => String.prefix "KRW-" (CoinInfo.market m) = true)
    (fetchMarketList r)
  /\ (forall data m,
        r = Rows data ->
        (In m (fetchMarketList r) <-> In m data /\ isKrw m = true))
  /\ (forall data, r = Rows data -> Forall (fun m => isKrw m = true) data ->
        fetchMarketList r = data)
  /\ (r = Unreachable ->
      coinNameOf (fetchMarketList r) "KRW-BTC" = "비트코인"%string).
Proof.
  split; [|split; [|split]].
  - destruct r as [| |data]; cbn [fetchMarketList].
    + repeat constructor.
    + constructor.
    + apply Forall_forall. intros m Hm. apply filter_In in Hm. apply Hm.
  - intros data m ->. cbn [fetchMarketList]. apply filter_In.
  - intros data -> Hall. cbn [fetchMarketList].
    apply forallb_filter_id. apply forallb_forall.
    intros m Hm. rewrite Forall_forall in Hall. apply Hall. exact Hm.
  - intros ->. vm_compute. reflexivity.
Qed.

End MarketsFacts.

Module OrderBody.

(** A value of the request body: a string, a number (sent as its
    [toString()] rendering), or [undefined]. *)
Inductive value :=
| Text (s : string)
| Number (x : Q)
| Undefined.

(** [Math.floor(x)] *)
Definition Math_floor (x : Q) : Q := inject_Z (Qfloor x).

Definition sideText (side : Side) : string :=
  match side with
  | bid => "bid"
  | ask => "ask"
  end.

Definition ordTypeText (ord_type : OrdType) : string :=
  match ord_type with
  | ord_limit => "limit"
  | ord_price => "price"
  | ord_market => "market"
  end.

(** [volume?.toString()] *)
Definition volumeValue (volume : option Q) : value :=
  match volume with
  | Some v => Number v
  | None => Undefined
  end.

(** The [body] object of [placeUpbitOrder], keys in insertion order. *)
Definition build (o : Order.t) : list (string * value) :=
  let body :=
    [("market"%string, Text (Order.market o));
     ("side"%string, Text (sideText (Order.side o)));
     ("ord_type"%string, Text (ordTypeText (Order.ord_type o)))] in
  match Order.ord_type o with
  | ord_price =>
      body ++ [("price"%string, Number (Math_floor (Order.amount_or_price o)))]
  | ord_market =>
      body ++ [("volume"%string, volumeValue (Order.volume o))]
  | ord_limit =>
      body ++ [("price"%string, Number (Order.amount_or_price o));
               ("volume"%string, volumeValue (Order.volume o))]
  end.

(** [body[key]] *)
Fixpoint get (key : string) (body : list (string * value)) : option value :=
  match body with
  | [] => None
  | (k, v) :: rest => if String.eqb k key then Some v else get key rest
  end.

End OrderBody.

Section OrderBodyFacts.
Import OrderBody TradeStatus TradingConfig.

(** X19: what the exchange is asked for: a buy of the engine names the whole
    number of won at or below the amount the engine books (less than one won
    is dropped) and no volume; with a whole [initialAmount] and no premium
    nothing is dropped; a sell names the position's whole [totalQuantity]
    and no price. *)
Theorem orders_as_sent (c : TradingConfig.t) (s : TradeStatus.t)
    (t : TickerData.t) (n : Z) :
  let amount := currentBuyAmount c n in
  let buy := build (buyOrder c amount) in
  let sell := build (sellOrder c s t) in
  get "price" buy = Some (Number (Math_floor amount))
  /\ Math_floor amount <= amount
  /\ amount < Math_floor amount + 1
  /\ get "volume" buy = None
  /\ get "side" buy = Some (Text "bid")
  /\ (premiumRate c == 0 -> (exists k : Z, initialAmount c == inject_Z k) ->
      Math_floor amount == amount)
  /\ get "volume" sell = Some (Number (totalQuantity s))
  /\ get "price" sell = None
  /\ get "side" sell = Some (Text "ask").
Proof.
  intros amount buy sell.
  split; [reflexivity|]. split; [apply Qfloor_le|].
  split.
  { pose proof (Qlt_floor amount) as H. unfold Math_floor.
    rewrite inject_Z_plus in H. exact H. }
  split; [reflexivity|]. split; [reflexivity|].
  split; [|repeat split].
  intros Hp [k Hk]. subst buy sell amount. unfold Math_floor.
  assert (E : currentBuyAmount c n == inject_Z (k * 10000)).
  { rewrite currentBuyAmount_eq, Hp, Hk.
    assert (E1 : 1 + 0 / 100 == 1) by reflexivity.
    rewrite E1, Qpower_1, inject_Z_mult. ring. }
  rewrite (Qfloor_comp _ _ E), Qfloor_Z. symmetry. exact E.
Qed.

End OrderBodyFacts.

(** * Presentation helpers of [updateLoop] and of the token builder *)

Module PriceHistory.

(** One point of the live chart. *)
Definition point : Type := (string * Q)%type.

(** [list.slice(-40)] *)
Definition lastForty (l : list point) : list point :=
  skipn (List.length l - 40) l.

(** The updater given to [setPriceHistory], for the clock's [timeStr] and
    the tick's price; the head of [rev prev] is [prev[prev.length - 1]], and
    there is one exactly when [prev.length > 0]. *)
Definition push (timeStr : string) (currentPrice : Q) (prev : list point)
    : list point :=
  match rev prev with
  | lastPoint :: _ =>
      if String.eqb (fst lastPoint) timeStr then prev
      else lastForty (prev ++ [(timeStr, currentPrice)])
  | [] => lastForty (prev ++ [(timeStr, currentPrice)])
  end.

(** The chart after a sequence of ticks, oldest first. *)
Definition chart (ticks : list (string * Q)) : list point :=
  fold_left (fun prev tick => push (fst tick) (snd tick) prev) ticks [].

End PriceHistory.

Section PriceHistoryFacts.
Import PriceHistory.

(** No two neighbouring points carry the same time label. *)
Fixpoint noRepeat (l : list point) : Prop :=
  match l with
  | a :: ((b :: _) as rest) => fst a <> fst b /\ noRepeat rest
  | _ => True
  end.

Lemma noRepeat_tail (a : point) (l : list point) : noRepeat (a :: l) -> noRepeat l.
Proof. destruct l; cbn; tauto. Qed.

Lemma noRepeat_skipn (n : nat) (l : list point) : noRepeat l -> noRepeat (skipn n l).
Proof.
  revert l. induction n as [|n IH]; intros l H; [exact H|].
  destruct l as [|a l]; [exact H|]. cbn [skipn]. apply IH.
  exact (noRepeat_tail a l H).
Qed.

Lemma noRepeat_snoc (l : list point) (x y : point) :
  noRepeat (l ++ [x]) -> fst x <> fst y -> noRepeat ((l ++ [x]) ++ [y]).
Proof.
  induction l as [|a l IH]; intros H Hxy.
  - cbn. tauto.
  - destruct l as [|b l].
    + cbn in *. tauto.
    + cbn in H. destruct H as (Hab & H). cbn. split; [exact Hab|].
      apply IH; assumption.
Qed.

Lemma lastForty_length (l : list point) : (List.length (lastForty l) <= 40)%nat.
Proof. unfold lastForty. rewrite length_skipn. lia. Qed.

Lemma lastForty_last (l : list point) (x d : point) :
  last (lastForty (l ++ [x])) d = x.
Proof.
  unfold lastForty. rewrite length_app. cbn [List.length].
  destruct (Nat.le_gt_cases (List.length l + 1) 40) as [H|H].
  - replace (List.length l + 1 - 40)%nat with 0%nat by lia.
    cbn [skipn]. apply last_last.
  - rewrite skipn_app.
    replace (List.length l + 1 - 40 - List.length l)%nat with 0%nat by lia.
    cbn [skipn]. apply last_last.
Qed.

Lemma push_keeps (timeStr : string) (currentPrice : Q) (prev : list point) :
  (List.length prev <= 40)%nat -> noRepeat prev ->
  (List.length (push timeStr currentPrice prev) <= 40)%nat
  /\ noRepeat (push timeStr currentPrice prev)
  /\ (forall d, fst (last (push timeStr currentPrice prev) d) = timeStr).
Proof.
  intros Hlen Hn. unfold push.
  destruct (rev prev) as [|lastPoint front] eqn:R.
  - apply (f_equal (@rev _)) in R. rewrite rev_involutive in R. subst prev.
    cbn. split; [lia|]. split; [exact I|]. intro d. reflexivity.
  - apply (f_equal (@rev _)) in R. rewrite rev_involutive in R. cbn in R.
    destruct (String.eqb (fst lastPoint) timeStr) eqn:E.
    + apply String.eqb_eq in E. split; [exact Hlen|]. split; [exact Hn|].
      intro d. subst prev. rewrite last_last. exact E.
    + apply String.eqb_neq in E. split; [apply lastForty_length|]. split.
      * unfold lastForty. apply noRepeat_skipn. subst prev.
        apply noRepeat_snoc; assumption.
      * intro d. rewrite lastForty_last. reflexivity.
Qed.

(** X20: the live chart stays small and tidy: after any sequence of ticks it
    holds at most 40 points and no two neighbouring points with the same time
    label, and its newest point carries the time of the latest tick. *)
Theorem chart_is_bounded (ticks : list (string * Q)) :
  (List.length (chart ticks) <= 40)%nat
  /\ noRepeat (chart ticks)
  /\ (forall tick d, fst (last (chart (ticks ++ [tick])) d) = fst tick).
Proof.
  assert (H : (List.length (chart ticks) <= 40)%nat /\ noRepeat (chart ticks)).
  { unfold chart. induction ticks as [|tick ticks IH] using rev_ind.
    - cbn. split; [lia | exact I].
    - rewrite fold_left_app. cbn [fold_left]. destruct IH as (Hl & Hn).
      destruct (push_keeps (fst tick) (snd tick) _ Hl Hn) as (H1 & H2 & _).
      split; assumption. }
  destruct H as (Hl & Hn). split; [exact Hl|]. split; [exact Hn|].
  intros tick d. unfold chart. rewrite fold_left_app. cbn [fold_left].
  apply push_keeps; assumption.
Qed.

End PriceHistoryFacts.

Module Base64Url.

(** [s.replace(/x/g, '')] for a single character [x]. *)
Fixpoint remove (x : ascii) (s : string) : string :=
  match s with
  | EmptyString => EmptyString
  | String a rest =>
      if Ascii.eqb a x then remove x rest else String a (remove x rest)
  end.

(** [s.replace(/x/g, 'y')] for single characters [x] and [y]. *)
Fixpoint replace (x y : ascii) (s : string) : string :=
  match s with
  | EmptyString => EmptyString
  | String a rest =>
      String (if Ascii.eqb a x then y else a) (replace x y rest)
  end.

(** [base64UrlEncode], from the Base64 text [encoded] that the library's
    [Base64.stringify] produced for the source. *)
Definition base64UrlEncode (encoded : string) : string :=
  replace "/" "_" (replace "+" "-" (remove "=" encoded)).

Fixpoint allChars (p : ascii -> bool) (s : string) : bool :=
  match s with
  | EmptyString => true
  | String a rest => p a && allChars p rest
  end.

Definition between (lo hi a : ascii) : bool :=
  (nat_of_ascii lo <=? nat_of_ascii a)%nat && (nat_of_ascii a <=? nat_of_ascii hi)%nat.

Definition isAlphaNum (a : ascii) : bool :=
  between "A" "Z" a || between "a" "z" a || between "0" "9" a.

(** The alphabet of Base64 with padding. *)
Definition isBase64 (a : ascii) : bool :=
  isAlphaNum a || Ascii.eqb a "+" || Ascii.eqb a "/" || Ascii.eqb a "=".

(** The URL-safe alphabet, without padding. *)
Definition isUrlSafe (a : ascii) : bool :=
  isAlphaNum a || Ascii.eqb a "-" || Ascii.eqb a "_".

End Base64Url.

Section Base64UrlFacts.
Import Base64Url.

Lemma swap_url_safe (a : ascii) :
  isBase64 a = true -> Ascii.eqb a "=" = false ->
  isUrlSafe
    (if Ascii.eqb (if Ascii.eqb a "+" then "-"%char else a) "/"
     then "_"%char
     else if Ascii.eqb a "+" then "-"%char else a) = true.
Proof.
  destruct a as [[] [] [] [] [] [] [] []]; vm_compute; intros H1 H2;
    first [reflexivity | discriminate].
Qed.

Lemma encode_cons (a : ascii) (rest : string) :
  base64UrlEncode (String a rest)
  = if Ascii.eqb a "=" then base64UrlEncode rest
    else String
           (if Ascii.eqb (if Ascii.eqb a "+" then "-"%char else a) "/"
            then "_"%char
            else if Ascii.eqb a "+" then "-"%char else a)
           (base64UrlEncode rest).
Proof.
  unfold base64UrlEncode. cbn [remove].
  destruct (Ascii.eqb a "="); reflexivity.
Qed.

Lemma encode_length (encoded : string) :
  (String.length (base64UrlEncode encoded) <= String.length encoded)%nat.
Proof.
  induction encoded as [|a rest IH]; [cbn; lia|].
  rewrite encode_cons. destruct (Ascii.eqb a "="); cbn [String.length]; lia.
Qed.

Lemma encode_fixes_url_safe (s : string) :
  allChars isUrlSafe s = true -> base64UrlEncode s = s.
Proof.
  induction s as [|a rest IH]; [reflexivity|].
  cbn [allChars]. intro H. apply andb_true_iff in H. destruct H as (Ha & Hr).
  rewrite encode_cons, (IH Hr).
  revert Ha. clear.
  destruct a as [[] [] [] [] [] [] [] []]; vm_compute; intro Ha;
    first [reflexivity | discriminate].
Qed.

(** X21: tokens are URL-safe: whatever Base64 text comes in, the encoded text
    is made of letters, digits, [-] and [_] only (no [=], [+] or [/] is
    left), is never longer than the input, and encoding it again changes
    nothing. *)
Theorem base64url_is_url_safe (encoded : string) :
  allChars isBase64 encoded = true ->
  allChars isUrlSafe (base64UrlEncode encoded) = true
  /\ (String.length (base64UrlEncode encoded) <= String.length encoded)%nat
  /\ base64UrlEncode (base64UrlEncode encoded) = base64UrlEncode encoded.
Proof.
  intro H.
  assert (Hsafe : allChars isUrlSafe (base64UrlEncode encoded) = true).
  { induction encoded as [|a rest IH]; [reflexivity|].
    cbn [allChars] in H. apply andb_true_iff in H. destruct H as (Ha & Hr).
    rewrite encode_cons. destruct (Ascii.eqb a "=") eqn:E; [exact (IH Hr)|].
    cbn [allChars]. rewrite (IH Hr), (swap_url_safe a Ha E). reflexivity. }
  split; [exact Hsafe|]. split; [apply encode_length|].
  apply encode_fixes_url_safe. exact Hsafe.
Qed.

Lemma base64url_is_url_safe_witness :
  allChars isBase64 "eyJhbGciOiJIUzI1NiJ9+/8=" = true
  /\ base64UrlEncode "eyJhbGciOiJIUzI1NiJ9+/8=" = "eyJhbGciOiJIUzI1NiJ9-_8"%string
  /\ allChars isUrlSafe (base64UrlEncode "eyJhbGciOiJIUzI1NiJ9+/8=") = true.
Proof.
  assert (H : allChars isBase64 "eyJhbGciOiJIUzI1NiJ9+/8=" = true)
    by (vm_compute; reflexivity).
  split; [exact H|]. split; [vm_compute; reflexivity|].
  exact (proj1 (base64url_is_url_safe "eyJhbGciOiJIUzI1NiJ9+/8=" H)).
Defined.

End Base64UrlFacts.

(** * The second copy of the engine ([components/InputGroup.tsx]) *)

Module SecondCopy.
Import TradeStatus TradingConfig.
Local Open Scope js_scope.

(** [updateLoop] of the second copy: no start guard, no history, and the
    scale-in branch left empty. *)
Definition updateLoop (ticker : option TickerData.t) (answer : reply) : M unit :=
  try_catch
    (match ticker with
     | Some ticker =>
         setIsNetworkError false ;;
         let currentPrice := TickerData.price ticker in
         s <- getStatus ;;
         c <- getConfig ;;
         if isActive s then
           let pnl := ((currentPrice - averagePrice s)
                         / JS.or (averagePrice s) currentPrice) * 100 in
           (if JS.ge pnl (targetProfit c) || JS.le pnl (- stopLoss c) then
              try_catch
                (placeUpbitOrder answer (coin c) ask ord_market currentPrice
                   (Some (totalQuantity s)) ;;
                 setStatus (fun prev =>
                   TradeStatus.mk false 0 (averagePrice prev) (totalQuantity prev)
                     (totalInvested prev) (TradeStatus.currentPrice prev) (pnlPercentage prev)
                     (currentChangeRate prev) (lastBuyPrice prev)))
                (fun e => alert e)
            else if (currentStep s <? maxBuySteps c)%Z
                    && JS.le currentPrice (lastBuyPrice s * (1 - buyInterval c / 100))
            then ret tt
            else ret tt) ;;
           setStatus (fun prev =>
             TradeStatus.mk (isActive prev) (currentStep prev) (averagePrice prev)
               (totalQuantity prev) (totalInvested prev) currentPrice pnl
               (TickerData.changeRate ticker) (lastBuyPrice prev))
         else
           setStatus (fun prev =>
             TradeStatus.mk (isActive prev) (currentStep prev) (averagePrice prev)
               (totalQuantity prev) (totalInvested prev) currentPrice
               (pnlPercentage prev) (TickerData.changeRate ticker) (lastBuyPrice prev))
     | None => ret tt
     end)
    (fun _ => setIsNetworkError true).

End SecondCopy.

Section Drift.
Import TradeStatus TradingConfig.

Ltac run_second w :=
  destruct w as [[? [] ? ? ? ? ?] ?];
  unfold configOf, statusOf in *; cbn in *; intros; subst;
  unfold SecondCopy.updateLoop, placeUpbitOrder, bind, try_catch, ret, throw,
    emit, alert, setStatus, setIsNetworkError, modify, getStatus, getConfig;
  cbn.

Lemma second_exit_filled (w : World) (t : TickerData.t) :
  isActive (statusOf w) = true ->
  exitCondition (configOf w) (pnl (statusOf w) (TickerData.price t)) = true ->
  SecondCopy.updateLoop (Some t) Filled w
  = (Normal tt,
     mkWorld
       (withStatus (app w)
          (TradeStatus.mk false 0 (averagePrice (statusOf w))
             (totalQuantity (statusOf w)) (totalInvested (statusOf w))
             (TickerData.price t) (pnl (statusOf w) (TickerData.price t))
             (TickerData.changeRate t) (lastBuyPrice (statusOf w)))
          false)
       (out w ++ [PlaceOrder (sellOrder (configOf w) (statusOf w) t)])).
Proof.
  unfold exitCondition, pnl. run_second w.
  match goal with H : _ || _ = true |- _ => rewrite H end.
  reflexivity.
Qed.

Lemma second_exit_rejected (w : World) (t : TickerData.t) (e : string) :
  isActive (statusOf w) = true ->
  exitCondition (configOf w) (pnl (statusOf w) (TickerData.price t)) = true ->
  SecondCopy.updateLoop (Some t) (Rejected e) w
  = (Normal tt,
     mkWorld (withStatus (app w) (heldStatus (statusOf w) t) false)
       ((out w ++ [PlaceOrder (sellOrder (configOf w) (statusOf w) t)])
          ++ [Alert e])).
Proof.
  unfold exitCondition, pnl. run_second w.
  match goal with H : _ || _ = true |- _ => rewrite H end.
  reflexivity.
Qed.

(** X22: the two copies of the engine have drifted apart on exits.  When an exit
    condition fires and the exchange rejects the sell, [index.tsx] closes the
    position and logs a record, while the second copy keeps the position open
    with its fields untouched, alerts the user and sells again on the next
    such tick; when the sell is accepted, the second copy clears [isActive]
    and [currentStep] only (average, quantity and invested total stay as
    they were) and adds no record to the history. *)
Theorem copies_differ_on_exit (w : World) (t : TickerData.t) (clock : Clock.t)
    (e : string) :
  App.isStarting (app w) = false ->
  isActive (statusOf w) = true ->
  exitCondition (configOf w) (pnl (statusOf w) (TickerData.price t)) = true ->
  let first := snd (updateLoop (Some t) clock (Rejected e) w) in
  let second := snd (SecondCopy.updateLoop (Some t) (Rejected e) w) in
  let sold := snd (SecondCopy.updateLoop (Some t) Filled w) in
  isActive (statusOf first) = false
  /\ List.length (App.tradeHistory (app first))
     = S (List.length (App.tradeHistory (app w)))
  /\ statusOf second = heldStatus (statusOf w) t
  /\ isActive (statusOf second) = true
  /\ alertsIn (out second) = alertsIn (out w) ++ [e]
  /\ (exists rest,
        out (snd (SecondCopy.updateLoop (Some t) Filled second))
        = out second
          ++ PlaceOrder (sellOrder (configOf w) (statusOf w) t) :: rest)
  /\ isActive (statusOf sold) = false
  /\ currentStep (statusOf sold) = 0%Z
  /\ averagePrice (statusOf sold) = averagePrice (statusOf w)
  /\ totalInvested (statusOf sold) = totalInvested (statusOf w)
  /\ App.tradeHistory (app sold) = App.tradeHistory (app w).
Proof.
  intros Hs Ha Hx first second sold. subst first second sold.
  rewrite updateLoop_exit by assumption.
  rewrite second_exit_rejected by assumption. cbn [snd].
  set (w2 := mkWorld (withStatus (app w) (heldStatus (statusOf w) t) false) _).
  assert (Ha2 : isActive (statusOf w2) = true) by exact Ha.
  assert (Hx2 : exitCondition (configOf w2) (pnl (statusOf w2) (TickerData.price t)) = true)
    by exact Hx.
  rewrite (second_exit_filled w2 t Ha2 Hx2).
  rewrite second_exit_filled by assumption.
  cbn [snd app out statusOf withStatus withHistory App.status App.tradeHistory
       isActive currentStep averagePrice totalInvested exitedStatus heldStatus].
  split; [reflexivity|]. split; [reflexivity|]. split; [reflexivity|].
  split; [exact Ha|]. split.
  - subst w2. cbn [out]. rewrite ?alertsIn_app. cbn. rewrite ?app_nil_r. reflexivity.
  - split; [exists []; reflexivity|]. repeat split.
Qed.

Lemma copies_differ_on_exit_witness :
  let w := world_at_100 in
  let t := ticker_at 80 in
  exitCondition (configOf w) (pnl (statusOf w) (TickerData.price t)) = true
  /\ isActive (statusOf (snd (updateLoop (Some t) clock_0 (Rejected "ask_failed") w)))
     = false
  /\ isActive (statusOf (snd (SecondCopy.updateLoop (Some t) (Rejected "ask_failed") w)))
     = true.
Proof.
  intros w t.
  assert (Hx : exitCondition (configOf w) (pnl (statusOf w) (TickerData.price t)) = true)
    by (vm_compute; reflexivity).
  destruct (copies_differ_on_exit w t clock_0 "ask_failed" eq_refl eq_refl Hx)
    as (H1 & _ & _ & H4 & _).
  split; [exact Hx|]. split; [exact H1 | exact H4].
Defined.

End Drift.
